(** * FitnessApp: plan generation, progression, progress analysis and the
      daily recommender

    A shallow embedding of [planner.py] (class [WorkoutPlanner]),
    [progresstracker.py] (class [ProgressTracker]) and [Engine.py]
    (class [WorkoutRecommender]), with the properties the specification
    states about them.

    Conventions.
    - Python [int] is [Z]; Python [str] is [string] (ASCII; [str.lower] and
      [int(...)] are modelled on ASCII text).
    - Python floats are modelled by exact rationals [Q]: the Brzycki
      estimate and the percentages are computed without rounding error.
      [np.polyfit] is numpy's numerical fit and no code of the repository:
      the functions that call it take its slope as a parameter [polyfit].
    - A raised exception is the left summand of [sum exn]; the code between
      a raise and the caller is skipped, as in Python.
    - Dates are day ordinals ([Z]), as [date.toordinal] counts them; ISO
      "YYYY-MM-DD" text is ordered the same way, which is all the SQL text
      comparisons of the source use. [datetime] holds the days 1 to 3652059
      (the years 1 to 9999) only.
    - [ORDER BY RANDOM()] and [random.choice] read an explicit list of
      natural numbers (the random source). *)

From Stdlib Require Import ZArith QArith Qround Qminmax String Ascii List Bool
  Lia Lqa DecimalString DecimalPos Sorted.
From ExtLib Require Import Structures.Monad Data.Monads.EitherMonad.
Import ListNotations.
Import MonadNotation.

Local Open Scope string_scope.
Local Open Scope monad_scope.
Local Open Scope Z_scope.

(** ** Python values and built-ins used by the source *)

Module Py.

Inductive exn : Type :=
| ValueError
| KeyError
| ZeroDivisionError
| NameError
| OverflowError.

Definition result (A : Type) : Type := sum exn A.

#[global] Instance Monad_result : Monad result := Monad_either exn.

Definition raise {A : Type} (e : exn) : result A := inl e.

(** [sub in s] on strings. *)
Fixpoint contains (sub s : string) : bool :=
  prefix sub s ||
  match s with
  | EmptyString => false
  | String _ s' => contains sub s'
  end.

(** [s.split(sep)] for a one-character separator. *)
Fixpoint split (sep : ascii) (s : string) : list string :=
  match s with
  | EmptyString => [EmptyString]
  | String c s' =>
      if Ascii.eqb c sep then EmptyString :: split sep s'
      else match split sep s' with
           | p :: ps => String c p :: ps
           | [] => [String c EmptyString]
           end
  end.

Definition is_space (c : ascii) : bool :=
  let n := Z.of_nat (nat_of_ascii c) in
  ((9 <=? n) && (n <=? 13)) || (n =? 32).

Definition digit_of (c : ascii) : option Z :=
  let n := Z.of_nat (nat_of_ascii c) in
  if (48 <=? n) && (n <=? 57) then Some (n - 48) else None.

Fixpoint lstrip (s : string) : string :=
  match s with
  | EmptyString => EmptyString
  | String c s' => if is_space c then lstrip s' else s
  end.

Fixpoint rev_append (s acc : string) : string :=
  match s with
  | EmptyString => acc
  | String c s' => rev_append s' (String c acc)
  end.

Definition rev (s : string) : string := rev_append s EmptyString.

Definition strip (s : string) : string := rev (lstrip (rev (lstrip s))).

(** The digits of an integer literal: at least one digit, single
    underscores allowed between digits only. *)
Fixpoint digits (acc : Z) (after_digit : bool) (s : string) : option Z :=
  match s with
  | EmptyString => if after_digit then Some acc else None
  | String c s' =>
      match digit_of c with
      | Some d => digits (10 * acc + d) true s'
      | None =>
          if Ascii.eqb c "_" && after_digit then digits acc false s'
          else None
      end
  end.

(** [int(s)] for a string [s] of ASCII text within the 4300 digits Python
    converts: surrounding white space is dropped, one sign is accepted,
    anything else raises [ValueError]. *)
Definition int (s : string) : result Z :=
  let parse (neg : bool) (body : string) : result Z :=
    match digits 0 false body with
    | Some n => ret (if neg then - n else n)
    | None => raise ValueError
    end in
  match strip s with
  | String c body =>
      if Ascii.eqb c "-" then parse true body
      else if Ascii.eqb c "+" then parse false body
      else parse false (String c body)
  | EmptyString => parse false EmptyString
  end.

(** [str(n)], as an f-string prints an integer. *)
Definition str (n : Z) : string := NilZero.string_of_int (Z.to_int n).

Definition lower_ascii (c : ascii) : ascii :=
  let n := nat_of_ascii c in
  if (65 <=? n)%nat && (n <=? 90)%nat then ascii_of_nat (n + 32) else c.

(** [s.lower()]. *)
Fixpoint lower (s : string) : string :=
  match s with
  | EmptyString => EmptyString
  | String c s' => String (lower_ascii c) (lower s')
  end.

(** [int(b)] for a boolean. *)
Definition int_of_bool (b : bool) : Z := if b then 1 else 0.

(** [l[:k]]. *)
Definition slice_to {A : Type} (k : Z) (l : list A) : list A :=
  if 0 <=? k then firstn (Z.to_nat k) l
  else firstn (length l - Z.to_nat (- k)) l.

(** [[x] * n]. *)
Definition replicate {A : Type} (n : Z) (x : A) : list A :=
  repeat x (Z.to_nat n).

(** [for x in l: ...] where the body may raise: the first exception ends
    the loop. *)
Fixpoint for_each {A B : Type} (f : A -> result B) (l : list A)
  : result (list B) :=
  match l with
  | [] => ret []
  | x :: l' =>
      y <- f x ;;
      ys <- for_each f l' ;;
      ret (y :: ys)
  end.

(** [range(a, b)]. *)
Definition range (a b : Z) : list Z :=
  map (fun i => a + Z.of_nat i) (seq 0 (Z.to_nat (b - a))).

End Py.

(** ** planner.py *)

Module Planner.

Import Py.

(** *** [_determine_training_split] *)

Definition training_splits (goal : string) (n : Z) : option (list string) :=
  if String.eqb goal "Sports and Athletics" then
    match n with
    | 2 => Some ["Full Body"; "Full Body"]
    | 3 => Some ["Upper Body"; "Lower Body"; "Full Body"]
    | 4 => Some ["Upper Body"; "Lower Body"; "Cardio/Plyometrics";
                 "Sport Specific"]
    | 5 => Some ["Upper Push"; "Lower Pull"; "Rest/Recovery"; "Upper Pull";
                 "Lower Push"]
    | _ => None
    end
  else if String.eqb goal "Body Building" then
    match n with
    | 3 => Some ["Push"; "Pull"; "Legs"]
    | 4 => Some ["Upper Body"; "Lower Body"; "Upper Body"; "Lower Body"]
    | 5 => Some ["Chest/Triceps"; "Back/Biceps"; "Legs/Shoulders";
                 "Upper Body"; "Lower Body"]
    | 6 => Some ["Push"; "Pull"; "Legs"; "Push"; "Pull"; "Legs"]
    | _ => None
    end
  else if String.eqb goal "Body Weight Fitness" then
    match n with
    | 2 => Some ["Upper Body"; "Lower Body"]
    | 3 => Some ["Push"; "Pull"; "Legs/Core"]
    | 4 => Some ["Horizontal Push/Pull"; "Legs"; "Vertical Push/Pull";
                 "Core/Conditioning"]
    | _ => None
    end
  else if String.eqb goal "Weight Loss" then
    match n with
    | 2 => Some ["Full Body + HIIT"; "Full Body + Steady Cardio"]
    | 3 => Some ["Upper Body + HIIT"; "Lower Body + HIIT";
                 "Full Body + Steady Cardio"]
    | 4 => Some ["Upper Push + HIIT"; "Lower Body + Steady Cardio";
                 "Upper Pull + HIIT"; "Full Body Circuit"]
    | _ => None
    end
  else if String.eqb goal "Mobility Exclusive" then
    match n with
    | 2 => Some ["Upper Body Mobility"; "Lower Body Mobility"]
    | 3 => Some ["Dynamic Mobility"; "Static Stretching"; "Joint Mobility"]
    | 4 => Some ["Upper Body Mobility"; "Lower Body Mobility";
                 "Full Body Flow"; "Targeted Rehab"]
    | _ => None
    end
  else None.

Definition default_splits (n : Z) : option (list string) :=
  match n with
  | 1 => Some ["Full Body"]
  | 2 => Some ["Upper Body"; "Lower Body"]
  | 3 => Some ["Push"; "Pull"; "Legs"]
  | 4 => Some ["Upper Body"; "Lower Body"; "Upper Body"; "Lower Body"]
  | 5 => Some ["Chest/Triceps"; "Back/Biceps"; "Legs"; "Shoulders/Arms";
               "Full Body"]
  | 6 => Some ["Push"; "Pull"; "Legs"; "Push"; "Pull"; "Legs"]
  | 7 => Some ["Chest"; "Back"; "Legs"; "Shoulders"; "Arms"; "Full Body";
               "Active Recovery"]
  | _ => None
  end.

Definition _determine_training_split (workouts_per_week : Z) (goal : string)
  : list string :=
  let workouts_per_week :=
    if 7 <? workouts_per_week then 7 else workouts_per_week in
  match training_splits goal workouts_per_week with
  | Some split => split
  | None =>
      match default_splits workouts_per_week with
      | Some split => split
      | None => replicate workouts_per_week "Full Body"
      end
  end.

(** *** Data model *)

(** An exercise as the selector hands it over: the keys of the sample
    dictionaries; ["instructions"] is read with [.get] and an empty
    default. *)
Record catalog_exercise : Type := {
  x_id : Z;
  x_title : string;
  x_type : string;
  x_muscle_group : string;
  x_equipment : string;
  x_level : string;
  x_instructions : option string
}.

(** [exercise["reps"]] is tested with [isinstance(..., str)]. *)
Inductive reps_value : Type :=
| RepsInt (n : Z)
| RepsStr (s : string).

(** [exercise_config]; [sets] is always an [int], so the test
    [isinstance(exercise_copy["sets"], int)] holds for every value. *)
Record exercise_config : Type := {
  e_id : Z;
  e_title : string;
  e_sets : Z;
  e_reps : reps_value;
  e_rest : string;
  e_tempo : string;
  e_notes : string
}.

Definition set_sets (v : Z) (e : exercise_config) : exercise_config :=
  {| e_id := e_id e; e_title := e_title e; e_sets := v; e_reps := e_reps e;
     e_rest := e_rest e; e_tempo := e_tempo e; e_notes := e_notes e |}.

Definition set_reps (v : reps_value) (e : exercise_config)
  : exercise_config :=
  {| e_id := e_id e; e_title := e_title e; e_sets := e_sets e; e_reps := v;
     e_rest := e_rest e; e_tempo := e_tempo e; e_notes := e_notes e |}.

Definition add_notes (v : string) (e : exercise_config) : exercise_config :=
  {| e_id := e_id e; e_title := e_title e; e_sets := e_sets e;
     e_reps := e_reps e; e_rest := e_rest e; e_tempo := e_tempo e;
     e_notes := e_notes e ++ v |}.

Record workout : Type := {
  focus : string;
  exercises : list exercise_config
}.

Record week_plan : Type := {
  week : Z;
  is_deload : bool;
  workouts : list workout
}.

Record plan_preferences : Type := {
  p_name : option string;
  p_goal : string;
  p_duration : Z;
  p_workouts_per_week : Z;
  p_equipment_access : list string;
  p_limitations : list string
}.

Record user_details : Type := {
  u_experience_level : option string
}.

Record complete_plan : Type := {
  name : string;
  goal : string;
  duration_weeks : Z;
  workouts_per_week : Z;
  equipment : list string;
  weekly_schedule : list week_plan;
  created_date : string;
  last_updated : string
}.

(** *** [_select_exercises_for_focus] (the placeholder of planner.py) *)

Record exercise_count : Type := {
  Compound : Z;
  Isolation : Z;
  Cardio : Z;
  Mobility : Z
}.

Definition base_exercise_count (experience_level : string)
  : exercise_count :=
  if String.eqb experience_level "Beginner" then
    {| Compound := 2; Isolation := 2; Cardio := 1; Mobility := 1 |}
  else if String.eqb experience_level "Intermediate" then
    {| Compound := 3; Isolation := 3; Cardio := 1; Mobility := 1 |}
  else if String.eqb experience_level "Advanced" then
    {| Compound := 4; Isolation := 4; Cardio := 1; Mobility := 1 |}
  else {| Compound := 2; Isolation := 2; Cardio := 1; Mobility := 1 |}.

Definition adjust_exercise_count (goal : string) (c : exercise_count)
  : exercise_count :=
  if contains "Body Building" goal then
    {| Compound := Compound c; Isolation := Isolation c + 1;
       Cardio := Cardio c; Mobility := Mobility c |}
  else if contains "Sports" goal then
    {| Compound := Compound c + 1; Isolation := Isolation c;
       Cardio := Cardio c; Mobility := Mobility c |}
  else if contains "Weight Loss" goal then
    {| Compound := Compound c; Isolation := Isolation c;
       Cardio := Cardio c + 1; Mobility := Mobility c |}
  else if contains "Mobility" goal then
    {| Compound := Compound c - 1; Isolation := Isolation c - 1;
       Cardio := Cardio c; Mobility := Mobility c + 2 |}
  else c.

Definition sample_exercises : list catalog_exercise :=
  [ {| x_id := 1; x_title := "Barbell Squat"; x_type := "Compound";
       x_muscle_group := "Legs"; x_equipment := "Barbell";
       x_level := "Intermediate"; x_instructions := None |};
    {| x_id := 2; x_title := "Push-ups"; x_type := "Compound";
       x_muscle_group := "Chest"; x_equipment := "Bodyweight";
       x_level := "Beginner"; x_instructions := None |};
    {| x_id := 3; x_title := "Bicep Curls"; x_type := "Isolation";
       x_muscle_group := "Arms"; x_equipment := "Dumbbells";
       x_level := "Beginner"; x_instructions := None |} ].

Definition _select_exercises_for_focus (focus : string)
    (equipment limitations : list string) (experience_level goal : string)
  : list catalog_exercise :=
  let c := adjust_exercise_count goal (base_exercise_count experience_level) in
  slice_to (Compound c + Isolation c + Cardio c + Mobility c)
    sample_exercises.

(** *** [_determine_rest_period], [_determine_tempo] *)

Definition _determine_rest_period (exercise_type goal : string) : string :=
  if String.eqb exercise_type "Compound" then
    if contains "Strength" goal || contains "Body Building" goal
    then "2-3 minutes" else "60-90 seconds"
  else if String.eqb exercise_type "Isolation" then
    if contains "Body Building" goal then "60-90 seconds"
    else "30-60 seconds"
  else if String.eqb exercise_type "Cardio" then "Minimal rest"
  else "30 seconds".

Definition _determine_tempo (exercise_type goal : string) : string :=
  if contains "Strength" goal then
    if String.eqb exercise_type "Compound" then "2-0-2" else "2-0-1"
  else if contains "Body Building" goal then "3-1-2"
  else if contains "Sports" goal then
    if String.eqb exercise_type "Compound" then "1-0-1" else "2-0-2"
  else "2-0-2".

(** *** [_create_workout_schedule] *)

Record training_params : Type := {
  tp_sets : Z;
  tp_reps : string;
  tp_intensity : Q
}.

Definition intensity_mapping (experience_level : string)
  : training_params :=
  if String.eqb experience_level "Beginner" then
    {| tp_sets := 3; tp_reps := "8-12"; tp_intensity := 7 # 10 |}
  else if String.eqb experience_level "Intermediate" then
    {| tp_sets := 4; tp_reps := "8-10"; tp_intensity := 75 # 100 |}
  else if String.eqb experience_level "Advanced" then
    {| tp_sets := 5; tp_reps := "6-12"; tp_intensity := 8 # 10 |}
  else {| tp_sets := 3; tp_reps := "8-12"; tp_intensity := 7 # 10 |}.

(** The selector is a parameter of the schedule builder: planner.py
    carries the placeholder above, workout_planner.py a catalog query. *)
Definition selector : Type :=
  string -> list string -> list string -> string -> string ->
  list catalog_exercise.

(** Body of the loop [for exercise in exercises]. *)
Definition configure_exercise (experience_level goal : string)
    (exercise : catalog_exercise) : exercise_config :=
  let training_params := intensity_mapping experience_level in
  let '(sets, reps) :=
    if String.eqb (x_type exercise) "Compound" then
      (tp_sets training_params,
       if contains "Strength" goal then tp_reps training_params
       else "8-12")
    else if String.eqb (x_type exercise) "Isolation" then
      (Z.max 3 (tp_sets training_params - 1),
       if contains "Body Building" goal then "10-15" else "12-15")
    else if String.eqb (x_type exercise) "Cardio" then
      (1,
       str (15
            + 5 * int_of_bool (String.eqb experience_level "Intermediate")
            + 10 * int_of_bool (String.eqb experience_level "Advanced"))
       ++ " minutes")
    else
      (if String.eqb experience_level "Beginner" then 2 else 3,
       "30-60 seconds") in
  {| e_id := x_id exercise;
     e_title := x_title exercise;
     e_sets := sets;
     e_reps := RepsStr reps;
     e_rest := _determine_rest_period (x_type exercise) goal;
     e_tempo := _determine_tempo (x_type exercise) goal;
     e_notes := match x_instructions exercise with
                | Some i => i
                | None => EmptyString
                end |}.

Definition _create_workout_schedule (select : selector)
    (training_split : list string) (equipment limitations : list string)
    (experience_level goal : string) : list workout :=
  map (fun day_focus =>
         let exercises :=
           select day_focus equipment limitations experience_level goal in
         {| focus := day_focus;
            exercises :=
              map (configure_exercise experience_level goal) exercises |})
      training_split.

(** *** [_apply_progression] *)

Record pattern : Type := {
  volume_increase : Q;
  intensity_increase : Q;
  deload_frequency : Z;
  deload_reduction : Q
}.

Definition Beginner_pattern : pattern :=
  {| volume_increase := 1 # 10; intensity_increase := 5 # 100;
     deload_frequency := 4; deload_reduction := 4 # 10 |}.

Definition progression_patterns (experience_level : string) : pattern :=
  if String.eqb experience_level "Beginner" then Beginner_pattern
  else if String.eqb experience_level "Intermediate" then
    {| volume_increase := 7 # 100; intensity_increase := 7 # 100;
       deload_frequency := 4; deload_reduction := 3 # 10 |}
  else if String.eqb experience_level "Advanced" then
    {| volume_increase := 5 # 100; intensity_increase := 1 # 10;
       deload_frequency := 3; deload_reduction := 25 # 100 |}
  else Beginner_pattern.

(** [week_modifier]: assigned once per week by the loop and read nowhere
    afterwards. *)
Definition week_modifier (p : pattern) (week : Z) (is_deload : bool) : Q :=
  if is_deload then deload_reduction p
  else (1 + inject_Z (week mod deload_frequency p)
            * (if week <=? 2 then volume_increase p
               else intensity_increase p))%Q.

Definition big_compounds : list string :=
  ["squat"; "deadlift"; "bench press"; "overhead press"].

Definition is_big_compound (title : string) : bool :=
  existsb (String.eqb (lower title)) big_compounds.

(** [min_reps, max_reps = map(int, reps.split("-"))]: two parts, both
    integers; a third part, a missing part or a part that is no integer
    literal raise [ValueError]. *)
Definition parse_range (reps : string) : result (Z * Z) :=
  match split "-" reps with
  | [a; b] =>
      min_reps <- int a ;;
      max_reps <- int b ;;
      ret (min_reps, max_reps)
  | _ => raise ValueError
  end.

(** [isinstance(exercise["reps"], str) and "-" in exercise["reps"]]. *)
Definition dashed (r : reps_value) : option string :=
  match r with
  | RepsStr s => if contains "-" s then Some s else None
  | RepsInt _ => None
  end.

(** [int(sets * 0.6)]: the product truncated towards zero. *)
Definition int_times_0_6 (sets : Z) : Z := Z.quot (sets * 6) 10.

(** Body of the loop [for exercise in day_plan["exercises"]]. *)
Definition progress_exercise (experience_level : string) (week : Z)
    (is_deload : bool) (exercise : exercise_config)
  : result exercise_config :=
  let exercise_copy := exercise in
  if negb is_deload then
    if week mod 2 =? 1 then
      let exercise_copy :=
        if (2 <? week) && is_big_compound (e_title exercise)
        then set_sets (Z.min (e_sets exercise + 1) 6) exercise_copy
        else exercise_copy in
      match dashed (e_reps exercise) with
      | Some reps =>
          '(min_reps, max_reps) <- parse_range reps ;;
          let new_min := Z.min (min_reps + 1) max_reps in
          let new_max := Z.min (max_reps + 2) 20 in
          ret (set_reps (RepsStr (str new_min ++ "-" ++ str new_max))
                 exercise_copy)
      | None => ret exercise_copy
      end
    else
      ret (add_notes
             (" Increase weight by "
              ++ str (5 + 5 * int_of_bool
                                (negb (String.eqb experience_level
                                         "Beginner")))
              ++ "% from previous week.")
             exercise_copy)
  else
    let exercise_copy :=
      set_sets (Z.max 2 (int_times_0_6 (e_sets exercise_copy)))
        exercise_copy in
    exercise_copy <-
      match dashed (e_reps exercise) with
      | Some reps =>
          '(min_reps, max_reps) <- parse_range reps ;;
          ret (set_reps (RepsStr (str min_reps ++ "-" ++ str (min_reps + 2)))
                 exercise_copy)
      | None => ret exercise_copy
      end ;;
    ret (add_notes
           " DELOAD WEEK: Reduce weights by 10-15% but maintain good form."
           exercise_copy).

(** Body of the loop [for day_plan in workout_schedule]. *)
Definition progress_day (experience_level : string) (week : Z)
    (is_deload : bool) (day_plan : workout) : result workout :=
  exercises <- for_each (progress_exercise experience_level week is_deload)
                 (exercises day_plan) ;;
  ret {| focus := focus day_plan; exercises := exercises |}.

(** Body of the loop [for week in range(1, duration_weeks + 1)]. *)
Definition progress_week (workout_schedule : list workout)
    (experience_level : string) (week : Z) : result week_plan :=
  let pattern := progression_patterns experience_level in
  let is_deload := week mod deload_frequency pattern =? 0 in
  week_plan <- for_each (progress_day experience_level week is_deload)
                 workout_schedule ;;
  ret {| week := week; is_deload := is_deload; workouts := week_plan |}.

Definition _apply_progression (workout_schedule : list workout)
    (duration_weeks : Z) (experience_level : string)
  : result (list week_plan) :=
  for_each (progress_week workout_schedule experience_level)
    (range 1 (duration_weeks + 1)).

(** *** [_add_deload_weeks], [_structure_complete_plan], [generate_plan] *)

Definition _add_deload_weeks (progressive_plan : list week_plan)
    (duration_weeks : Z) : list week_plan :=
  progressive_plan.

(** The names planner.py can resolve at module level: it imports nothing
    and defines its class only. *)
Definition module_names : list string := ["WorkoutPlanner"].

(** [datetime.now().strftime("%Y-%m-%d")] inside planner.py, for [today]
    the text the clock would give: the name [datetime] is looked up first,
    and a name the module does not bind raises [NameError]. *)
Definition datetime_now_strftime (today : string) : result string :=
  if existsb (String.eqb "datetime") module_names
  then ret today
  else raise NameError.

(** The dictionary is built key by key, in the order of the source. *)
Definition _structure_complete_plan (today : string)
    (progressive_plan : list week_plan) (prefs : plan_preferences)
  : result complete_plan :=
  let name := match p_name prefs with
              | Some n => n
              | None => "Custom Fitness Plan"
              end in
  created_date <- datetime_now_strftime today ;;
  last_updated <- datetime_now_strftime today ;;
  ret {| name := name;
         goal := p_goal prefs;
         duration_weeks := p_duration prefs;
         workouts_per_week := p_workouts_per_week prefs;
         equipment := p_equipment_access prefs;
         weekly_schedule := progressive_plan;
         created_date := created_date;
         last_updated := last_updated |}.

Definition generate_plan (select : selector) (today : string)
    (user : user_details) (prefs : plan_preferences)
  : result complete_plan :=
  let goal := p_goal prefs in
  let duration_weeks := p_duration prefs in
  let workouts_per_week := p_workouts_per_week prefs in
  let equipment := p_equipment_access prefs in
  let limitations := p_limitations prefs in
  let experience_level :=
    match u_experience_level user with
    | Some l => l
    | None => "Beginner"
    end in
  let training_split := _determine_training_split workouts_per_week goal in
  let workout_schedule :=
    _create_workout_schedule select training_split equipment limitations
      experience_level goal in
  progressive_plan <-
    _apply_progression workout_schedule duration_weeks experience_level ;;
  let progressive_plan :=
    if 4 <? duration_weeks
    then _add_deload_weeks progressive_plan duration_weeks
    else progressive_plan in
  _structure_complete_plan today progressive_plan prefs.

End Planner.

(** ** The tables the SQL of progresstracker.py and Engine.py reads and
     writes *)

Module Db.

Record fitness_plan : Type := {
  fp_id : Z;
  fp_user_id : Z;
  fp_name : string;
  fp_goal : string;
  fp_is_active : bool;
  fp_created_date : Z
}.

Record plan_workout : Type := {
  pw_id : Z;
  pw_plan_id : Z;
  pw_exercise_id : Z;
  pw_week : Z;
  pw_day : Z;
  pw_title : string;
  pw_description : string;
  pw_target_sets : Z;
  pw_target_reps : Planner.reps_value;
  pw_instructions : string
}.

Record workout_log : Type := {
  wl_workout_id : Z;
  wl_user_id : Z;
  wl_date : Z;
  wl_sets : Z;
  wl_reps : Z;
  wl_weight : Q
}.

Record exercise : Type := {
  ex_id : Z;
  ex_title : string;
  ex_type : string;
  ex_equipment : string;
  ex_muscle_group : string;
  ex_level : string;
  ex_instructions : option string
}.

Record progression : Type := {
  pt_user_id : Z;
  pt_exercise_id : Z;
  pt_date : Z;
  pt_one_rep_max : Q;
  pt_volume_total : Q;
  pt_progress_rating : Z
}.

Record t : Type := {
  fitness_plans : list fitness_plan;
  plan_workouts : list plan_workout;
  workout_logs : list workout_log;
  exercises : list exercise;
  progression_tracking : list progression
}.

(** [INSERT INTO progression_tracking ...]. *)
Definition insert_progression (r : progression) (d : t) : t :=
  {| fitness_plans := fitness_plans d;
     plan_workouts := plan_workouts d;
     workout_logs := workout_logs d;
     exercises := exercises d;
     progression_tracking := progression_tracking d ++ [r] |}.

(** [ORDER BY key]: a stable insertion sort. *)
Fixpoint insert_by {A : Type} (key : A -> Z) (x : A) (l : list A)
  : list A :=
  match l with
  | [] => [x]
  | y :: l' => if key x <=? key y then x :: l else y :: insert_by key x l'
  end.

Definition order_by {A : Type} (key : A -> Z) (l : list A) : list A :=
  fold_right (insert_by key) [] l.

(** [ORDER BY RANDOM() LIMIT limit]: rows drawn without replacement, the
    position of each draw read from the random source. *)
Fixpoint order_by_random_limit {A : Type} (limit : nat) (rnd : list nat)
    (rows : list A) : list A :=
  match limit with
  | O => []
  | S limit' =>
      let i := (hd 0 rnd mod length rows)%nat in
      match nth_error rows i with
      | Some x =>
          x :: order_by_random_limit limit' (tl rnd)
                 (firstn i rows ++ skipn (S i) rows)
      | None => []
      end
  end.

End Db.

(** ** progresstracker.py *)

Module ProgressTracker.

Import Py Db.
Local Open Scope Q_scope.

(** [x < y] on floats. *)
Definition Qltb (x y : Q) : bool := if Qlt_le_dec x y then true else false.

Definition calculate_one_rep_max (weight : Q) (reps : Z) : Q :=
  if (reps =? 1)%Z then weight
  else if (36 <? reps)%Z then weight * 2
  else weight * (36 / inject_Z (37 - reps)).

(** *** The frames of [analyze_workout_history] *)

(** A row of [logs_df] with its two computed columns. *)
Record log_row : Type := {
  date : Z;
  sets : Z;
  reps : Z;
  weight : Q;
  one_rep_max : Q;
  volume : Q
}.

(** A row of [daily_stats], indexed by its date. *)
Record daily_row : Type := {
  d_date : Z;
  one_rep_max_max : Q;
  volume_sum : Q;
  sets_sum : Z;
  reps_mean : Q;
  reps_sum : Z
}.

Definition sumQ (l : list Q) : Q := fold_right Qplus 0 l.

Definition sumZ (l : list Z) : Z := fold_right Z.add 0%Z l.

Definition len {A : Type} (l : list A) : Q := inject_Z (Z.of_nat (length l)).

Definition mean (l : list Q) : Q := sumQ l / len l.

Definition maxQ (x : Q) (l : list Q) : Q := fold_left Qmax l x.

(** The query of [analyze_workout_history]: the three-table join, its
    filter and [ORDER BY wl.date]. *)
Definition select_logs (d : Db.t) (user_id exercise_id cutoff_date : Z)
  : list workout_log :=
  order_by wl_date
    (flat_map
       (fun wl =>
          flat_map
            (fun pw =>
               flat_map
                 (fun fp =>
                    if (wl_workout_id wl =? pw_id pw)%Z
                       && (pw_plan_id pw =? fp_id fp)%Z
                       && (fp_user_id fp =? user_id)%Z
                       && (pw_exercise_id pw =? exercise_id)%Z
                       && (cutoff_date <=? wl_date wl)%Z
                    then [wl] else [])
                 (fitness_plans d))
            (plan_workouts d))
       (workout_logs d)).

Definition make_log_row (wl : workout_log) : log_row :=
  {| date := wl_date wl;
     sets := wl_sets wl;
     reps := wl_reps wl;
     weight := wl_weight wl;
     one_rep_max := calculate_one_rep_max (wl_weight wl) (wl_reps wl);
     volume := inject_Z (wl_sets wl) * inject_Z (wl_reps wl) * wl_weight wl
  |}.

(** The keys of [groupby('date')]: the distinct dates, ascending. *)
Fixpoint insert_key (k : Z) (l : list Z) : list Z :=
  match l with
  | [] => [k]
  | x :: l' =>
      if (k <? x)%Z then k :: l
      else if (k =? x)%Z then l
      else x :: insert_key k l'
  end.

Definition group_keys (logs_df : list log_row) : list Z :=
  fold_right insert_key [] (map date logs_df).

Definition aggregate (k : Z) (logs_df : list log_row) : daily_row :=
  let g := filter (fun r => (date r =? k)%Z) logs_df in
  {| d_date := k;
     one_rep_max_max :=
       match map one_rep_max g with
       | [] => 0
       | x :: l => maxQ x l
       end;
     volume_sum := sumQ (map volume g);
     sets_sum := sumZ (map sets g);
     reps_mean := mean (map (fun r => inject_Z (reps r)) g);
     reps_sum := sumZ (map reps g) |}.

Definition groupby_date (logs_df : list log_row) : list daily_row :=
  map (fun k => aggregate k logs_df) (group_keys logs_df).

(** *** [_calculate_trend] *)

(** [np.arange(n)], from a first value. *)
Fixpoint arange_from (k : Z) (n : nat) : list Q :=
  match n with
  | O => []
  | S n' => inject_Z k :: arange_from (k + 1) n'
  end.

Definition arange (n : nat) : list Q := arange_from 0 n.

(** [np.polyfit(x, y, 1)] is numpy's numerical least-squares fit: no code
    of this repository, and computed in floating point. It comes in as a
    parameter; [polyfit x y] stands for the slope it returns first. *)
Definition fit : Type := list Q -> list Q -> Q.

Definition _calculate_trend (polyfit : fit) (series : list Q) : Q :=
  if (length series <? 2)%nat then 0
  else
    let x := arange (length series) in
    let y := series in
    let slope := polyfit x y in
    match series with
    | first :: _ =>
        if Qltb 0 first then (slope / first) * 100 else 0
    | [] => 0
    end.

(** *** [_save_progression_data] *)

Record progression_metrics : Type := {
  strength_change_pct : Q;
  volume_change_pct : Q;
  strength_trend : Q;
  volume_trend : Q;
  consistency : Q
}.

(** [int(x)] for a float: truncation towards zero. *)
Definition int_of_float (x : Q) : Z := Z.quot (Qnum x) (Zpos (Qden x)).

Definition progress_rating_of (progression : progression_metrics) : Z :=
  Z.min 5 (Z.max (-5) (int_of_float (strength_trend progression / 5))).

(** [today] is SQLite's [date('now')]. *)
Definition _save_progression_data (today user_id exercise_id : Z)
    (one_rep_max volume : Q) (progression : progression_metrics)
    (d : Db.t) : Db.t :=
  let progress_rating := progress_rating_of progression in
  insert_progression
    {| pt_user_id := user_id;
       pt_exercise_id := exercise_id;
       pt_date := today;
       pt_one_rep_max := one_rep_max;
       pt_volume_total := volume;
       pt_progress_rating := progress_rating |}
    d.

(** *** [_generate_recommendations] *)

(** [logs_df['reps'].mean()]: the mean of an empty column is NaN, which is
    [None] here. *)
Definition reps_mean_of (logs_df : list log_row) : option Q :=
  match logs_df with
  | [] => None
  | _ :: _ => Some (mean (map (fun r => inject_Z (reps r)) logs_df))
  end.

(** A comparison with NaN is false, so neither test on the mean holds for
    an empty frame. *)
Definition _generate_recommendations (progression : progression_metrics)
    (logs_df : list log_row) : list string :=
  (if Qltb (strength_trend progression) (-2) then
     ["Strength is declining. Consider reducing volume and focusing on quality sets."%string]
   else if Qltb (strength_trend progression) 0 then
     ["Strength progress has plateaued. Try varying rep ranges or adding an intensity technique."%string]
   else if Qltb 5 (strength_trend progression) then
     ["Great strength progress! Consider slightly increasing weight on your next session."%string]
   else [])
  ++ (if Qltb (volume_trend progression) (-5) then
        ["Training volume has decreased significantly. Are you getting enough recovery?"%string]
      else if Qltb 10 (volume_trend progression) then
        ["Volume is increasing well. Ensure you're maintaining good form with the increased workload."%string]
      else [])
  ++ (if Qltb (consistency progression) (1 # 2) then
        ["Consider increasing training frequency for better progress."%string]
      else [])
  ++ match reps_mean_of logs_df with
     | Some reps_mean =>
         if Qltb 15 reps_mean then
           ["Your rep ranges are high. For strength, consider including some lower rep sets (4-6 reps)."%string]
         else if Qltb reps_mean 5 then
           ["Your rep ranges are low. For muscle growth, include some moderate rep sets (8-12 reps)."%string]
         else []
     | None => []
     end.

(** *** [analyze_workout_history] *)

Record success : Type := {
  history_length_days : Z;
  workout_count : Z;
  current_1rm : Q;
  best_1rm : Q;
  best_workout_date : Z;
  average_volume : Q;
  progression : progression_metrics;
  recommendations : list string
}.

(** The returned dictionary: its ["status"] and the keys that come with
    it. *)
Inductive analysis : Type :=
| NoData (message : string)
| Success (r : success).

Definition status (a : analysis) : string :=
  match a with
  | NoData _ => "No data"
  | Success _ => "success"
  end.

(** The last day [datetime] holds, 9999-12-31. *)
Definition max_ordinal : Z := 3652059.

(** The first day of a year of four digits, 1000-01-01: from there on the
    "%Y-%m-%d" text of the days is ordered as the days are. *)
Definition first_iso_day : Z := 364878.

(** [datetime.now() - timedelta(days=timeframe_days)], as a date:
    [timedelta] takes at most 999999999 days, and the difference has to be
    a day [datetime] holds; both raise [OverflowError] otherwise. *)
Definition days_before (today timeframe_days : Z) : result Z :=
  if (999999999 <? Z.abs timeframe_days)%Z then raise OverflowError
  else
    let day := (today - timeframe_days)%Z in
    if ((1 <=? day) && (day <=? max_ordinal))%Z then ret day
    else raise OverflowError.

(** [daily_stats[name]]: line 79 joins each column with its aggregate, so
    the frame has the five columns named here and no other; the integer
    columns are read as numbers. *)
Definition column (name : string) (daily_stats : list daily_row)
  : result (list Q) :=
  if String.eqb name "one_rep_max_max" then
    ret (map one_rep_max_max daily_stats)
  else if String.eqb name "volume_sum" then
    ret (map volume_sum daily_stats)
  else if String.eqb name "sets_sum" then
    ret (map (fun r => inject_Z (sets_sum r)) daily_stats)
  else if String.eqb name "reps_mean" then
    ret (map reps_mean daily_stats)
  else if String.eqb name "reps_sum" then
    ret (map (fun r => inject_Z (reps_sum r)) daily_stats)
  else raise KeyError.

(** [row[name]] for a row of [daily_stats] turned into a dictionary; also
    [daily_stats[name].iloc[0]] for the first row. *)
Definition item (name : string) (row : daily_row) : result Q :=
  values <- column name [row] ;;
  match values with
  | v :: _ => ret v
  | [] => raise KeyError
  end.

(** [series.idxmax()]: the index label, here the date, of the first row
    that holds the maximum; an empty series raises [ValueError]. *)
Definition idxmax (index : list Z) (series : list Q) : result Z :=
  match combine index series with
  | [] => raise ValueError
  | first :: rest =>
      ret (fst (fold_left
                  (fun best r => if Qltb (snd best) (snd r) then r else best)
                  rest first))
  end.

(** [daily_stats.loc[label]]. *)
Definition loc (label : Z) (daily_stats : list daily_row)
  : result daily_row :=
  match find (fun r => (d_date r =? label)%Z) daily_stats with
  | Some r => ret r
  | None => raise KeyError
  end.

(** [(recent / first - 1) * 100 if first > 0 else 0], the two values read
    from the column [name]. *)
Definition change_pct (name : string) (recent_workout first_day : daily_row)
  : result Q :=
  first <- item name first_day ;;
  if Qltb 0 first then
    recent <- item name recent_workout ;;
    ret ((recent / first - 1) * 100)
  else ret 0.

(** [today] is the date of [datetime.now()] and of [date('now')]. The
    result pairs the returned dictionary with the tables after the call;
    the one [INSERT] comes after every statement that raises on the way. *)
Definition analyze_workout_history (polyfit : fit) (today : Z) (d : Db.t)
    (user_id exercise_id : Z) (timeframe_days : Z)
  : result (analysis * Db.t) :=
  cutoff_date <- days_before today timeframe_days ;;
  let logs := select_logs d user_id exercise_id cutoff_date in
  match logs with
  | [] =>
      ret (NoData "No workout history found for this exercise"%string, d)
  | first_log :: _ =>
      let logs_df := map make_log_row logs in
      let daily_stats := groupby_date logs_df in
      strength <- column "one_rep_max" daily_stats ;;
      let strength_trend := _calculate_trend polyfit strength in
      volumes <- column "volume" daily_stats ;;
      let volume_trend := _calculate_trend polyfit volumes in
      best_workout_idx <- idxmax (map d_date daily_stats) strength ;;
      best_workout <- loc best_workout_idx daily_stats ;;
      match daily_stats with
      | [] => raise ValueError
      | first_day :: _ =>
          let recent_workout := last daily_stats first_day in
          strength_change_pct <-
            change_pct "one_rep_max" recent_workout first_day ;;
          volume_change_pct <-
            change_pct "volume" recent_workout first_day ;;
          if (timeframe_days =? 0)%Z then raise ZeroDivisionError
          else
            let progression :=
              {| strength_change_pct := strength_change_pct;
                 volume_change_pct := volume_change_pct;
                 strength_trend := strength_trend;
                 volume_trend := volume_trend;
                 consistency :=
                   len daily_stats / (inject_Z timeframe_days / 7) |} in
            recent_1rm <- item "one_rep_max" recent_workout ;;
            recent_volume <- item "volume" recent_workout ;;
            let d' :=
              _save_progression_data today user_id exercise_id
                recent_1rm recent_volume progression d in
            let dates := map date logs_df in
            best_1rm <- item "one_rep_max" best_workout ;;
            ret (Success
                   {| history_length_days :=
                        (fold_right Z.max (wl_date first_log) dates
                         - fold_right Z.min (wl_date first_log) dates
                         + 1)%Z;
                      workout_count := Z.of_nat (length daily_stats);
                      current_1rm := recent_1rm;
                      best_1rm := best_1rm;
                      best_workout_date := best_workout_idx;
                      average_volume := mean volumes;
                      progression := progression;
                      recommendations :=
                        _generate_recommendations progression logs_df |},
                 d')
      end
  end.

End ProgressTracker.

(** ** Engine.py *)

Module Engine.

Import Py Db.

(** *** Responses *)

Record titled : Type := {
  t_title : string;
  t_instructions : string
}.

(** A recovery option and a bonus workout share their keys. *)
Record routine : Type := {
  r_title : string;
  r_description : string;
  r_exercises : list titled
}.

(** [workout_detail]: the plan row and the four keys added to it. *)
Record workout_detail : Type := {
  wd_workout : plan_workout;
  wd_exercise_type : string;
  wd_equipment : string;
  wd_muscle_group : string;
  wd_level : string
}.

(** The returned dictionary by its ['type']; [_generate_default_workout]
    is [pass] and returns [None]. *)
Inductive response : Type :=
| NoResponse
| Recovery (message : string) (workout : routine)
| Alternative (message : string) (day : string)
    (workouts : list plan_workout)
| Completed (message : string) (bonus_workout : routine)
| Scheduled (message : string) (workouts : list workout_detail)
    (adjustments : list string) (muscle_recovery : list (string * string)).

Definition type (r : response) : option string :=
  match r with
  | NoResponse => None
  | Recovery _ _ => Some "recovery"
  | Alternative _ _ _ => Some "alternative"
  | Completed _ _ => Some "completed"
  | Scheduled _ _ _ _ => Some "scheduled"
  end.

Definition _generate_default_workout : response := NoResponse.

(** *** Row equality, as [list.remove] compares rows *)

Definition reps_value_eqb (a b : Planner.reps_value) : bool :=
  match a, b with
  | Planner.RepsInt x, Planner.RepsInt y => x =? y
  | Planner.RepsStr x, Planner.RepsStr y => String.eqb x y
  | _, _ => false
  end.

Definition plan_workout_eqb (a b : plan_workout) : bool :=
  (pw_id a =? pw_id b) && (pw_plan_id a =? pw_plan_id b)
  && (pw_exercise_id a =? pw_exercise_id b) && (pw_week a =? pw_week b)
  && (pw_day a =? pw_day b) && String.eqb (pw_title a) (pw_title b)
  && String.eqb (pw_description a) (pw_description b)
  && (pw_target_sets a =? pw_target_sets b)
  && reps_value_eqb (pw_target_reps a) (pw_target_reps b)
  && String.eqb (pw_instructions a) (pw_instructions b).

(** [l.remove(x)]: the first row equal to [x] goes. *)
Fixpoint remove (x : plan_workout) (l : list plan_workout)
  : list plan_workout :=
  match l with
  | [] => []
  | y :: l' => if plan_workout_eqb y x then l' else y :: remove x l'
  end.

(** *** Queries *)

(** [SELECT * FROM plan_workouts WHERE plan_id = ? AND week = ? AND
    day = ?]. *)
Definition workouts_on (d : Db.t) (plan_id week day : Z)
  : list plan_workout :=
  filter (fun pw => (pw_plan_id pw =? plan_id) && (pw_week pw =? week)
                    && (pw_day pw =? day))
    (plan_workouts d).

(** [SELECT * FROM plan_workouts WHERE plan_id = ? AND week = ?]. *)
Definition workouts_in_week (d : Db.t) (plan_id week : Z)
  : list plan_workout :=
  filter (fun pw => (pw_plan_id pw =? plan_id) && (pw_week pw =? week))
    (plan_workouts d).

(** [SELECT COUNT( * ) FROM workout_logs WHERE workout_id = ? AND
    date = date('now')]. *)
Definition logged_today (d : Db.t) (today workout_id : Z) : Z :=
  Z.of_nat
    (length
       (filter (fun wl => (wl_workout_id wl =? workout_id)
                          && (wl_date wl =? today))
          (workout_logs d))).

Definition find_plan (d : Db.t) (plan_id : Z) : option fitness_plan :=
  find (fun fp => fp_id fp =? plan_id) (fitness_plans d).

Definition find_exercise (d : Db.t) (exercise_id : Z) : option exercise :=
  find (fun ex => ex_id ex =? exercise_id) (exercises d).

(** [db.get_active_plans()]. *)
Definition get_active_plans (d : Db.t) : list fitness_plan :=
  filter fp_is_active (fitness_plans d).

(** *** [_needs_recovery] *)

Definition recent_workout_count (d : Db.t) (today user_id : Z) : Z :=
  let three_days_ago := today - 3 in
  Z.of_nat
    (length
       (filter (fun wl => (three_days_ago <=? wl_date wl)
                          && (wl_user_id wl =? user_id))
          (workout_logs d))).

Definition _needs_recovery (d : Db.t) (today user_id : Z) : bool :=
  5 <? recent_workout_count d today user_id.

(** *** [_generate_recovery_workout] *)

Definition recovery_options : list routine :=
  [ {| r_title := "Active Recovery";
       r_description := "Low-intensity movement to promote recovery";
       r_exercises :=
         [ {| t_title := "Light Walking";
              t_instructions := "Walk at an easy pace for 20-30 minutes" |};
           {| t_title := "Dynamic Stretching";
              t_instructions :=
                "Full body dynamic stretches, 30 seconds each movement" |};
           {| t_title := "Foam Rolling";
              t_instructions :=
                "Roll major muscle groups, 1 minute per area" |} ] |};
    {| r_title := "Mobility Focus";
       r_description := "Improve joint mobility and flexibility";
       r_exercises :=
         [ {| t_title := "Hip Mobility Flow";
              t_instructions :=
                "5 minutes of hip circles, lunges, and squats" |};
           {| t_title := "Shoulder Mobility";
              t_instructions :=
                "Arm circles, wall slides, and band pull-aparts" |};
           {| t_title := "Ankle Mobility";
              t_instructions :=
                "Ankle circles, calf stretches, and toe raises" |} ] |};
    {| r_title := "Light Cardio";
       r_description := "Improve circulation without muscle stress";
       r_exercises :=
         [ {| t_title := "Easy Cycling";
              t_instructions := "15-20 minutes at low resistance" |};
           {| t_title := "Swimming";
              t_instructions :=
                "Easy laps for 10-15 minutes, focus on technique" |};
           {| t_title := "Elliptical";
              t_instructions := "10-15 minutes at low intensity" |} ] |} ].

(** [random.choice(recovery_options)]. *)
Definition _generate_recovery_workout (rnd : list nat) : response :=
  let selected :=
    nth (hd 0%nat rnd mod length recovery_options) recovery_options
      {| r_title := EmptyString; r_description := EmptyString; r_exercises := [] |} in
  Recovery "You've been working hard! Here's a recovery workout:" selected.

(** *** [_get_recent_muscle_groups], [_get_exercises_for_muscle_group] *)

Definition _get_recent_muscle_groups (d : Db.t) (today user_id days : Z)
  : list string :=
  let cutoff_date := today - days in
  let rows :=
    nodup string_dec
      (flat_map
         (fun wl =>
            flat_map
              (fun pw =>
                 flat_map
                   (fun e =>
                      if (wl_workout_id wl =? pw_id pw)
                         && (pw_exercise_id pw =? ex_id e)
                         && (cutoff_date <=? wl_date wl)
                         && existsb
                              (fun fp => (fp_user_id fp =? user_id)
                                         && (fp_id fp =? pw_plan_id pw))
                              (fitness_plans d)
                      then [ex_muscle_group e] else [])
                   (exercises d))
              (plan_workouts d))
         (workout_logs d)) in
  filter (fun m => negb (String.eqb m EmptyString)) rows.

Definition _get_exercises_for_muscle_group (rnd : list nat) (d : Db.t)
    (muscle_group : string) (count : nat) : list titled :=
  let exercises :=
    order_by_random_limit count rnd
      (filter (fun e => String.eqb (ex_muscle_group e) muscle_group)
         (exercises d)) in
  map (fun ex =>
         {| t_title := ex_title ex;
            t_instructions := match ex_instructions ex with
                              | Some i => i
                              | None => EmptyString
                              end |})
    exercises.

(** *** [_generate_bonus_workout] *)

Definition _generate_bonus_workout (rnd : list nat) (d : Db.t)
    (today plan_id : Z) : routine :=
  let goal := match find_plan d plan_id with
              | Some plan => fp_goal plan
              | None => "General Fitness"
              end in
  let recent_muscles := _get_recent_muscle_groups d today 1 2 in
  if contains "Body Building" goal then
    let potential_groups := ["Arms"; "Shoulders"; "Calves"; "Abs"] in
    let target_group :=
      match find (fun g => negb (existsb (String.eqb g) recent_muscles))
              potential_groups with
      | Some g => g
      | None => "Arms"
      end in
    {| r_title := target_group ++ " Specialization";
       r_description := "Focus on " ++ target_group ++ " with high volume";
       r_exercises :=
         _get_exercises_for_muscle_group rnd d target_group 4 |}
  else if contains "Weight Loss" goal then
    {| r_title := "Calorie Burner";
       r_description :=
         "High-intensity interval training to burn extra calories";
       r_exercises :=
         [ {| t_title := "HIIT Circuit";
              t_instructions :=
                "30 seconds work, 15 seconds rest for 5 exercises, 4 rounds"
           |};
           {| t_title := "Jump Rope";
              t_instructions := "3 sets of 1 minute fast jumping" |};
           {| t_title := "Mountain Climbers";
              t_instructions := "3 sets of 30 seconds" |} ] |}
  else
    {| r_title := "Core & Mobility";
       r_description :=
         "Strengthen your core and improve overall mobility";
       r_exercises :=
         [ {| t_title := "Plank Variations";
              t_instructions := "3 sets of 30-45 seconds each variation" |};
           {| t_title := "Russian Twists";
              t_instructions := "3 sets of 20 reps" |};
           {| t_title := "Hip Mobility Flow";
              t_instructions := "5 minutes of dynamic hip movements" |} ] |}.

(** *** [_get_muscle_recovery_status] *)

Definition last_trained (d : Db.t) (muscle : string) (user_id : Z)
  : option Z :=
  let dates :=
    flat_map
      (fun wl =>
         flat_map
           (fun pw =>
              flat_map
                (fun e =>
                   if (wl_workout_id wl =? pw_id pw)
                      && (pw_exercise_id pw =? ex_id e)
                      && String.eqb (ex_muscle_group e) muscle
                      && (wl_user_id wl =? user_id)
                   then [wl_date wl] else [])
                (exercises d))
           (plan_workouts d))
      (workout_logs d) in
  match dates with
  | [] => None
  | x :: l => Some (fold_right Z.max x l)
  end.

Definition _get_muscle_recovery_status (d : Db.t) (today user_id : Z)
  : list (string * string) :=
  let muscle_groups :=
    ["Chest"; "Back"; "Legs"; "Shoulders"; "Arms"; "Core"] in
  map (fun muscle =>
         match last_trained d muscle user_id with
         | None => (muscle, "Ready")
         | Some last_date =>
             let days_since := today - last_date in
             (muscle, str days_since ++ " days")
         end)
    muscle_groups.

(** *** [get_daily_recommendation] *)

Definition day_names (day : Z) : result string :=
  match day with
  | 1 => ret "Monday"
  | 2 => ret "Tuesday"
  | 3 => ret "Wednesday"
  | 4 => ret "Thursday"
  | 5 => ret "Friday"
  | 6 => ret "Saturday"
  | 7 => ret "Sunday"
  | _ => raise KeyError
  end.

(** The loop [for workout in workouts: ... workouts.remove(workout)]: the
    list iterator holds a position [i] into the list that the body
    shortens; [fuel] bounds the number of rounds. *)
Fixpoint remove_completed (d : Db.t) (today : Z) (fuel i : nat)
    (workouts : list plan_workout) : list plan_workout :=
  match fuel with
  | O => workouts
  | S fuel' =>
      match nth_error workouts i with
      | None => workouts
      | Some workout =>
          if 0 <? logged_today d today (pw_id workout)
          then remove_completed d today fuel' (S i) (remove workout workouts)
          else remove_completed d today fuel' (S i) workouts
      end
  end.

(** [SELECT progress_rating FROM progression_tracking WHERE user_id = ?
    AND exercise_id = ? ORDER BY date DESC LIMIT 1]. *)
Definition latest_rating (d : Db.t) (user_id exercise_id : Z) : option Z :=
  match order_by (fun r => - pt_date r)
          (filter (fun r => (pt_user_id r =? user_id)
                            && (pt_exercise_id r =? exercise_id))
             (progression_tracking d)) with
  | r :: _ => Some (pt_progress_rating r)
  | [] => None
  end.

Definition exercise_details (d : Db.t) (workouts : list plan_workout)
  : list workout_detail :=
  flat_map
    (fun workout =>
       match find_exercise d (pw_exercise_id workout) with
       | Some exercise =>
           [ {| wd_workout := workout;
                wd_exercise_type := ex_type exercise;
                wd_equipment := ex_equipment exercise;
                wd_muscle_group := ex_muscle_group exercise;
                wd_level := ex_level exercise |} ]
       | None => []
       end)
    workouts.

Definition adjustments_for (d : Db.t) (user_id : Z)
    (result_workouts : list workout_detail) : list string :=
  flat_map
    (fun workout =>
       let w := wd_workout workout in
       match latest_rating d user_id (pw_exercise_id w) with
       | Some rating =>
           if 3 <? rating then
             ["Increase weight for " ++ pw_title w ++ " by 5-10% today"]
           else if rating <? -2 then
             ["Try different rep range for " ++ pw_title w
              ++ " today (e.g., 5x5 instead of 3x10)"]
           else []
       | None => []
       end)
    result_workouts.

(** The second half of the function, from the comment
    [# Check if user has already completed today's workout]. *)
Definition after_schedule_lookup (rnd : list nat) (today : Z) (d : Db.t)
    (user_id plan_id : Z) (workouts : list plan_workout) : response :=
  let workouts := remove_completed d today (length workouts) 0 workouts in
  match workouts with
  | [] =>
      Completed
        "You've completed all scheduled workouts for today! Would you like a bonus workout?"
        (_generate_bonus_workout rnd d today plan_id)
  | _ :: _ =>
      let result_workouts := exercise_details d workouts in
      let adjustments := adjustments_for d user_id result_workouts in
      Scheduled "Here's your workout for today:" result_workouts
        adjustments (_get_muscle_recovery_status d today user_id)
  end.

(** [not plan_id]. *)
Definition falsy (plan_id : option Z) : bool :=
  match plan_id with
  | None => true
  | Some p => p =? 0
  end.

(** The two tests on [plan_id] that open the function: the plan given by
    the caller, else the first active plan, if either is there. *)
Definition resolve_plan_id (d : Db.t) (plan_id : option Z) : option Z :=
  let active_plans := get_active_plans d in
  let plan_id :=
    match active_plans with
    | p :: _ => if falsy plan_id then Some (fp_id p) else plan_id
    | [] => plan_id
    end in
  if falsy plan_id then None else plan_id.

(** [today.weekday() + 1], for [today] the ordinal of the date of
    [datetime.now()] (day 1 is a Monday, as [date.toordinal] counts). *)
Definition weekday_of (today : Z) : Z := (today - 1) mod 7 + 1.

(** [current_week]. *)
Definition current_week_of (today : Z) (plan_start : fitness_plan) : Z :=
  let start_date := fp_created_date plan_start in
  let days_since_start := today - start_date in
  days_since_start / 7 + 1.

Definition get_daily_recommendation (rnd : list nat) (today : Z)
    (d : Db.t) (user_id : Z) (plan_id : option Z) : result response :=
  match resolve_plan_id d plan_id with
  | None => ret _generate_default_workout
  | Some plan_id =>
      let weekday := weekday_of today in
      match find_plan d plan_id with
      | None => ret _generate_default_workout
      | Some plan_start =>
          let current_week := current_week_of today plan_start in
          let workouts := workouts_on d plan_id current_week weekday in
          let continue :=
            ret (after_schedule_lookup rnd today d user_id plan_id
                   workouts) in
          match workouts with
          | [] =>
              if _needs_recovery d today user_id
              then ret (_generate_recovery_workout rnd)
              else
                match order_by_random_limit 1 rnd
                        (workouts_in_week d plan_id current_week) with
                | alternative :: _ =>
                    let alt_workouts :=
                      workouts_on d plan_id current_week
                        (pw_day alternative) in
                    day <- day_names (pw_day alternative) ;;
                    ret (Alternative
                           ("No workout scheduled for today. Here's your "
                            ++ day ++ " workout instead:")
                           day alt_workouts)
                | [] => continue
                end
          | _ :: _ => continue
          end
      end
  end.

End Engine.

(** ** The specification's own formulas, for comparison with the code *)

Module Spec.

Import Py Planner.

(** An exercise carries the rep range [a-b]: its reps is a string with a
    dash whose two parts are integers. *)
Definition rep_range (r : reps_value) : option (Z * Z) :=
  match dashed r with
  | Some s => match parse_range s with
              | inr p => Some p
              | inl _ => None
              end
  | None => None
  end.

(** "sets := max(2, floor(sets x (1 - reduction)))", the reduction read
    from the per-level table. *)
Definition deload_sets (experience_level : string) (sets : Z) : Z :=
  Z.max 2
    (Qfloor (inject_Z sets
             * (1 - deload_reduction (progression_patterns experience_level)))).

(** What the deload invariant asks of an exercise [e] of a deload week,
    given the exercise [base] of the base schedule it was copied from. *)
Definition deload_ok (base e : exercise_config) : Prop :=
  2 <= e_sets e
  /\ forall a b, rep_range (e_reps base) = Some (a, b) ->
                 e_reps e = RepsStr (str a ++ "-" ++ str (a + 2))
                 /\ a + 2 <= b.

(** [round(x)]: to the nearest integer, ties to the even one. *)
Definition round (x : Q) : Z :=
  let lo := Qfloor x in
  match Qcompare ((x - inject_Z lo) * 2) 1 with
  | Lt => lo
  | Eq => if Z.even lo then lo else lo + 1
  | Gt => lo + 1
  end.

(** "progress_rating = clamp(round(strength_trend / 5), -5, 5)". *)
Definition progress_rating (strength_trend : Q) : Z :=
  Z.min 5 (Z.max (-5) (round (strength_trend / 5))).

(** Truncation: the fractional part is dropped, which rounds a number that
    is not negative down and a negative one up. *)
Definition trunc (x : Q) : Z :=
  if Qle_bool 0 x then Qfloor x else Qceiling x.

(** The rating with truncation in the place of rounding. *)
Definition truncated_rating (strength_trend : Q) : Z :=
  Z.min 5 (Z.max (-5) (trunc (strength_trend / 5))).

(** "the least-squares slope of a series fitted against the index
    sequence": the slope of the line that minimises the squared error, in
    exact arithmetic, by its closed form. *)
Fixpoint dot (xs ys : list Q) : Q :=
  match xs, ys with
  | x :: xs', y :: ys' => (x * y + dot xs' ys')%Q
  | _, _ => 0%Q
  end.

Definition slope_num (xs ys : list Q) : Q :=
  (ProgressTracker.len ys * dot xs ys
   - ProgressTracker.sumQ xs * ProgressTracker.sumQ ys)%Q.

Definition slope_den (xs : list Q) : Q :=
  (ProgressTracker.len xs * dot xs xs
   - ProgressTracker.sumQ xs * ProgressTracker.sumQ xs)%Q.

Definition least_squares_slope : ProgressTracker.fit :=
  fun xs ys => (slope_num xs ys / slope_den xs)%Q.

End Spec.

(** ** Concrete inputs used by the examples below *)

Module Examples.

Import Py Planner.

Definition hip_circles : exercise_config :=
  configure_exercise "Beginner" "Mobility Exclusive"
    {| x_id := 7; x_title := "Hip Circles"; x_type := "Mobility";
       x_muscle_group := "Hips"; x_equipment := "Bodyweight";
       x_level := "Beginner"; x_instructions := None |}.

Definition bicep_curls : exercise_config :=
  {| e_id := 3; e_title := "Bicep Curls"; e_sets := 3;
     e_reps := RepsStr "12-15"; e_rest := "30-60 seconds";
     e_tempo := "2-0-2"; e_notes := EmptyString |}.

Definition squat : exercise_config :=
  {| e_id := 10; e_title := "Squat"; e_sets := 5;
     e_reps := RepsStr "8-12"; e_rest := "2-3 minutes";
     e_tempo := "2-0-2"; e_notes := EmptyString |}.

Definition advanced_user : user_details :=
  {| u_experience_level := Some "Advanced" |}.

Definition beginner_user : user_details :=
  {| u_experience_level := Some "Beginner" |}.

Definition body_building (weeks : Z) : plan_preferences :=
  {| p_name := None; p_goal := "Body Building"; p_duration := weeks;
     p_workouts_per_week := 3; p_equipment_access := ["Dumbbells"];
     p_limitations := ["None"] |}.

(** The base schedules of [generate_plan] for [beginner_user],
    [advanced_user] and [body_building]. *)
Definition beginner_base : list workout :=
  _create_workout_schedule _select_exercises_for_focus
    (_determine_training_split 3 "Body Building")
    ["Dumbbells"] ["None"] "Beginner" "Body Building".

Definition advanced_base : list workout :=
  _create_workout_schedule _select_exercises_for_focus
    (_determine_training_split 3 "Body Building")
    ["Dumbbells"] ["None"] "Advanced" "Body Building".

End Examples.

Module TrackerExamples.

Import Db.

Definition curl_row : plan_workout :=
  {| pw_id := 1; pw_plan_id := 1; pw_exercise_id := 5; pw_week := 1;
     pw_day := 1; pw_title := "Bicep Curls";
     pw_description := "Pull - Bicep Curls"; pw_target_sets := 3;
     pw_target_reps := Planner.RepsInt 15;
     pw_instructions := " Rest: 60-90 seconds, Tempo: 3-1-2" |}.

Definition my_plan : fitness_plan :=
  {| fp_id := 1; fp_user_id := 1; fp_name := "Custom Fitness Plan";
     fp_goal := "Body Building"; fp_is_active := true;
     fp_created_date := 739000 |}.

(** Two sessions of single repetitions, 100 then 104. *)
Definition two_sessions : Db.t :=
  {| fitness_plans := [my_plan];
     plan_workouts := [curl_row];
     workout_logs :=
       [ {| wl_workout_id := 1; wl_user_id := 1; wl_date := 739001;
            wl_sets := 3; wl_reps := 1; wl_weight := 100 |};
         {| wl_workout_id := 1; wl_user_id := 1; wl_date := 739003;
            wl_sets := 3; wl_reps := 1; wl_weight := 104 |} ];
     exercises := [];
     progression_tracking := [] |}.

Definition no_sessions : Db.t :=
  {| fitness_plans := [my_plan];
     plan_workouts := [curl_row];
     workout_logs := [];
     exercises := [];
     progression_tracking := [] |}.

End TrackerExamples.

Module EngineExamples.

Import Db TrackerExamples.

(** Day 739004 is a Sunday of the first week of [my_plan]. *)
Definition sunday : Z := 739004.

Definition sunday_row (id exercise_id : Z) (title : string) : plan_workout :=
  {| pw_id := id; pw_plan_id := 1; pw_exercise_id := exercise_id;
     pw_week := 1; pw_day := 7; pw_title := title;
     pw_description := "Pull - " ++ title; pw_target_sets := 3;
     pw_target_reps := Planner.RepsInt 15;
     pw_instructions := " Rest: 60-90 seconds, Tempo: 3-1-2" |}.

Definition catalog : list exercise :=
  [ {| ex_id := 5; ex_title := "Bicep Curls"; ex_type := "Isolation";
       ex_equipment := "Dumbbells"; ex_muscle_group := "Arms";
       ex_level := "Beginner"; ex_instructions := None |};
    {| ex_id := 6; ex_title := "Barbell Row"; ex_type := "Compound";
       ex_equipment := "Barbell"; ex_muscle_group := "Back";
       ex_level := "Intermediate"; ex_instructions := None |} ].

Definition log_on (day workout_id : Z) : workout_log :=
  {| wl_workout_id := workout_id; wl_user_id := 1; wl_date := day;
     wl_sets := 3; wl_reps := 12; wl_weight := 20 |}.

(** Two workouts scheduled for the Sunday, both logged that day. *)
Definition both_logged : Db.t :=
  {| fitness_plans := [my_plan];
     plan_workouts := [sunday_row 1 5 "Bicep Curls";
                       sunday_row 2 6 "Barbell Row"];
     workout_logs := [log_on sunday 1; log_on sunday 2];
     exercises := catalog;
     progression_tracking := [] |}.

(** A Monday three weeks later: the plan has no row for that week. *)
Definition later_monday : Z := 739019.

(** A plan with one Monday workout in its first week. *)
Definition monday_only : Db.t :=
  {| fitness_plans := [my_plan];
     plan_workouts := [curl_row];
     workout_logs := [];
     exercises := catalog;
     progression_tracking := [] |}.

End EngineExamples.

(** ** An auxiliary sum for the least-squares slope *)

Module TrendAux.

Local Open Scope Q_scope.

(** [gap_sum j a ys] is the sum of [(j + i) * (ys[i] - a)]. *)
Fixpoint gap_sum (j : Z) (a : Q) (ys : list Q) : Q :=
  match ys with
  | [] => 0
  | y :: ys' => inject_Z j * (y - a) + gap_sum (j + 1) a ys'
  end.

End TrendAux.

(** ** database_setup.py: storing a plan, the week summaries *)

Module Store.

Import Py Planner Db.

(** The id an [AUTOINCREMENT] key gives the next row: one past the largest
    id of the table. *)
Definition next_id (rows : list plan_workout) : Z :=
  1 + fold_right Z.max 0 (map pw_id rows).

(** "Convert rep ranges to target reps (use the max of range)":
    [_, max_reps = map(int, target_reps.split("-"))]. *)
Definition target_reps_of (reps : reps_value) : result reps_value :=
  match dashed reps with
  | Some s =>
      '(_, max_reps) <- parse_range s ;;
      ret (RepsInt max_reps)
  | None => ret reps
  end.

(** [INSERT INTO plan_workouts ...]. *)
Definition insert_plan_workout (r : plan_workout) (d : Db.t) : Db.t :=
  {| fitness_plans := fitness_plans d;
     plan_workouts := plan_workouts d ++ [r];
     workout_logs := workout_logs d;
     exercises := Db.exercises d;
     progression_tracking := progression_tracking d |}.

(** Body of the loop [for exercise in workout["exercises"]]. *)
Definition store_exercise (plan_id week_number day_number : Z)
    (workout : workout) (d : Db.t) (exercise : exercise_config)
  : result Db.t :=
  target_reps <- target_reps_of (e_reps exercise) ;;
  ret (insert_plan_workout
         {| pw_id := next_id (plan_workouts d);
            pw_plan_id := plan_id;
            pw_exercise_id := e_id exercise;
            pw_week := week_number;
            pw_day := day_number;
            pw_title := e_title exercise;
            pw_description := focus workout ++ " - " ++ e_title exercise;
            pw_target_sets := e_sets exercise;
            pw_target_reps := target_reps;
            pw_instructions :=
              e_notes exercise ++ " Rest: " ++ e_rest exercise
              ++ ", Tempo: " ++ e_tempo exercise |}
         d).

(** A loop that threads the tables and may raise. *)
Fixpoint for_state {A S : Type} (f : S -> A -> result S) (l : list A)
    (s : S) : result S :=
  match l with
  | [] => ret s
  | x :: l' =>
      s' <- f s x ;;
      for_state f l' s'
  end.

(** The loop [for day_index, workout in enumerate(week_data["workouts"],
    1)], from the index [day_index] on. *)
Fixpoint store_days (plan_id week_number day_index : Z)
    (workouts : list workout) (d : Db.t) : result Db.t :=
  match workouts with
  | [] => ret d
  | workout :: rest =>
      let day_number := day_index in
      d' <- for_state (store_exercise plan_id week_number day_number workout)
              (Planner.exercises workout) d ;;
      store_days plan_id week_number (day_index + 1) rest d'
  end.

(** The rows go to the tables as the loop runs; a raise leaves the call
    without result. *)
Definition _store_plan_workouts (plan_id : Z) (complete_plan : complete_plan)
    (d : Db.t) : result Db.t :=
  for_state
    (fun d week_data =>
       store_days plan_id (week week_data) 1 (workouts week_data) d)
    (weekly_schedule complete_plan) d.

(** *** [_calculate_week_progress], [get_plan_summary] *)

(** [x or default]. *)
Definition or_else (x default : Z) : Z := if x =? 0 then default else x.

(** [workout_logs JOIN plan_workouts ON workout_logs.workout_id =
    plan_workouts.id WHERE plan_workouts.plan_id = ? AND
    plan_workouts.week = ?]. *)
Definition week_logs (d : Db.t) (plan_id week : Z)
  : list (workout_log * plan_workout) :=
  flat_map
    (fun wl =>
       flat_map
         (fun pw =>
            if (wl_workout_id wl =? pw_id pw) && (pw_plan_id pw =? plan_id)
               && (pw_week pw =? week)
            then [(wl, pw)] else [])
         (plan_workouts d))
    (workout_logs d).

Definition week_rows (d : Db.t) (plan_id week : Z) : list plan_workout :=
  filter (fun pw => (pw_plan_id pw =? plan_id) && (pw_week pw =? week))
    (plan_workouts d).

Definition _calculate_week_progress (d : Db.t) (plan_id week : Z) : Q :=
  let total := or_else (Z.of_nat (length (week_rows d plan_id week))) 1 in
  let completed :=
    or_else (Z.of_nat (length (week_logs d plan_id week))) 0 in
  ((inject_Z completed / inject_Z total) * 100)%Q.

Record week_summary : Type := {
  ws_week : Z;
  exercises_completed : Z;
  avg_weight : Q;
  days_worked : Z;
  progress_pct : Q
}.

(** The distinct values of a column. *)
Fixpoint distinct (l : list Z) : list Z :=
  match l with
  | [] => []
  | x :: l' => x :: filter (fun y => negb (y =? x)) (distinct l')
  end.

(** [SELECT MAX(week) FROM plan_workouts WHERE plan_id = ?], then [or 0]. *)
Definition max_weeks (d : Db.t) (plan_id : Z) : Z :=
  match map pw_week
          (filter (fun pw => pw_plan_id pw =? plan_id) (plan_workouts d)) with
  | [] => 0
  | x :: l => or_else (fold_right Z.max x l) 0
  end.

(** Body of the loop [for week in range(1, max_weeks + 1)]. *)
Definition summarise_week (d : Db.t) (plan_id week : Z) : week_summary :=
  let logs := week_logs d plan_id week in
  let weights :=
    filter (ProgressTracker.Qltb 0) (map (fun p => wl_weight (fst p)) logs) in
  {| ws_week := week;
     exercises_completed := or_else (Z.of_nat (length logs)) 0;
     avg_weight := match weights with
                   | [] => 0
                   | _ :: _ => ProgressTracker.mean weights
                   end;
     days_worked :=
       or_else
         (Z.of_nat (length (distinct (map (fun p => pw_day (snd p)) logs))))
         0;
     progress_pct := _calculate_week_progress d plan_id week |}.

Definition get_plan_summary (d : Db.t) (plan_id : Z) : list week_summary :=
  map (summarise_week d plan_id) (range 1 (max_weeks d plan_id + 1)).

End Store.

(** ** Engine.py: class [WorkoutEngine] *)

Module WorkoutEngine.

Import Py Planner Db.

(** The loop of [get_workout_details] is the one [get_daily_recommendation]
    runs under "Get exercise details for each workout". *)
Definition get_workout_details (d : Db.t) (workouts : list plan_workout)
    (user_id : Z) : list Engine.workout_detail :=
  Engine.exercise_details d workouts.

(** An entry of [workout_history]; ['weight'] is read with [.get] and the
    default 0. *)
Record history_entry : Type := {
  sets_completed : Z;
  target_sets : Z;
  reps_completed : Z;
  target_reps : reps_value;
  weight : option Q
}.

Record suggestion : Type := {
  s_sets : Z;
  s_reps : reps_value;
  s_weight : Q;
  s_notes : string
}.

Definition calculate_suggested_progression
    (workout_history : list history_entry) : suggestion :=
  match workout_history with
  | [] =>
      {| s_sets := 3; s_reps := RepsStr "8-12"; s_weight := 0;
         s_notes := "Start with a weight you can handle for all sets" |}
  | first :: _ =>
      let last_workout := last workout_history first in
      let completed_all :=
        target_sets last_workout <=? sets_completed last_workout in
      let weight_used := match weight last_workout with
                         | Some w => w
                         | None => 0%Q
                         end in
      if completed_all then
        {| s_sets := sets_completed last_workout;
           s_reps := RepsInt (reps_completed last_workout);
           s_weight := (weight_used * (105 # 100))%Q;
           s_notes := "Increase weight by 5% from last session" |}
      else
        {| s_sets := target_sets last_workout;
           s_reps := target_reps last_workout;
           s_weight := weight_used;
           s_notes := "Maintain current weight and focus on form" |}
  end.

End WorkoutEngine.

(** ** progresstracker.py: [generate_progress_report] *)

Module Report.

Import Py Db ProgressTracker.

(** [exercise_progress[title] = progress] on a dictionary that keeps the
    order of first insertion. *)
Fixpoint dict_set {V : Type} (k : string) (v : V) (l : list (string * V))
  : list (string * V) :=
  match l with
  | [] => [(k, v)]
  | (k', v') :: l' =>
      if String.eqb k' k then (k, v) :: l' else (k', v') :: dict_set k v l'
  end.

(** [SELECT DISTINCT exercise_id FROM plan_workouts WHERE plan_id = ?]. *)
Definition plan_exercise_ids (d : Db.t) (plan_id : Z) : list Z :=
  Store.distinct
    (map pw_exercise_id
       (filter (fun pw => pw_plan_id pw =? plan_id) (plan_workouts d))).

(** The loop [for ex_id in exercise_ids]: the analyses run one after the
    other on the tables the one before left. *)
Fixpoint analyze_all (polyfit : fit) (today : Z) (user_id : Z)
    (exercise_ids : list Z)
    (exercise_progress : list (string * analysis)) (d : Db.t)
  : result (list (string * analysis) * Db.t) :=
  match exercise_ids with
  | [] => ret (exercise_progress, d)
  | ex_id :: rest =>
      match Engine.find_exercise d ex_id with
      | Some exercise =>
          '(progress, d') <-
            analyze_workout_history polyfit today d user_id ex_id 90 ;;
          analyze_all polyfit today user_id rest
            (dict_set (ex_title exercise) progress exercise_progress) d'
      | None => analyze_all polyfit today user_id rest exercise_progress d
      end
  end.

Record overall : Type := {
  avg_strength_trend : Q;
  exercise_count : Z;
  start_date : Z;
  days_active : Z
}.

Record report_body : Type := {
  plan_name : string;
  plan_goal : string;
  overall_progress : overall;
  exercise_progress : list (string * analysis);
  key_recommendations : list string
}.

Inductive report : Type :=
| ReportError (message : string)
| ReportSuccess (body : report_body).

Definition report_status (r : report) : string :=
  match r with
  | ReportError _ => "error"
  | ReportSuccess _ => "success"
  end.

Definition strength_trends (exercise_progress : list (string * analysis))
  : list Q :=
  flat_map (fun p => match snd p with
                     | Success r => [strength_trend (progression r)]
                     | NoData _ => []
                     end)
    exercise_progress.

Definition all_recommendations
    (exercise_progress : list (string * analysis)) : list string :=
  flat_map (fun p => match snd p with
                     | Success r =>
                         map (fun rec => fst p ++ ": " ++ rec)
                           (recommendations r)
                     | NoData _ => []
                     end)
    exercise_progress.

Definition generate_progress_report (polyfit : fit) (today : Z) (d : Db.t)
    (user_id plan_id : Z) : result (report * Db.t) :=
  match Engine.find_plan d plan_id with
  | None => ret (ReportError "Plan not found", d)
  | Some plan =>
      let exercise_ids := plan_exercise_ids d plan_id in
      '(exercise_progress, d') <-
        analyze_all polyfit today user_id exercise_ids [] d ;;
      let trends := strength_trends exercise_progress in
      let overall_progress :=
        {| avg_strength_trend :=
             match trends with
             | [] => 0%Q
             | _ :: _ => (sumQ trends / len trends)%Q
             end;
           exercise_count := Z.of_nat (length exercise_progress);
           start_date := fp_created_date plan;
           days_active := today - fp_created_date plan |} in
      let key_recommendations :=
        slice_to 5 (all_recommendations exercise_progress) in
      ret (ReportSuccess
             {| plan_name := fp_name plan;
                plan_goal := fp_goal plan;
                overall_progress := overall_progress;
                exercise_progress := exercise_progress;
                key_recommendations := key_recommendations |},
           d')
  end.

End Report.

(** ** Predicates used to state the properties below *)

Module Shapes.

Import Py Planner.

(** A string of decimal digits. *)
Definition digit_string (s : string) : Prop :=
  Forall (fun c => exists d, digit_of c = Some d) (list_ascii_of_string s).

(** An exercise of a week against the exercise of the base schedule in the
    same slot: the same exercise, rest and tempo. *)
Definition same_exercise (base e : exercise_config) : Prop :=
  e_id e = e_id base /\ e_title e = e_title base
  /\ e_rest e = e_rest base /\ e_tempo e = e_tempo base.

(** A day of a week against the day of the base schedule. *)
Definition same_day (base_day day : workout) : Prop :=
  focus day = focus base_day
  /\ Forall2 same_exercise (exercises base_day) (exercises day).

(** The reps of an exercise can be processed in every week: no dash, or a
    range of two integers. *)
Definition readable (r : reps_value) : Prop :=
  dashed r = None \/ exists a b, Spec.rep_range r = Some (a, b).

(** The tables [d'] are the tables [d] with the rows [rows] added to
    [plan_workouts], in this order, and nothing else changed. *)
Definition adds_rows (d d' : Db.t) (rows : list Db.plan_workout) : Prop :=
  Db.plan_workouts d' = (Db.plan_workouts d ++ rows)%list
  /\ Db.fitness_plans d' = Db.fitness_plans d
  /\ Db.workout_logs d' = Db.workout_logs d
  /\ Db.exercises d' = Db.exercises d
  /\ Db.progression_tracking d' = Db.progression_tracking d.

(** The tables [d'] are the tables [d] with the records [records] added to
    [progression_tracking], in this order, and nothing else changed. *)
Definition adds_records (d d' : Db.t) (records : list Db.progression)
  : Prop :=
  Db.progression_tracking d' = (Db.progression_tracking d ++ records)%list
  /\ Db.fitness_plans d' = Db.fitness_plans d
  /\ Db.plan_workouts d' = Db.plan_workouts d
  /\ Db.workout_logs d' = Db.workout_logs d
  /\ Db.exercises d' = Db.exercises d.

(** What holds of a row stored for a plan and a week, on a day between
    two bounds. *)
Definition stored_for (plan_id week_number : Z) (first_day last_day : Z)
    (row : Db.plan_workout) : Prop :=
  Db.pw_plan_id row = plan_id /\ Db.pw_week row = week_number
  /\ first_day <= Db.pw_day row <= last_day.

(** The ids of the rows [rows] grow along the list and lie above the ids
    of the rows [old]. *)
Definition fresh_ids (old rows : list Db.plan_workout) : Prop :=
  StronglySorted (fun a b => Db.pw_id a < Db.pw_id b) rows
  /\ forall o r, In o old -> In r rows -> Db.pw_id o < Db.pw_id r.

(** The number of exercise slots of a list of weeks. *)
Definition slots (weeks : list week_plan) : nat :=
  list_sum
    (map (fun wk => list_sum (map (fun day => length (exercises day))
                                (workouts wk)))
       weeks).

(** Text that [int] reads as Python does: ASCII characters only, and no
    longer than the 4300 digits Python converts. *)
Definition plain_text (s : string) : Prop :=
  Forall (fun c => (nat_of_ascii c < 128)%nat) (list_ascii_of_string s)
  /\ (String.length s <= 4300)%nat.

Definition plain (r : reps_value) : Prop :=
  match r with
  | RepsStr s => plain_text s
  | RepsInt _ => True
  end.

(** The elements of a list with their positions, counted from 1. *)
Definition numbered {A : Type} (l : list A) : list (Z * A) :=
  combine (map Z.of_nat (seq 1 (length l))) l.

(** An exercise slot of a plan: the week number, the position of the
    workout in its week, the workout and the exercise. *)
Definition slot : Type := Z * Z * workout * exercise_config.

(** The slots of a day, of a week from a list of numbered workouts, and of
    a plan, in the order week, workout, exercise. *)
Definition day_slots (week_number : Z) (day : Z * workout) : list slot :=
  map (fun e => (week_number, fst day, snd day, e)) (exercises (snd day)).

Definition plan_slots (weeks : list week_plan) : list slot :=
  flat_map (fun wk => flat_map (day_slots (week wk)) (numbered (workouts wk)))
    weeks.

(** The row stored for a slot: the plan id, the week, the position of the
    workout as the day, the exercise with its sets, and as target reps the
    upper end of a rep range or the reps as they are. *)
Definition row_of_slot (plan_id : Z) (s : slot) (row : Db.plan_workout)
  : Prop :=
  let '(week_number, day_number, day, e) := s in
  Db.pw_plan_id row = plan_id
  /\ Db.pw_week row = week_number
  /\ Db.pw_day row = day_number
  /\ Db.pw_exercise_id row = e_id e
  /\ Db.pw_title row = e_title e
  /\ Db.pw_description row = focus day ++ " - " ++ e_title e
  /\ Db.pw_target_sets row = e_sets e
  /\ (dashed (e_reps e) = None -> Db.pw_target_reps row = e_reps e)
  /\ (forall a b, Spec.rep_range (e_reps e) = Some (a, b) ->
                  Db.pw_target_reps row = RepsInt b)
  /\ Db.pw_instructions row
     = e_notes e ++ " Rest: " ++ e_rest e ++ ", Tempo: " ++ e_tempo e.

(** A plan dictionary around a weekly schedule; [_store_plan_workouts]
    reads no other key. *)
Definition plan_of_schedule (weeks : list week_plan) : complete_plan :=
  {| name := "Custom Fitness Plan";
     goal := "Body Building";
     duration_weeks := Z.of_nat (length weeks);
     workouts_per_week := 3;
     equipment := [];
     weekly_schedule := weeks;
     created_date := "2025-01-06";
     last_updated := "2025-01-06" |}.

End Shapes.

(** ** A plan row outside the week *)

Module StrayExamples.

Import Db TrackerExamples EngineExamples.

(** A row stored for day 8, a day the week does not have. *)
Definition stray_row : plan_workout :=
  {| pw_id := 1; pw_plan_id := 1; pw_exercise_id := 5; pw_week := 1;
     pw_day := 8; pw_title := "Bicep Curls";
     pw_description := "Pull - Bicep Curls"; pw_target_sets := 3;
     pw_target_reps := Planner.RepsInt 15;
     pw_instructions := " Rest: 60-90 seconds, Tempo: 3-1-2" |}.

Definition stray_day : Db.t :=
  {| fitness_plans := [my_plan];
     plan_workouts := [stray_row];
     workout_logs := [];
     exercises := catalog;
     progression_tracking := [] |}.

End StrayExamples.

(** * Properties *)

(** ** Loops that may raise *)

Section ForEach.

Import Py.

Context {A B : Type} (f : A -> result B).

Lemma for_each_ok (l : list A) (l' : list B) :
  for_each f l = inr l' -> Forall2 (fun x y => f x = inr y) l l'.
Proof.
  revert l'. induction l as [|x l IH]; intros l' H; simpl in H.
  - injection H as <-. constructor.
  - destruct (f x) as [e|y] eqn:Hx; [discriminate|].
    destruct (for_each f l) as [e|ys] eqn:Hl; [discriminate|].
    injection H as <-. constructor; auto.
Qed.

Lemma for_each_total (l : list A) :
  Forall (fun x => exists y, f x = inr y) l ->
  exists l', for_each f l = inr l'.
Proof.
  induction 1 as [|x l [y Hy] _ [l' Hl']]; simpl.
  - now exists [].
  - rewrite Hy, Hl'. now exists (y :: l').
Qed.

(** When the body raises one kind of exception only, one failing round
    makes the loop raise it. *)
Lemma for_each_raises (e : exn) (l : list A) (x : A) :
  (forall y e', f y = inl e' -> e' = e) ->
  In x l -> f x = inl e -> for_each f l = inl e.
Proof.
  intros Honly. induction l as [|y l IH]; intros Hin Hx; [easy|].
  simpl. destruct (f y) as [e'|z] eqn:Hy.
  - now rewrite (Honly _ _ Hy).
  - destruct Hin as [->|Hin]; [congruence|].
    now rewrite (IH Hin Hx).
Qed.

Lemma for_each_only (e : exn) (l : list A) (e' : exn) :
  (forall y e', f y = inl e' -> e' = e) ->
  for_each f l = inl e' -> e' = e.
Proof.
  intros Honly. induction l as [|y l IH]; simpl; [discriminate|].
  destruct (f y) as [e1|z] eqn:Hy.
  - intros [= <-]. eauto.
  - destruct (for_each f l) as [e2|zs]; [|discriminate].
    intros [= <-]. auto.
Qed.

End ForEach.

(** ** The training split (planner.py) *)

Section TrainingSplit.

Import Py Planner.

Lemma split_of_small_count (goal : string) (n : Z) :
  1 <= n <= 7 ->
  length (_determine_training_split n goal) = Z.to_nat n.
Proof.
  intros Hn.
  assert (n = 1 \/ n = 2 \/ n = 3 \/ n = 4 \/ n = 5 \/ n = 6 \/ n = 7)
    as Hcases by lia.
  unfold _determine_training_split, training_splits.
  repeat destruct Hcases as [-> | Hcases]; try subst n; simpl;
    repeat match goal with
           | |- context [String.eqb goal ?s] => destruct (String.eqb goal s)
           end; reflexivity.
Qed.

Lemma split_of_large_count (goal : string) (n : Z) :
  7 < n ->
  _determine_training_split n goal = _determine_training_split 7 goal.
Proof.
  intros Hn. unfold _determine_training_split.
  destruct (Z.ltb_spec 7 n); [reflexivity | lia].
Qed.

(** C9. For every goal and every count [n >= 1], the split selector
    returns [min n 7] focus labels: exactly [n] of them when [n <= 7],
    whichever of the three tables answers, and the answer for 7 when
    [n > 7]. *)
Theorem training_split_has_n_labels (goal : string) (n : Z) :
  1 <= n ->
  length (_determine_training_split n goal) = Z.to_nat (Z.min n 7)
  /\ _determine_training_split n goal
     = _determine_training_split (Z.min n 7) goal.
Proof.
  intros Hn. destruct (Z.le_gt_cases n 7) as [Hle | Hgt].
  - rewrite Z.min_l by assumption.
    split; [apply split_of_small_count; lia | reflexivity].
  - rewrite Z.min_r by lia.
    rewrite (split_of_large_count goal n) by lia.
    split; [apply split_of_small_count; lia | reflexivity].
Qed.

Lemma training_split_has_n_labels_witness :
  1 <= 9
  /\ length (_determine_training_split 9 "Body Building") = 7%nat
  /\ length (_determine_training_split 5 "Weight Loss") = 5%nat
  /\ length (_determine_training_split 3 "Body Building") = 3%nat.
Proof.
  split; [lia|].
  split; [|split].
  - exact (proj1 (training_split_has_n_labels "Body Building" 9
                    ltac:(lia))).
  - exact (proj1 (training_split_has_n_labels "Weight Loss" 5
                    ltac:(lia))).
  - exact (proj1 (training_split_has_n_labels "Body Building" 3
                    ltac:(lia))).
Defined.

End TrainingSplit.

(** ** The progression engine (planner.py) *)

Section Progression.

Import Py Planner Spec Examples.

Lemma range_cons (a b : Z) : a < b -> range a b = a :: range (a + 1) b.
Proof.
  intros Hab. unfold range.
  replace (Z.to_nat (b - a)) with (S (Z.to_nat (b - (a + 1)))) by lia.
  simpl. f_equal; [lia|].
  rewrite <- seq_shift, map_map. apply map_ext. intros i. lia.
Qed.

Lemma int_only_ValueError (s : string) (e : exn) :
  int s = inl e -> e = ValueError.
Proof.
  unfold int. destruct (strip s) as [|c body].
  - destruct (digits 0 false EmptyString); [discriminate|].
    now intros [= <-].
  - destruct (Ascii.eqb c "-"); [|destruct (Ascii.eqb c "+")];
      match goal with
      | |- context [digits 0 false ?b] => destruct (digits 0 false b)
      end; try discriminate; now intros [= <-].
Qed.

Lemma parse_range_only_ValueError (s : string) (e : exn) :
  parse_range s = inl e -> e = ValueError.
Proof.
  unfold parse_range.
  destruct (split "-" s) as [|a [|b [|c l]]]; try now intros [= <-].
  simpl. destruct (int a) as [e1|x] eqn:Ha.
  - intros [= <-]. eapply int_only_ValueError; eassumption.
  - destruct (int b) as [e2|y] eqn:Hb; [|discriminate].
    intros [= <-]. eapply int_only_ValueError; eassumption.
Qed.

Lemma progress_exercise_only_ValueError level week is_deload exercise e :
  progress_exercise level week is_deload exercise = inl e -> e = ValueError.
Proof.
  unfold progress_exercise.
  destruct is_deload; simpl;
    [|destruct (week mod 2 =? 1); [|discriminate]];
    (destruct (dashed (e_reps exercise)) as [s|]; [|discriminate]);
    simpl; destruct (parse_range s) as [e'|[a b]] eqn:Hs; try discriminate;
    intros [= <-]; eapply parse_range_only_ValueError; eassumption.
Qed.

Lemma progress_day_only_ValueError level week is_deload day e :
  progress_day level week is_deload day = inl e -> e = ValueError.
Proof.
  unfold progress_day. simpl.
  destruct (for_each _ (exercises day)) as [e'|l] eqn:H; [|discriminate].
  intros [= <-]. eapply for_each_only; [|exact H].
  intros y e''. apply progress_exercise_only_ValueError.
Qed.

Lemma deload_frequency_cases (level : string) :
  deload_frequency (progression_patterns level) = 4
  \/ deload_frequency (progression_patterns level) = 3.
Proof.
  unfold progression_patterns.
  repeat match goal with
         | |- context [String.eqb level ?s] => destruct (String.eqb level s)
         end; simpl; auto.
Qed.

(** An exercise whose reps is "30-60 seconds" makes every odd regular week
    and every deload week raise. *)
Lemma seconds_range_raises level week is_deload exercise :
  e_reps exercise = RepsStr "30-60 seconds" ->
  is_deload = true \/ week mod 2 = 1 ->
  progress_exercise level week is_deload exercise = inl ValueError.
Proof.
  intros Hreps Hweek. unfold progress_exercise. rewrite Hreps.
  destruct is_deload; simpl; [reflexivity|].
  destruct Hweek as [|Hodd]; [discriminate|].
  rewrite Hodd. reflexivity.
Qed.

(** The schedule builder gives "30-60 seconds" to every exercise that is
    neither Compound nor Isolation nor Cardio, the Mobility ones among
    them. *)
Lemma mobility_configured_reps level goal x :
  x_type x = "Mobility" ->
  e_reps (configure_exercise level goal x) = RepsStr "30-60 seconds".
Proof. intros Htype. unfold configure_exercise. now rewrite Htype. Qed.

(** C4. A base schedule that holds an exercise with the Mobility reps
    "30-60 seconds" makes [_apply_progression] raise [ValueError] for every
    duration of at least one week and every experience level: week 1 is odd
    and never a deload week, and [int("60 seconds")] fails there. *)
Theorem mobility_reps_abort_progression
    (workout_schedule : list workout) (duration_weeks : Z) (level : string)
    (day : workout) (exercise : exercise_config) :
  1 <= duration_weeks ->
  In day workout_schedule ->
  In exercise (exercises day) ->
  e_reps exercise = RepsStr "30-60 seconds" ->
  _apply_progression workout_schedule duration_weeks level = inl ValueError.
Proof.
  intros Hdur Hday Hex Hreps. unfold _apply_progression.
  rewrite range_cons by lia. simpl.
  assert (progress_week workout_schedule level 1 = inl ValueError) as ->;
    [|reflexivity].
  unfold progress_week.
  assert ((1 mod deload_frequency (progression_patterns level) =? 0) = false)
    as -> by (destruct (deload_frequency_cases level) as [-> | ->];
              reflexivity).
  assert (for_each (progress_day level 1 false) workout_schedule
          = inl ValueError) as ->; [|reflexivity].
  apply for_each_raises with (x := day); auto.
  - intros y e. apply progress_day_only_ValueError.
  - unfold progress_day.
    assert (for_each (progress_exercise level 1 false) (exercises day)
            = inl ValueError) as ->; [|reflexivity].
    apply for_each_raises with (x := exercise); auto.
    + intros y e. apply progress_exercise_only_ValueError.
    + apply seconds_range_raises; auto.
Qed.

Lemma mobility_reps_abort_progression_witness :
  _apply_progression
    [ {| focus := "Dynamic Mobility"; exercises := [hip_circles] |} ]
    4 "Beginner"
  = inl ValueError.
Proof.
  apply (mobility_reps_abort_progression _ 4 "Beginner"
           {| focus := "Dynamic Mobility"; exercises := [hip_circles] |}
           hip_circles).
  - lia.
  - simpl; auto.
  - simpl; auto.
  - reflexivity.
Defined.

Lemma Forall2_In_impl {A B : Type} (R Q : A -> B -> Prop) l l' :
  Forall2 R l l' ->
  (forall x y, In x l -> R x y -> Q x y) ->
  Forall2 Q l l'.
Proof.
  induction 1 as [|x y l l' Hxy _ IH]; intros Himp; constructor.
  - apply Himp; simpl; auto.
  - apply IH. intros x' y' Hin. apply Himp. simpl; auto.
Qed.

(** What a deload week does to any exercise it returns. *)
Lemma deload_exercise_shape level week exercise e :
  progress_exercise level week true exercise = inr e ->
  e_sets e = Z.max 2 (int_times_0_6 (e_sets exercise))
  /\ forall a b, rep_range (e_reps exercise) = Some (a, b) ->
                 e_reps e = RepsStr (str a ++ "-" ++ str (a + 2)).
Proof.
  unfold progress_exercise, rep_range. simpl.
  destruct (dashed (e_reps exercise)) as [s|]; simpl.
  - destruct (parse_range s) as [err|[lo hi]]; [discriminate|].
    intros [= <-]. split; [reflexivity|].
    now intros a b [= <- <-].
  - intros [= <-]. split; [reflexivity | discriminate].
Qed.

(** Every rep range the schedule builder assigns leaves room for the
    deload rewrite. *)
Lemma configured_range_width level goal x a b :
  rep_range (e_reps (configure_exercise level goal x)) = Some (a, b) ->
  a + 2 <= b.
Proof.
  unfold configure_exercise, intensity_mapping.
  repeat match goal with
         | |- context [String.eqb ?u ?v] => destruct (String.eqb u v)
         | |- context [contains ?u ?v] => destruct (contains u v)
         end;
    intros H; vm_compute in H; try discriminate;
    injection H as <- <-; lia.
Qed.

Lemma configured_deload_ok level goal week x e :
  progress_exercise level week true (configure_exercise level goal x)
  = inr e ->
  deload_ok (configure_exercise level goal x) e.
Proof.
  intros H. destruct (deload_exercise_shape _ _ _ _ H) as [Hsets Hreps].
  split; [lia|].
  intros a b Hab. split; [exact (Hreps a b Hab)|].
  eapply configured_range_width; eassumption.
Qed.

(** One deload week of a schedule built by [_create_workout_schedule]. *)
Lemma deload_week_bounds
    (select : selector) (training_split equipment limitations : list string)
    (level goal : string) (w : Z) (wk : week_plan) :
  progress_week
    (_create_workout_schedule select training_split equipment limitations
       level goal) level w = inr wk ->
  is_deload wk = true ->
  Forall2 (fun base_day day =>
             Forall2 deload_ok (exercises base_day) (exercises day))
    (_create_workout_schedule select training_split equipment limitations
       level goal)
    (workouts wk).
Proof.
  intros Hw Hdeload. unfold progress_week in Hw. simpl in Hw.
  destruct (for_each _ (_create_workout_schedule _ _ _ _ _ _))
    as [err|days] eqn:Hdays; [discriminate|].
  injection Hw as <-. simpl in Hdeload |- *. rewrite Hdeload in Hdays.
  apply for_each_ok in Hdays.
  eapply Forall2_In_impl; [exact Hdays|].
  intros base_day day Hin Hday. unfold progress_day in Hday. simpl in Hday.
  destruct (for_each _ (exercises base_day)) as [err|es] eqn:Hes;
    [discriminate|].
  injection Hday as <-. simpl. apply for_each_ok in Hes.
  eapply Forall2_In_impl; [exact Hes|].
  intros b e Hb He.
  unfold _create_workout_schedule in Hin.
  apply in_map_iff in Hin as [day_focus [<- _]]. simpl in Hb.
  apply in_map_iff in Hb as [x [<- _]].
  eapply configured_deload_ok; eassumption.
Qed.

(** C5. In every plan the progression engine returns for a schedule built
    by [_create_workout_schedule], whatever the exercise selector, each
    exercise of a deload week has at least 2 sets, and where the exercise of
    the base schedule carries a rep range [a-b] the deload week's range is
    [a-(a+2)] with [a+2 <= b]. *)
Theorem generated_deload_weeks_keep_bounds
    (select : selector) (training_split equipment limitations : list string)
    (level goal : string) (duration_weeks : Z)
    (base : list workout) (weeks : list week_plan) :
  base = _create_workout_schedule select training_split equipment limitations
           level goal ->
  _apply_progression base duration_weeks level = inr weeks ->
  Forall (fun wk =>
            is_deload wk = true ->
            Forall2 (fun base_day day =>
                       Forall2 deload_ok (exercises base_day) (exercises day))
              base (workouts wk))
    weeks.
Proof.
  intros -> Hprog. apply for_each_ok in Hprog.
  induction Hprog as [|w wk ws wks Hw _ IH]; constructor; [|exact IH].
  eapply deload_week_bounds; eassumption.
Qed.

Lemma generated_deload_weeks_keep_bounds_witness :
  exists weeks wk,
    _apply_progression beginner_base 4 "Beginner" = inr weeks
    /\ nth_error weeks 3 = Some wk
    /\ is_deload wk = true
    /\ Forall2 (fun base_day day =>
                  Forall2 deload_ok (exercises base_day) (exercises day))
         beginner_base (workouts wk).
Proof.
  destruct (_apply_progression beginner_base 4 "Beginner")
    as [err|weeks] eqn:Hweeks; [vm_compute in Hweeks; discriminate|].
  pose proof (generated_deload_weeks_keep_bounds
                _select_exercises_for_focus
                (_determine_training_split 3 "Body Building")
                ["Dumbbells"] ["None"] "Beginner" "Body Building" 4
                beginner_base weeks eq_refl Hweeks) as Hall.
  rewrite Forall_forall in Hall.
  assert (exists wk, nth_error weeks 3 = Some wk /\ is_deload wk = true)
    as [wk [Hnth Hdl]]
    by (vm_compute in Hweeks; injection Hweeks as <-;
        eexists; split; reflexivity).
  exists weeks, wk. repeat split; auto.
  apply Hall; [eapply nth_error_In; eassumption | assumption].
Defined.

(** The deload flag of a returned week follows the per-level frequency. *)
Lemma deload_flag_follows_table workout_schedule level w wk :
  progress_week workout_schedule level w = inr wk ->
  week wk = w
  /\ is_deload wk
     = (w mod deload_frequency (progression_patterns level) =? 0).
Proof.
  unfold progress_week. simpl.
  destruct (for_each _ workout_schedule); [discriminate|].
  intros [= <-]. split; reflexivity.
Qed.

Lemma deload_frequency_table :
  deload_frequency (progression_patterns "Beginner") = 4
  /\ deload_frequency (progression_patterns "Intermediate") = 4
  /\ deload_frequency (progression_patterns "Advanced") = 3.
Proof. repeat split. Qed.

(** For a beginner the fixed factor 0.6 is the table's 1 - 0.4. *)
Lemma deload_sets_beginner (sets : Z) :
  0 <= sets ->
  Z.max 2 (int_times_0_6 sets) = Spec.deload_sets "Beginner" sets.
Proof.
  intros Hs. unfold Spec.deload_sets, int_times_0_6. simpl.
  now rewrite Z.quot_div_nonneg by lia.
Qed.

(** C2 (the code departs from the table). Schedule of an advanced user,
    week 3, a deload week: the sets of "Bicep Curls" go from 4 to 2, the
    fixed factor 0.6 at work, where the table's 25% reduction gives
    max(2, floor(4 x 0.75)) = 3. *)
Theorem advanced_deload_sets_ignore_table :
  exists weeks wk day e base_day base_e,
    _apply_progression advanced_base 3 "Advanced" = inr weeks
    /\ nth_error weeks 2 = Some wk
    /\ week wk = 3 /\ is_deload wk = true
    /\ nth_error (workouts wk) 0 = Some day
    /\ nth_error (exercises day) 2 = Some e
    /\ nth_error advanced_base 0 = Some base_day
    /\ nth_error (exercises base_day) 2 = Some base_e
    /\ e_title base_e = "Bicep Curls" /\ e_title e = "Bicep Curls"
    /\ e_sets base_e = 4
    /\ e_sets e = 2
    /\ Spec.deload_sets "Advanced" (e_sets base_e) = 3.
Proof.
  do 6 eexists. repeat split; vm_compute; reflexivity.
Qed.




End Progression.

(** ** The linear trend (progresstracker.py) *)

Section Trend.

Import Py ProgressTracker Spec TrendAux.
Local Open Scope Q_scope.

Lemma len_cons {A : Type} (x : A) (l : list A) : len (x :: l) == len l + 1.
Proof.
  unfold len. simpl length. rewrite Nat2Z.inj_succ, <- Z.add_1_r.
  now rewrite inject_Z_plus.
Qed.

Lemma len_nonneg {A : Type} (l : list A) : 0 <= len l.
Proof.
  unfold len. change 0 with (inject_Z 0). rewrite <- Zle_Qle. lia.
Qed.

Lemma arange_from_length (k : Z) (n : nat) : length (arange_from k n) = n.
Proof. revert k. induction n; intros k; simpl; auto. Qed.

Lemma Qltb_true (x y : Q) : Qltb x y = true <-> x < y.
Proof.
  unfold Qltb. destruct (Qlt_le_dec x y) as [H|H]; split; auto;
    try discriminate.
  intros H'. exfalso. apply (Qlt_irrefl x). eapply Qlt_le_trans; eauto.
Qed.

(** The index-weighted sums against an element put in front. *)
Lemma gap_sum_dot (ys : list Q) (k j : Z) (a : Q) :
  dot (arange_from (k + j) (length ys)) ys - inject_Z k * sumQ ys
  - (sumQ (arange_from (k + j) (length ys)) - len ys * inject_Z k) * a
  == gap_sum j a ys.
Proof.
  revert j. induction ys as [|y ys IH]; intros j.
  - unfold len. simpl. ring.
  - simpl length. simpl arange_from. simpl dot. simpl sumQ. simpl gap_sum.
    rewrite <- (IH (j + 1)%Z), len_cons.
    replace (k + (j + 1))%Z with (k + j + 1)%Z by lia.
    rewrite (inject_Z_plus k j). ring.
Qed.

Lemma slope_num_cons (a : Q) (ys : list Q) (k : Z) :
  slope_num (arange_from k (length (a :: ys))) (a :: ys)
  == slope_num (arange_from (k + 1) (length ys)) ys + gap_sum 1 a ys.
Proof.
  unfold slope_num. rewrite <- (gap_sum_dot ys k 1 a).
  simpl length. simpl arange_from. simpl dot. simpl sumQ.
  rewrite len_cons. ring.
Qed.

Lemma gap_sum_nonneg (ys : list Q) (j : Z) (a : Q) :
  (0 <= j)%Z -> Forall (Qlt a) ys -> 0 <= gap_sum j a ys.
Proof.
  intros Hj Hall. revert j Hj.
  induction Hall as [|y ys Hy _ IH]; intros j Hj; simpl.
  - apply Qle_refl.
  - assert (0 <= inject_Z j) by (change 0 with (inject_Z 0);
                                 now rewrite <- Zle_Qle).
    assert (0 <= gap_sum (j + 1) a ys) by (apply IH; lia).
    assert (0 <= inject_Z j * (y - a))
      by (apply Qmult_le_0_compat; [assumption | lra]).
    lra.
Qed.

Lemma gap_sum_pos (y : Q) (ys : list Q) (a : Q) :
  Forall (Qlt a) (y :: ys) -> 0 < gap_sum 1 a (y :: ys).
Proof.
  intros Hall. inversion Hall as [|? ? Hy Hys]; subst. cbn [gap_sum].
  assert (0 <= gap_sum (1 + 1) a ys) by (apply gap_sum_nonneg; [lia | auto]).
  change (inject_Z 1) with 1. lra.
Qed.

Lemma slope_num_nonneg (ys : list Q) (k : Z) :
  StronglySorted Qlt ys ->
  0 <= slope_num (arange_from k (length ys)) ys.
Proof.
  intros Hs. revert k. induction Hs as [|a ys _ IH Ha]; intros k.
  - unfold slope_num, len. simpl. lra.
  - rewrite slope_num_cons.
    assert (0 <= gap_sum 1 a ys) by (apply gap_sum_nonneg; [lia | auto]).
    specialize (IH (k + 1)%Z). lra.
Qed.

Lemma slope_num_pos (ys : list Q) (k : Z) :
  StronglySorted Qlt ys -> (2 <= length ys)%nat ->
  0 < slope_num (arange_from k (length ys)) ys.
Proof.
  intros Hs Hlen. destruct Hs as [|a ys Hs Ha]; [simpl in Hlen; lia|].
  destruct ys as [|y ys]; [simpl in Hlen; lia|].
  rewrite slope_num_cons.
  pose proof (slope_num_nonneg (y :: ys) (k + 1) Hs).
  pose proof (gap_sum_pos y ys a Ha). lra.
Qed.

Lemma arange_from_above (n : nat) (k m : Z) :
  (m < k)%Z -> Forall (Qlt (inject_Z m)) (arange_from k n).
Proof.
  revert k. induction n as [|n IH]; intros k Hmk; simpl; constructor.
  - now rewrite <- Zlt_Qlt.
  - apply IH. lia.
Qed.

Lemma arange_from_sorted (n : nat) (k : Z) :
  StronglySorted Qlt (arange_from k n).
Proof.
  revert k. induction n as [|n IH]; intros k; simpl; constructor.
  - apply IH.
  - apply arange_from_above. lia.
Qed.

(** The denominator of the fit is positive from two points on. *)
Lemma slope_den_pos (n : nat) :
  (2 <= n)%nat -> 0 < slope_den (arange n).
Proof.
  intros Hn. unfold arange.
  change (slope_den (arange_from 0 n))
    with (slope_num (arange_from 0 n) (arange_from 0 n)).
  rewrite <- (arange_from_length 0 n) at 1.
  apply slope_num_pos; [apply arange_from_sorted|].
  now rewrite arange_from_length.
Qed.

Lemma constant_sums (c : Q) (ys : list Q) :
  Forall (Qeq c) ys ->
  forall xs, length xs = length ys ->
  sumQ ys == len ys * c /\ dot xs ys == c * sumQ xs.
Proof.
  induction 1 as [|y ys Hy _ IH]; intros xs Hlen.
  - destruct xs; [|discriminate]. unfold len. simpl. split; ring.
  - destruct xs as [|x xs]; [discriminate|].
    injection Hlen as Hlen. destruct (IH xs Hlen) as [Hs Hd].
    simpl sumQ. simpl dot. rewrite len_cons, Hs, Hd, <- Hy. split; ring.
Qed.

Lemma slope_num_constant (c : Q) (ys xs : list Q) :
  Forall (Qeq c) ys -> length xs = length ys -> slope_num xs ys == 0.
Proof.
  intros Hc Hlen. destruct (constant_sums c ys Hc xs Hlen) as [Hs Hd].
  unfold slope_num. rewrite Hs, Hd. ring.
Qed.

(** With the exact least-squares slope in the place of the numerical fit,
    the trend of a constant series is 0 and the trend of a strictly
    increasing series with a positive first value is positive. *)
Lemma exact_trend_of_constant (c : Q) (series : list Q) :
  Forall (Qeq c) series -> _calculate_trend least_squares_slope series == 0.
Proof.
  intros Hc. unfold _calculate_trend.
  destruct (length series <? 2)%nat; [reflexivity|].
  destruct series as [|first rest]; [reflexivity|].
  destruct (Qltb 0 first); [|reflexivity].
  unfold least_squares_slope.
  rewrite (slope_num_constant c (first :: rest)); auto.
  - unfold Qdiv. ring.
  - unfold arange. apply arange_from_length.
Qed.

Lemma exact_trend_of_increasing (first : Q) (rest : list Q) :
  Sorted Qlt (first :: rest) -> rest <> [] -> 0 < first ->
  0 < _calculate_trend least_squares_slope (first :: rest).
Proof.
  intros Hsorted Hrest Hfirst.
  assert (2 <= length (first :: rest))%nat as Hlen
    by (destruct rest; [congruence | simpl; lia]).
  apply Sorted_StronglySorted in Hsorted; [|exact Qlt_trans].
  unfold _calculate_trend.
  destruct (Nat.ltb_spec (length (first :: rest)) 2) as [Hlt|_]; [lia|].
  rewrite (proj2 (Qltb_true 0 first) Hfirst).
  assert (0 < least_squares_slope (arange (length (first :: rest)))
                (first :: rest)) as Hslope.
  { unfold least_squares_slope. apply Qlt_shift_div_l.
    - now apply slope_den_pos.
    - rewrite Qmult_0_l. unfold arange. now apply slope_num_pos. }
  apply Qmult_lt_0_compat; [|reflexivity].
  apply Qlt_shift_div_l; [assumption | now rewrite Qmult_0_l].
Qed.




End Trend.

(** ** History analysis (progresstracker.py) *)

Section Analysis.

Import Py Db ProgressTracker TrackerExamples.

Lemma progress_rating_bounds (p : progression_metrics) :
  -5 <= progress_rating_of p <= 5.
Proof. unfold progress_rating_of. lia. Qed.

(** [int] of a float drops the fractional part: it is the floor of a
    number that is not negative and the ceiling of a negative one. *)
Lemma int_of_float_trunc (x : Q) : int_of_float x = Spec.trunc x.
Proof.
  destruct x as [n d].
  unfold int_of_float, Spec.trunc, Qle_bool, Qceiling, Qfloor, Qopp.
  cbn [Qnum Qden].
  destruct (Z.leb_spec (0 * Z.pos d) (n * 1)) as [Hpos|Hneg].
  - apply Z.quot_div_nonneg; lia.
  - replace n with (- (- n)) at 1 by lia.
    rewrite Z.quot_opp_l by lia. f_equal. apply Z.quot_div_nonneg; lia.
Qed.

Lemma save_appends (today user_id exercise_id : Z) (one_rep_max volume : Q)
    (p : progression_metrics) (d : Db.t) :
  progression_tracking
    (_save_progression_data today user_id exercise_id one_rep_max volume p d)
  = (progression_tracking d
     ++ [ {| pt_user_id := user_id;
             pt_exercise_id := exercise_id;
             pt_date := today;
             pt_one_rep_max := one_rep_max;
             pt_volume_total := volume;
             pt_progress_rating := progress_rating_of p |} ])%list.
Proof. reflexivity. Qed.

(** C6 as stated fails: a strength trend of 4 percent is stored as rating
    0, the truncation of 0.8, where rounding gives 1. *)
Lemma rating_truncates_where_spec_rounds :
  map pt_progress_rating
    (progression_tracking
       (_save_progression_data 739004 1 5 104 312
          {| strength_change_pct := 4; volume_change_pct := 4;
             strength_trend := 4; volume_trend := 4;
             consistency := 7 # 45 |}
          no_sessions))
  = [0]
  /\ Spec.progress_rating 4 = 1.
Proof. split; vm_compute; reflexivity. Qed.

(** C6 (amended). Every time a Progression Record is persisted,
    [_save_progression_data] appends one record to [progression_tracking]
    and changes nothing else; the record's progress_rating is
    clamp(trunc(strength_trend / 5), -5, 5), the quotient with its
    fractional part dropped, and lies in [-5, 5] whatever the trend. *)
Theorem persisted_rating_is_truncated_and_clamped
    (today user_id exercise_id : Z) (one_rep_max volume : Q)
    (p : progression_metrics) (d : Db.t) :
  exists record,
    Shapes.adds_records d
      (_save_progression_data today user_id exercise_id one_rep_max volume
         p d)
      [record]
    /\ pt_user_id record = user_id /\ pt_exercise_id record = exercise_id
    /\ pt_progress_rating record = Spec.truncated_rating (strength_trend p)
    /\ -5 <= pt_progress_rating record <= 5.
Proof.
  eexists. split; [repeat split; apply save_appends|].
  cbn [pt_user_id pt_exercise_id pt_progress_rating].
  split; [reflexivity|]. split; [reflexivity|]. split.
  - unfold progress_rating_of, Spec.truncated_rating.
    now rewrite int_of_float_trunc.
  - apply progress_rating_bounds.
Qed.

(** A window that stays within the calendar has its first day. *)
Lemma days_before_in_calendar (today timeframe_days : Z) :
  Z.abs timeframe_days <= 999999999 ->
  1 <= today - timeframe_days <= max_ordinal ->
  days_before today timeframe_days = inr (today - timeframe_days).
Proof.
  intros Hdays Hday. unfold days_before.
  destruct (Z.ltb_spec 999999999 (Z.abs timeframe_days)); [lia|].
  destruct (Z.leb_spec 1 (today - timeframe_days)); [|lia].
  destruct (Z.leb_spec (today - timeframe_days) max_ordinal); [|lia].
  reflexivity.
Qed.

(** C10. When the lookback window starts at a date of the years 1000 to
    9999 and the query finds no log entry in it, [analyze_workout_history]
    returns the "No data" result: no exception, and the tables are left as
    they were (no Progression Record is written). *)
Theorem no_logs_give_no_data
    (polyfit : fit) (today : Z) (d : Db.t)
    (user_id exercise_id timeframe_days : Z) :
  Z.abs timeframe_days <= 999999999 ->
  first_iso_day <= today - timeframe_days <= max_ordinal ->
  select_logs d user_id exercise_id (today - timeframe_days) = [] ->
  exists a,
    analyze_workout_history polyfit today d user_id exercise_id
      timeframe_days
    = inr (a, d)
    /\ status a = "No data"
    /\ a = NoData "No workout history found for this exercise".
Proof.
  intros Hdays Hday Hlogs. unfold analyze_workout_history.
  rewrite (days_before_in_calendar _ _ Hdays)
    by (unfold first_iso_day in Hday; lia).
  cbn [bind Monad_result Monad_either]. rewrite Hlogs.
  eexists. split; [reflexivity|]. split; reflexivity.
Qed.

Lemma no_logs_give_no_data_witness :
  exists a,
    analyze_workout_history Spec.least_squares_slope 739004 no_sessions 1 5
      90
    = inr (a, no_sessions)
    /\ status a = "No data".
Proof.
  destruct (no_logs_give_no_data Spec.least_squares_slope 739004
              no_sessions 1 5 90)
    as (a & Hrun & Hstatus & _);
    [simpl; lia | unfold first_iso_day, max_ordinal; lia | reflexivity |].
  exists a. split; assumption.
Defined.

End Analysis.

(** ** The daily recommender (Engine.py) *)

Section Recommender.

Import Py Db Engine TrackerExamples EngineExamples.

Lemma reps_value_eqb_refl (r : Planner.reps_value) : reps_value_eqb r r = true.
Proof. destruct r; simpl; [apply Z.eqb_refl | apply String.eqb_refl]. Qed.

Lemma plan_workout_eqb_refl (w : plan_workout) : plan_workout_eqb w w = true.
Proof.
  unfold plan_workout_eqb.
  now rewrite !Z.eqb_refl, !String.eqb_refl, reps_value_eqb_refl.
Qed.

Lemma remove_length (x : plan_workout) (l : list plan_workout) :
  (length (remove x l) <= length l <= S (length (remove x l)))%nat.
Proof.
  induction l as [|y l IH]; simpl; [lia|].
  destruct (plan_workout_eqb y x); simpl; lia.
Qed.

(** The bound on the rounds never cuts the loop short: with as many rounds
    as the list is long, more rounds change nothing. *)
Lemma remove_completed_fuel d today (fuel extra i : nat) workouts :
  (length workouts <= fuel + i)%nat ->
  remove_completed d today (fuel + extra) i workouts
  = remove_completed d today fuel i workouts.
Proof.
  revert i workouts. induction fuel as [|fuel IH]; intros i workouts Hlen.
  - simpl in Hlen. apply nth_error_None in Hlen.
    destruct extra; simpl; [reflexivity | now rewrite Hlen].
  - simpl. destruct (nth_error workouts i) as [w|]; [|reflexivity].
    destruct (0 <? logged_today d today (pw_id w)); apply IH;
      pose proof (remove_length w workouts); lia.
Qed.

(** Past the first round the loop cannot empty the list: a round at
    position [i >= 1] needs at least two rows and takes at most one. *)
Lemma remove_completed_nonempty d today (fuel i : nat) workouts :
  (1 <= i)%nat -> workouts <> [] ->
  remove_completed d today fuel i workouts <> [].
Proof.
  revert i workouts. induction fuel as [|fuel IH]; intros i workouts Hi Hne;
    simpl; [assumption|].
  destruct (nth_error workouts i) as [w|] eqn:Hnth; [|assumption].
  assert (i < length workouts)%nat
    by (apply nth_error_Some; congruence).
  destruct (0 <? logged_today d today (pw_id w)); apply IH; auto.
  pose proof (remove_length w workouts).
  destruct (remove w workouts); [simpl in *; lia | discriminate].
Qed.

Lemma remove_head (w : plan_workout) (ws : list plan_workout) :
  remove w (w :: ws) = ws.
Proof. simpl. now rewrite plan_workout_eqb_refl. Qed.

Lemma remove_completed_first d today (fuel : nat) w ws :
  remove_completed d today (S fuel) 0 (w :: ws)
  = if 0 <? logged_today d today (pw_id w)
    then remove_completed d today fuel 1 (remove w (w :: ws))
    else remove_completed d today fuel 1 (w :: ws).
Proof. reflexivity. Qed.

(** With two or more workouts scheduled the "completed" answer is out of
    reach, whatever has been logged. *)
Lemma two_scheduled_never_completed rnd today d user_id plan_id w1 w2 rest :
  exists msg workouts adjustments muscle_recovery,
    after_schedule_lookup rnd today d user_id plan_id (w1 :: w2 :: rest)
    = Scheduled msg workouts adjustments muscle_recovery.
Proof.
  unfold after_schedule_lookup.
  destruct (remove_completed d today (length (w1 :: w2 :: rest)) 0
              (w1 :: w2 :: rest)) as [|w ws] eqn:Hloop.
  - exfalso. revert Hloop.
    change (length (w1 :: w2 :: rest)) with (S (length (w2 :: rest))).
    rewrite remove_completed_first, remove_head.
    destruct (0 <? logged_today d today (pw_id w1));
      apply remove_completed_nonempty; auto; discriminate.
  - do 4 eexists. reflexivity.
Qed.

(** A single scheduled workout that is logged does give "completed". *)
Lemma single_logged_workout_completed rnd today d user_id plan_id w :
  0 < logged_today d today (pw_id w) ->
  exists msg bonus,
    after_schedule_lookup rnd today d user_id plan_id [w]
    = Completed msg bonus.
Proof.
  intros Hlogged. unfold after_schedule_lookup.
  change (length [w]) with 1%nat.
  rewrite remove_completed_first, remove_head.
  rewrite (proj2 (Z.ltb_lt _ _) Hlogged). simpl.
  do 2 eexists. reflexivity.
Qed.

(** C1 (the code departs from the claim). Two workouts are scheduled for
    the day and both are logged that day: the answer is "scheduled", not
    "completed", and it lists the second workout, which the loop skips
    after it removes the first. *)
Theorem logged_workout_still_scheduled :
  map pw_id (workouts_on both_logged 1 (current_week_of sunday my_plan)
               (weekday_of sunday)) = [1; 2]
  /\ 0 < logged_today both_logged sunday 1
  /\ 0 < logged_today both_logged sunday 2
  /\ exists msg workouts adjustments muscle_recovery,
       get_daily_recommendation [] sunday both_logged 1 (Some 1)
       = inr (Scheduled msg workouts adjustments muscle_recovery)
       /\ map (fun w => pw_id (wd_workout w)) workouts = [2].
Proof.
  repeat split; try reflexivity.
  do 4 eexists. split; vm_compute; reflexivity.
Qed.

Lemma order_by_random_limit_one {A : Type} (rnd : list nat) (rows : list A) :
  rows <> [] ->
  exists x, order_by_random_limit 1 rnd rows = [x] /\ In x rows.
Proof.
  intros Hne. simpl.
  destruct (nth_error rows (hd 0%nat rnd mod length rows)) as [x|] eqn:Hnth.
  - exists x. split; [reflexivity|]. eapply nth_error_In; eassumption.
  - apply nth_error_None in Hnth.
    assert (hd 0%nat rnd mod length rows < length rows)%nat
      by (apply Nat.mod_upper_bound; destruct rows; [congruence | discriminate]).
    lia.
Qed.

Lemma day_names_total (day : Z) :
  1 <= day <= 7 -> exists name, day_names day = inr name.
Proof.
  intros H.
  assert (day = 1 \/ day = 2 \/ day = 3 \/ day = 4 \/ day = 5 \/ day = 6
          \/ day = 7) as Hc by lia.
  repeat destruct Hc as [-> | Hc]; try subst day; eexists; reflexivity.
Qed.

Lemma day_names_range (a : Z) (name : string) :
  day_names a = inr name -> 1 <= a <= 7.
Proof.
  destruct a as [|p|p]; try discriminate.
  do 3 (try destruct p as [p|p|]); intros H; simpl in H;
    try discriminate H; lia.
Qed.

Lemma day_names_injective (a b : Z) (name : string) :
  day_names a = inr name -> day_names b = inr name -> a = b.
Proof.
  intros Ha Hb.
  pose proof (day_names_range _ _ Ha) as Ra.
  pose proof (day_names_range _ _ Hb) as Rb.
  assert (a = 1 \/ a = 2 \/ a = 3 \/ a = 4 \/ a = 5 \/ a = 6 \/ a = 7)
    as Ca by lia.
  assert (b = 1 \/ b = 2 \/ b = 3 \/ b = 4 \/ b = 5 \/ b = 6 \/ b = 7)
    as Cb by lia.
  clear Ra Rb.
  repeat destruct Ca as [-> | Ca]; try subst a;
    repeat destruct Cb as [-> | Cb]; try subst b;
    try reflexivity; simpl in Ha, Hb; congruence.
Qed.

(** C8 as stated fails: the plan has no row at all for the current week,
    nothing was logged, and the answer is "completed" with a bonus
    workout where the claim asks for an alternative day. *)
Lemma empty_week_gives_completed :
  resolve_plan_id monday_only None = Some 1
  /\ workouts_on monday_only 1 (current_week_of later_monday my_plan)
       (weekday_of later_monday) = []
  /\ recent_workout_count monday_only later_monday 1 <= 5
  /\ exists msg bonus,
       get_daily_recommendation [] later_monday monday_only 1 None
       = inr (Completed msg bonus).
Proof.
  repeat split; try reflexivity; [discriminate|].
  do 2 eexists. vm_compute. reflexivity.
Qed.

(** C8 (amended). The plan is resolved and has no workout for today. With
    more than 5 sessions logged in the last 3 days the answer is a recovery
    workout, one of the three options. With 5 or fewer, and at least one
    workout in the current week of the plan (days numbered 1 to 7), the
    answer is the "alternative" one: it carries the workouts of the day of
    one row of that week, and names that day, which is not today. *)
Theorem unscheduled_day_recommendation
    (rnd : list nat) (today : Z) (d : Db.t) (user_id : Z)
    (plan_arg : option Z) (plan_id : Z) (plan : fitness_plan) :
  resolve_plan_id d plan_arg = Some plan_id ->
  find_plan d plan_id = Some plan ->
  workouts_on d plan_id (current_week_of today plan) (weekday_of today) = [] ->
  (5 < recent_workout_count d today user_id ->
   exists msg workout,
     get_daily_recommendation rnd today d user_id plan_arg
     = inr (Recovery msg workout)
     /\ type (Recovery msg workout) = Some "recovery"
     /\ In workout recovery_options)
  /\ (recent_workout_count d today user_id <= 5 ->
      workouts_in_week d plan_id (current_week_of today plan) <> [] ->
      Forall (fun w => 1 <= pw_day w <= 7)
        (workouts_in_week d plan_id (current_week_of today plan)) ->
      exists msg day alternative,
        get_daily_recommendation rnd today d user_id plan_arg
        = inr (Alternative msg day
                 (workouts_on d plan_id (current_week_of today plan)
                    (pw_day alternative)))
        /\ In alternative
             (workouts_in_week d plan_id (current_week_of today plan))
        /\ day_names (pw_day alternative) = inr day
        /\ pw_day alternative <> weekday_of today
        /\ day_names (weekday_of today) <> inr day).
Proof.
  intros Hplan Hfind Hnone. unfold get_daily_recommendation.
  rewrite Hplan, Hfind, Hnone. unfold _needs_recovery. split.
  - intros Hmany. rewrite (proj2 (Z.ltb_lt _ _) Hmany).
    do 2 eexists. split; [reflexivity|]. split; [reflexivity|].
    apply nth_In. apply Nat.mod_upper_bound. discriminate.
  - intros Hfew Hweek Hdays. rewrite (proj2 (Z.ltb_ge _ _) Hfew).
    destruct (order_by_random_limit_one rnd _ Hweek) as (alt & -> & Hin).
    rewrite Forall_forall in Hdays.
    destruct (day_names_total _ (Hdays alt Hin)) as [name Hname].
    rewrite Hname. simpl.
    assert (pw_day alt <> weekday_of today) as Hother.
    { intros Heq. unfold workouts_in_week in Hin.
      apply filter_In in Hin as [Hin Hkeys].
      assert (In alt (workouts_on d plan_id (current_week_of today plan)
                        (weekday_of today))) as Habs.
      { unfold workouts_on. apply filter_In. split; [assumption|].
        rewrite Hkeys. simpl. apply Z.eqb_eq. assumption. }
      rewrite Hnone in Habs. destruct Habs. }
    exists ("No workout scheduled for today. Here's your " ++ name
            ++ " workout instead:"), name, alt.
    repeat split; auto.
    intros Htoday. apply Hother.
    eapply day_names_injective; eassumption.
Qed.

Lemma unscheduled_day_recommendation_witness :
  exists msg day alternative,
    get_daily_recommendation [] sunday monday_only 1 None
    = inr (Alternative msg day
             (workouts_on monday_only 1 (current_week_of sunday my_plan)
                (pw_day alternative)))
    /\ day = "Monday".
Proof.
  destruct (unscheduled_day_recommendation [] sunday monday_only 1 None 1
              my_plan eq_refl eq_refl eq_refl) as [_ Halt].
  destruct Halt as (msg & day & alt & Hrun & Hin & Hname & _).
  - discriminate.
  - discriminate.
  - repeat constructor; discriminate.
  - exists msg, day, alt. split; [exact Hrun|].
    destruct Hin as [<-|[]]. now injection Hname as <-.
Defined.

End Recommender.

(** ** Writing and reading integers and rep ranges *)

Section Ranges.

Import Py Planner Spec Shapes.

Lemma rev_append_chars (s acc : string) :
  list_ascii_of_string (rev_append s acc) = (List.rev (list_ascii_of_string s) ++ list_ascii_of_string acc)%list.
Proof.
  revert acc. induction s as [|c s IH]; intros acc; simpl; [reflexivity|].
  rewrite IH. simpl. now rewrite <- app_assoc.
Qed.

Lemma rev_chars (s : string) : list_ascii_of_string (rev s) = List.rev (list_ascii_of_string s).
Proof. unfold rev. rewrite rev_append_chars. simpl. apply app_nil_r. Qed.

Lemma chars_inj (s t : string) : list_ascii_of_string s = list_ascii_of_string t -> s = t.
Proof.
  intros H. rewrite <- (string_of_list_ascii_of_string s),
              <- (string_of_list_ascii_of_string t). now rewrite H.
Qed.

Lemma rev_rev (s : string) : rev (rev s) = s.
Proof. apply chars_inj. rewrite !rev_chars. apply rev_involutive. Qed.

Lemma lstrip_incl (s : string) (c : ascii) :
  In c (list_ascii_of_string (lstrip s)) -> In c (list_ascii_of_string s).
Proof.
  induction s as [|c' s IH]; simpl; [easy|].
  destruct (is_space c'); simpl; auto.
Qed.

Lemma strip_incl (s : string) (c : ascii) :
  In c (list_ascii_of_string (strip s)) -> In c (list_ascii_of_string s).
Proof.
  unfold strip. rewrite rev_chars, <- in_rev. intros H.
  apply lstrip_incl in H. rewrite rev_chars, <- in_rev in H.
  now apply lstrip_incl.
Qed.

Lemma lstrip_id (s : string) :
  Forall (fun c => is_space c = false) (list_ascii_of_string s) -> lstrip s = s.
Proof.
  destruct s as [|c s]; simpl; [easy|].
  intros H. inversion H as [|? ? Hc _]. now rewrite Hc.
Qed.

Lemma strip_id (s : string) :
  Forall (fun c => is_space c = false) (list_ascii_of_string s) -> strip s = s.
Proof.
  intros H. unfold strip. rewrite (lstrip_id s H).
  rewrite lstrip_id; [apply rev_rev|].
  rewrite rev_chars. now apply Forall_rev.
Qed.

(** A decimal digit is no white space, no sign and no underscore. *)
Lemma digit_char (c : ascii) (d : Z) :
  digit_of c = Some d ->
  0 <= d <= 9 /\ is_space c = false
  /\ Ascii.eqb c "-" = false /\ Ascii.eqb c "+" = false.
Proof.
  destruct c as [[|] [|] [|] [|] [|] [|] [|] [|]]; vm_compute;
    try discriminate; intros [= <-]; repeat split; discriminate.
Qed.

Lemma uint_digit_string (u : Decimal.uint) :
  digit_string (NilEmpty.string_of_uint u).
Proof.
  unfold digit_string.
  induction u; simpl; constructor; auto; eexists; reflexivity.
Qed.

Lemma digit_string_no_space (s : string) :
  digit_string s -> Forall (fun c => is_space c = false) (list_ascii_of_string s).
Proof.
  apply Forall_impl. intros c [d Hd]. now apply digit_char in Hd.
Qed.

Lemma digit_string_no_dash (s : string) :
  digit_string s -> ~ In "-"%char (list_ascii_of_string s).
Proof.
  intros H Hin. unfold digit_string in H. rewrite Forall_forall in H.
  destruct (H _ Hin) as [d Hd]. discriminate.
Qed.

Lemma digits_step (c : ascii) (d acc : Z) (b : bool) (s : string) :
  digit_of c = Some d ->
  digits acc b (String c s) = digits (10 * acc + d) true s.
Proof. intros H. simpl. now rewrite H. Qed.

Lemma digits_uint_acc (u : Decimal.uint) (acc : positive) :
  digits (Zpos acc) true (NilEmpty.string_of_uint u)
  = Some (Zpos (Pos.of_uint_acc u acc)).
Proof.
  revert acc. induction u; intros acc; [reflexivity|..];
    cbn [NilEmpty.string_of_uint Pos.of_uint_acc];
    (erewrite digits_step by reflexivity);
    rewrite <- IHu; f_equal;
    repeat match goal with
           | |- context [Z.of_nat (nat_of_ascii ?c) - 48] =>
               let v := eval vm_compute in (Z.of_nat (nat_of_ascii c) - 48) in
               change (Z.of_nat (nat_of_ascii c) - 48) with v
           end; lia.
Qed.

Lemma digits_uint (u : Decimal.uint) :
  digits 0 true (NilEmpty.string_of_uint u) = Some (Z.of_N (Pos.of_uint u)).
Proof.
  induction u; [reflexivity|..];
    cbn [NilEmpty.string_of_uint Pos.of_uint];
    (erewrite digits_step by reflexivity);
    [exact IHu | apply digits_uint_acc ..].
Qed.

Lemma digits_first (u : Decimal.uint) :
  u <> Decimal.Nil ->
  digits 0 false (NilEmpty.string_of_uint u)
  = digits 0 true (NilEmpty.string_of_uint u).
Proof. destruct u; simpl; congruence. Qed.

Lemma str_pos (p : positive) :
  str (Zpos p) = NilEmpty.string_of_uint (Pos.to_uint p).
Proof.
  unfold str. simpl.
  pose proof (Unsigned.to_uint_nonnil p) as Hnil.
  now destruct (Pos.to_uint p).
Qed.

Lemma str_digit_string (n : Z) : 0 <= n -> digit_string (str n).
Proof.
  destruct n as [|p|p]; [|rewrite str_pos; intros _; apply uint_digit_string
                         |lia].
  intros _. repeat constructor. eexists; reflexivity.
Qed.

(** What [str] prints for a natural number, [int] reads back. *)
Lemma int_str (n : Z) : 0 <= n -> int (str n) = inr n.
Proof.
  destruct n as [|p|p]; [reflexivity| |lia]. intros _.
  pose proof (uint_digit_string (Pos.to_uint p)) as Hd.
  rewrite str_pos. unfold int.
  rewrite strip_id by now apply digit_string_no_space.
  pose proof (Unsigned.to_uint_nonnil p) as Hnil.
  pose proof (digits_first _ Hnil) as Hfirst.
  rewrite digits_uint, Unsigned.of_to in Hfirst. simpl in Hfirst.
  destruct (NilEmpty.string_of_uint (Pos.to_uint p)) as [|c body] eqn:Hs.
  - discriminate.
  - inversion Hd as [|? ? [d Hc] _]; subst.
    destruct (digit_char _ _ Hc) as (_ & _ & -> & ->).
    now rewrite Hfirst.
Qed.

Lemma digits_nonneg (s : string) (acc : Z) (b : bool) (n : Z) :
  0 <= acc -> digits acc b s = Some n -> 0 <= n.
Proof.
  revert acc b. induction s as [|c s IH]; intros acc b Hacc; cbn [digits].
  - destruct b; [|discriminate]. now intros [= <-].
  - destruct (digit_of c) as [d|] eqn:Hc.
    + apply IH. destruct (digit_char _ _ Hc) as [Hd _]. lia.
    + destruct (Ascii.eqb c "_" && b); [|discriminate]. now apply IH.
Qed.

(** A string without a dash reads as a natural number, if it reads. *)
Lemma int_nonneg (s : string) (n : Z) :
  ~ In "-"%char (list_ascii_of_string s) -> int s = inr n -> 0 <= n.
Proof.
  intros Hdash. unfold int.
  destruct (strip s) as [|c body] eqn:Hstrip.
  - destruct (digits 0 false EmptyString) eqn:Hd; [|discriminate].
    intros [= <-]. eapply digits_nonneg; [|exact Hd]. lia.
  - destruct (Ascii.eqb c "-") eqn:Hc.
    + exfalso. apply Hdash. apply strip_incl. rewrite Hstrip.
      apply Ascii.eqb_eq in Hc. subst. now left.
    + destruct (Ascii.eqb c "+");
        match goal with
        | |- context [digits 0 false ?t] =>
            destruct (digits 0 false t) eqn:Hd; [|discriminate]
        end; intros [= <-]; (eapply digits_nonneg; [|exact Hd]; lia).
Qed.

Lemma split_no_sep (sep : ascii) (s : string) :
  Forall (fun part => ~ In sep (list_ascii_of_string part)) (split sep s).
Proof.
  induction s as [|c s IH]; simpl.
  - repeat constructor. easy.
  - destruct (Ascii.eqb c sep) eqn:Hc.
    + constructor; [easy | exact IH].
    + destruct (split sep s) as [|p ps]; [repeat constructor|].
      * simpl. intros [->|[]]. now rewrite Ascii.eqb_refl in Hc.
      * inversion IH as [|? ? Hp Hps]; subst. constructor; [|exact Hps].
        simpl. intros [->|Hin]; [now rewrite Ascii.eqb_refl in Hc | auto].
Qed.

Lemma split_single (sep : ascii) (s : string) :
  ~ In sep (list_ascii_of_string s) -> split sep s = [s].
Proof.
  induction s as [|c s IH]; simpl; [reflexivity|]. intros Hn.
  destruct (Ascii.eqb_spec c sep) as [->|_]; [tauto|].
  rewrite IH by tauto. reflexivity.
Qed.

Lemma split_join (sep : ascii) (s1 s2 : string) :
  ~ In sep (list_ascii_of_string s1) ->
  split sep (s1 ++ String sep s2) = s1 :: split sep s2.
Proof.
  induction s1 as [|c s1 IH]; simpl; intros Hn.
  - now rewrite Ascii.eqb_refl.
  - destruct (Ascii.eqb_spec c sep) as [->|_]; [tauto|].
    rewrite IH by tauto. reflexivity.
Qed.

Lemma contains_join (sep : ascii) (s1 s2 : string) :
  contains (String sep EmptyString) (s1 ++ String sep s2) = true.
Proof.
  induction s1 as [|c s1 IH]; simpl.
  - destruct (ascii_dec sep sep); [now destruct s2 | congruence].
  - rewrite IH. apply orb_true_r.
Qed.

(** A range of two natural numbers, once written, is read back. *)
Lemma rep_range_written (x y : Z) :
  0 <= x -> 0 <= y ->
  rep_range (RepsStr (str x ++ "-" ++ str y)) = Some (x, y).
Proof.
  intros Hx Hy. unfold rep_range, dashed.
  change ("-" ++ str y) with (String "-" (str y)).
  rewrite contains_join. unfold parse_range.
  rewrite split_join
    by (apply digit_string_no_dash; now apply str_digit_string).
  rewrite split_single
    by (apply digit_string_no_dash; now apply str_digit_string).
  simpl. now rewrite !int_str.
Qed.

(** The two ends of a range that reads are natural numbers. *)
Lemma rep_range_nonneg (r : reps_value) (a b : Z) :
  rep_range r = Some (a, b) -> 0 <= a /\ 0 <= b.
Proof.
  unfold rep_range. destruct (dashed r) as [s|]; [|discriminate].
  unfold parse_range. pose proof (split_no_sep "-" s) as Hparts.
  destruct (split "-" s) as [|p [|q [|? ?]]]; try discriminate.
  destruct (int p) as [|x] eqn:Hp; [discriminate|].
  destruct (int q) as [|y] eqn:Hq; [discriminate|].
  intros [= <- <-].
  inversion Hparts as [|? ? Hnp Hrest]. inversion Hrest as [|? ? Hnq _].
  split; [exact (int_nonneg p x Hnp Hp) | exact (int_nonneg q y Hnq Hq)].
Qed.

End Ranges.

(** ** The shape of generated plans (planner.py) *)

Section PlanShape.

Import Py Planner Spec Shapes Examples.

Lemma placeholder_returns_samples
    (focus : string) (equipment limitations : list string)
    (experience_level goal : string) :
  _select_exercises_for_focus focus equipment limitations experience_level
    goal
  = sample_exercises.
Proof.
  unfold _select_exercises_for_focus, base_exercise_count,
    adjust_exercise_count.
  repeat match goal with
         | |- context [String.eqb ?u ?v] => destruct (String.eqb u v)
         | |- context [contains ?u ?v] => destruct (contains u v)
         end; reflexivity.
Qed.

(** X1. The placeholder selector of planner.py returns the same three
    sample exercises whatever the focus, the equipment, the limitations,
    the experience level and the goal (the quota it computes is never below
    three), so every day of a schedule built with it has these three
    exercises. *)
Theorem placeholder_selection_is_fixed
    (training_split equipment limitations : list string)
    (experience_level goal : string) :
  (forall focus,
     _select_exercises_for_focus focus equipment limitations
       experience_level goal = sample_exercises)
  /\ Forall (fun day => map e_title (exercises day)
                        = ["Barbell Squat"; "Push-ups"; "Bicep Curls"])
       (_create_workout_schedule _select_exercises_for_focus training_split
          equipment limitations experience_level goal).
Proof.
  split; [intros; apply placeholder_returns_samples|].
  unfold _create_workout_schedule. apply Forall_forall.
  intros day Hday. apply in_map_iff in Hday as [focus [<- _]].
  now rewrite placeholder_returns_samples.
Qed.

Lemma Forall2_nth_error_r {A B : Type} (R : A -> B -> Prop) l l' i y :
  Forall2 R l l' -> nth_error l' i = Some y ->
  exists x, nth_error l i = Some x /\ R x y.
Proof.
  intros H. revert i. induction H as [|x y' l l' Hxy _ IH]; intros i.
  - now destruct i.
  - destruct i as [|i]; simpl.
    + intros [= <-]. eauto.
    + apply IH.
Qed.

Lemma Forall2_In_l {A B : Type} (R : A -> B -> Prop) l l' x :
  Forall2 R l l' -> In x l -> exists y, In y l' /\ R x y.
Proof.
  induction 1 as [|x' y l l' Hxy _ IH]; simpl; [easy|].
  intros [<-|Hin]; [eauto|].
  destruct (IH Hin) as (y' & Hy' & HR). eauto.
Qed.

Lemma Forall2_In_r {A B : Type} (R : A -> B -> Prop) l l' y :
  Forall2 R l l' -> In y l' -> exists x, In x l /\ R x y.
Proof.
  induction 1 as [|x y' l l' Hxy _ IH]; simpl; [easy|].
  intros [<-|Hin]; [eauto|].
  destruct (IH Hin) as (x' & Hx' & HR). eauto.
Qed.

Lemma range_length (a b : Z) : length (range a b) = Z.to_nat (b - a).
Proof. unfold range. now rewrite length_map, length_seq. Qed.

Lemma range_nth_error (a b : Z) (i : nat) (w : Z) :
  nth_error (range a b) i = Some w -> w = a + Z.of_nat i.
Proof.
  unfold range. rewrite nth_error_map.
  destruct (nth_error (seq 0 (Z.to_nat (b - a))) i) as [j|] eqn:Hj;
    [|discriminate].
  intros [= <-].
  assert (i < length (seq 0 (Z.to_nat (b - a))))%nat as Hlt
    by (apply nth_error_Some; congruence).
  rewrite length_seq in Hlt.
  rewrite (nth_error_nth' _ 0%nat) in Hj by now rewrite length_seq.
  rewrite seq_nth in Hj by assumption. injection Hj as <-. reflexivity.
Qed.

Lemma progress_exercise_same level week is_deload exercise e :
  progress_exercise level week is_deload exercise = inr e ->
  same_exercise exercise e.
Proof.
  unfold progress_exercise, same_exercise.
  destruct is_deload; simpl;
    [|destruct (week mod 2 =? 1);
      [destruct ((2 <? week) && is_big_compound (e_title exercise))|]];
    try (destruct (dashed (e_reps exercise)) as [s|]; simpl;
         [destruct (parse_range s) as [err|[lo hi]]; [discriminate|]|]);
    intros [= <-]; repeat split.
Qed.

Lemma progress_day_same level week is_deload base_day day :
  progress_day level week is_deload base_day = inr day ->
  same_day base_day day.
Proof.
  unfold progress_day. simpl.
  destruct (for_each _ (exercises base_day)) as [err|es] eqn:Hes;
    [discriminate|].
  intros [= <-]. split; [reflexivity|]. simpl.
  apply for_each_ok in Hes.
  eapply Forall2_In_impl; [exact Hes|].
  intros b e _. apply progress_exercise_same.
Qed.

Lemma progress_week_shape workout_schedule level w wk :
  progress_week workout_schedule level w = inr wk ->
  week wk = w
  /\ is_deload wk
     = (w mod deload_frequency (progression_patterns level) =? 0)
  /\ Forall2 same_day workout_schedule (workouts wk).
Proof.
  unfold progress_week. intros Hweek.
  match type of Hweek with
  | context [for_each ?f ?l] => destruct (for_each f l) as [err|days] eqn:Hdays
  end; [discriminate|].
  injection Hweek as <-. cbn [week is_deload workouts].
  split; [reflexivity|]. split; [reflexivity|].
  apply for_each_ok in Hdays.
  eapply Forall2_In_impl; [exact Hdays|].
  intros bd d _. apply progress_day_same.
Qed.

(** X2. A plan [_apply_progression] returns has one week per week of the
    duration, numbered from 1; a week is flagged as deload exactly when its
    number is a multiple of the level's deload frequency; and every week
    has the days of the base schedule in their order, each with the same
    exercises (id, title, rest, tempo) in the same order. *)
Theorem progression_keeps_plan_shape
    (workout_schedule : list workout) (duration_weeks : Z) (level : string)
    (weeks : list week_plan) :
  _apply_progression workout_schedule duration_weeks level = inr weeks ->
  length weeks = Z.to_nat duration_weeks
  /\ forall i wk,
       nth_error weeks i = Some wk ->
       week wk = Z.of_nat i + 1
       /\ is_deload wk
          = (week wk mod deload_frequency (progression_patterns level) =? 0)
       /\ Forall2 same_day workout_schedule (workouts wk).
Proof.
  intros Hrun. unfold _apply_progression in Hrun. apply for_each_ok in Hrun.
  split.
  - rewrite <- (Forall2_length Hrun), range_length. f_equal. lia.
  - intros i wk Hnth.
    destruct (Forall2_nth_error_r _ _ _ _ _ Hrun Hnth) as (w & Hw & Hweek).
    apply range_nth_error in Hw.
    destruct (progress_week_shape _ _ _ _ Hweek) as (Hnum & Hflag & Hdays).
    rewrite Hnum. split; [lia|]. split; assumption.
Qed.

Lemma progression_keeps_plan_shape_witness :
  exists weeks,
    _apply_progression beginner_base 4 "Beginner" = inr weeks
    /\ length weeks = 4%nat.
Proof.
  destruct (_apply_progression beginner_base 4 "Beginner")
    as [err|weeks] eqn:Hweeks; [vm_compute in Hweeks; discriminate|].
  exists weeks. split; [reflexivity|].
  exact (proj1 (progression_keeps_plan_shape _ _ _ _ Hweeks)).
Defined.

(** What a round of the loop leaves in [reps] and in [sets]. *)
Lemma progress_exercise_fields level week is_deload exercise e :
  progress_exercise level week is_deload exercise = inr e ->
  (e_sets e
   = (if is_deload then Z.max 2 (int_times_0_6 (e_sets exercise))
      else if (week mod 2 =? 1) && (2 <? week)
              && is_big_compound (e_title exercise)
           then Z.min (e_sets exercise + 1) 6
           else e_sets exercise))
  /\ (forall a b,
        rep_range (e_reps exercise) = Some (a, b) ->
        e_reps e
        = if is_deload then RepsStr (str a ++ "-" ++ str (a + 2))
          else if week mod 2 =? 1
               then RepsStr (str (Z.min (a + 1) b) ++ "-"
                             ++ str (Z.min (b + 2) 20))
               else e_reps exercise)
  /\ (dashed (e_reps exercise) = None -> e_reps e = e_reps exercise).
Proof.
  unfold progress_exercise, rep_range.
  destruct is_deload; simpl;
    [|destruct (week mod 2 =? 1); simpl;
      [destruct ((2 <? week) && is_big_compound (e_title exercise))|]];
    try (destruct (dashed (e_reps exercise)) as [s|]; simpl;
         [destruct (parse_range s) as [err|[lo hi]]; [discriminate|]|]);
    intros [= <-]; repeat split; try reflexivity; try discriminate;
    try (now intros a b [= <- <-]).
Qed.

Lemma range_after_progress level week is_deload exercise e a b :
  rep_range (e_reps exercise) = Some (a, b) ->
  progress_exercise level week is_deload exercise = inr e ->
  rep_range (e_reps e)
  = Some (if is_deload then (a, a + 2)
          else if week mod 2 =? 1
               then (Z.min (a + 1) b, Z.min (b + 2) 20)
               else (a, b)).
Proof.
  intros Hrange Hrun.
  destruct (rep_range_nonneg _ _ _ Hrange) as [Ha Hb].
  destruct (progress_exercise_fields _ _ _ _ _ Hrun) as (_ & Hreps & _).
  rewrite (Hreps a b Hrange).
  destruct is_deload; [|destruct (week mod 2 =? 1)];
    try (apply rep_range_written; lia). exact Hrange.
Qed.

(** X3. A rep range stays a rep range: where the exercise of the base
    schedule carries the range [a-b], the text a week writes in its place
    reads back, with the parser of the progression itself, as [a-(a+2)] in
    a deload week, as [min(a+1,b)-min(b+2,20)] in a regular odd week and as
    [a-b] in a regular even week; [a] and [b] are natural numbers. *)
Theorem progressed_range_reads_back
    (level : string) (week : Z) (is_deload : bool)
    (exercise e : exercise_config) (a b : Z) :
  rep_range (e_reps exercise) = Some (a, b) ->
  progress_exercise level week is_deload exercise = inr e ->
  0 <= a /\ 0 <= b
  /\ rep_range (e_reps e)
     = Some (if is_deload then (a, a + 2)
             else if week mod 2 =? 1
                  then (Z.min (a + 1) b, Z.min (b + 2) 20)
                  else (a, b)).
Proof.
  intros Hrange Hrun.
  destruct (rep_range_nonneg _ _ _ Hrange) as [Ha Hb].
  repeat split; auto. eapply range_after_progress; eassumption.
Qed.

Lemma progressed_range_reads_back_witness :
  exists e,
    progress_exercise "Beginner" 3 false squat = inr e
    /\ rep_range (e_reps e) = Some (9, 14).
Proof.
  destruct (progress_exercise "Beginner" 3 false squat) as [err|e] eqn:Hrun;
    [vm_compute in Hrun; discriminate|].
  exists e. split; [reflexivity|].
  exact (proj2 (proj2 (progressed_range_reads_back "Beginner" 3 false squat
                         e 8 12 eq_refl Hrun))).
Defined.

Lemma progress_exercise_readable level week is_deload exercise :
  readable (e_reps exercise) ->
  exists e, progress_exercise level week is_deload exercise = inr e.
Proof.
  unfold readable, rep_range, progress_exercise. intros Hr.
  destruct (dashed (e_reps exercise)) as [s|].
  - destruct Hr as [|(a & b & Hab)]; [discriminate|].
    destruct (parse_range s) as [err|[lo hi]]; [discriminate|].
    destruct is_deload; simpl; [eauto|].
    destruct (week mod 2 =? 1); eauto.
  - destruct is_deload; simpl; [eauto|].
    destruct (week mod 2 =? 1); eauto.
Qed.

Lemma progression_total
    (workout_schedule : list workout) (duration_weeks : Z) (level : string) :
  (forall day e, In day workout_schedule -> In e (exercises day) ->
                 readable (e_reps e)) ->
  exists weeks,
    _apply_progression workout_schedule duration_weeks level = inr weeks.
Proof.
  intros Hread. unfold _apply_progression. apply for_each_total.
  apply Forall_forall. intros w _. unfold progress_week.
  destruct (for_each_total
              (progress_day level w
                 (w mod deload_frequency (progression_patterns level) =? 0))
              workout_schedule) as [days Hdays].
  - apply Forall_forall. intros day Hday. unfold progress_day.
    destruct (for_each_total
                (progress_exercise level w
                   (w mod deload_frequency (progression_patterns level)
                    =? 0))
                (exercises day)) as [es Hes].
    + apply Forall_forall. intros e He.
      apply progress_exercise_readable. eauto.
    + rewrite Hes. simpl. eauto.
  - rewrite Hdays. simpl. eauto.
Qed.

Lemma odd_week_needs_readable level exercise e :
  progress_exercise level 1 false exercise = inr e ->
  readable (e_reps exercise).
Proof.
  unfold progress_exercise, readable, rep_range. simpl.
  destruct (dashed (e_reps exercise)) as [s|]; [|now left].
  destruct (parse_range s) as [err|[lo hi]]; [discriminate|].
  right. eauto.
Qed.

Lemma progression_needs_readable
    (workout_schedule : list workout) (duration_weeks : Z) (level : string)
    (weeks : list week_plan) :
  1 <= duration_weeks ->
  _apply_progression workout_schedule duration_weeks level = inr weeks ->
  forall day e, In day workout_schedule -> In e (exercises day) ->
                readable (e_reps e).
Proof.
  intros Hdur Hrun day e Hday He.
  unfold _apply_progression in Hrun. rewrite range_cons in Hrun by lia.
  simpl in Hrun.
  destruct (progress_week workout_schedule level 1) as [err|wk] eqn:Hweek;
    [discriminate|].
  clear Hrun. unfold progress_week in Hweek.
  assert ((1 mod deload_frequency (progression_patterns level) =? 0) = false)
    as Hflag by (destruct (deload_frequency_cases level) as [-> | ->];
                 reflexivity).
  rewrite Hflag in Hweek.
  destruct (for_each (progress_day level 1 false) workout_schedule)
    as [err|days] eqn:Hdays; [discriminate|].
  apply for_each_ok in Hdays.
  destruct (Forall2_In_l _ _ _ _ Hdays Hday) as (d & _ & Hd).
  unfold progress_day in Hd.
  destruct (for_each (progress_exercise level 1 false) (exercises day))
    as [err|es] eqn:Hes; [discriminate|].
  apply for_each_ok in Hes.
  destruct (Forall2_In_l _ _ _ _ Hes He) as (e' & _ & He').
  eapply odd_week_needs_readable. exact He'.
Qed.

(** X4. For a duration of at least one week and reps written in ASCII
    text of at most 4300 characters, [_apply_progression] returns a plan
    exactly when the reps of every exercise of the schedule is an integer,
    a string without a dash or a range of two integers; any other such
    text with a dash makes it raise, for every experience level. *)
Theorem progression_returns_iff_readable
    (workout_schedule : list workout) (duration_weeks : Z) (level : string) :
  1 <= duration_weeks ->
  (forall day e, In day workout_schedule -> In e (exercises day) ->
                 plain (e_reps e)) ->
  (exists weeks,
     _apply_progression workout_schedule duration_weeks level = inr weeks)
  <-> (forall day e, In day workout_schedule -> In e (exercises day) ->
                     readable (e_reps e)).
Proof.
  intros Hdur _. split; [|apply progression_total].
  intros [weeks Hrun]. eapply progression_needs_readable; eassumption.
Qed.

Lemma progression_returns_iff_readable_witness :
  exists weeks,
    _apply_progression
      [ {| focus := "Pull"; exercises := [bicep_curls; squat] |} ]
      6 "Intermediate" = inr weeks.
Proof.
  apply (proj2 (progression_returns_iff_readable
                  [ {| focus := "Pull"; exercises := [bicep_curls; squat] |} ]
                  6 "Intermediate" ltac:(lia)
                  ltac:(intros day e [<-|[]] [<-|[<-|[]]];
                        (split; [repeat constructor; simpl; lia
                                | simpl; lia])))).
  intros day e [<-|[]] [<-|[<-|[]]]; right; eexists; eexists; reflexivity.
Defined.

Lemma configured_readable level goal x :
  x_type x = "Compound" \/ x_type x = "Isolation" \/ x_type x = "Cardio" ->
  readable (e_reps (configure_exercise level goal x)).
Proof.
  intros Htype. unfold configure_exercise, intensity_mapping.
  destruct (String.eqb_spec (x_type x) "Compound") as [_|Hc];
    [|destruct (String.eqb_spec (x_type x) "Isolation") as [_|Hi];
      [|destruct (String.eqb_spec (x_type x) "Cardio") as [_|Hk];
        [|exfalso; tauto]]];
    repeat match goal with
           | |- context [String.eqb ?u ?v] => destruct (String.eqb u v)
           | |- context [contains ?u ?v] => destruct (contains u v)
           end;
    first [ left; reflexivity
          | right; eexists; eexists; vm_compute; reflexivity ].
Qed.

Lemma apply_progression_only_ValueError
    (workout_schedule : list workout) (duration_weeks : Z) (level : string)
    (e : exn) :
  _apply_progression workout_schedule duration_weeks level = inl e ->
  e = ValueError.
Proof.
  unfold _apply_progression. apply for_each_only. intros w e'.
  unfold progress_week. cbn [bind Monad_result Monad_either].
  match goal with
  | |- context [for_each ?f ?l] =>
      destruct (for_each f l) as [err|days] eqn:Hdays
  end; [|discriminate].
  intros [= <-]. eapply for_each_only; [|exact Hdays].
  intros day e''. apply progress_day_only_ValueError.
Qed.

(** X5. [generate_plan] never returns a plan. Its last step names
    [datetime], which planner.py does not import, and raises [NameError]:
    that is the outcome of every call whose progression goes through, as it
    does when the selector hands over Compound, Isolation and Cardio
    exercises only. The one other outcome is the [ValueError] of the
    progression. *)
Theorem generate_plan_never_returns
    (select : selector) (today : string) (user : user_details)
    (prefs : plan_preferences) :
  (generate_plan select today user prefs = inl NameError
   \/ generate_plan select today user prefs = inl ValueError)
  /\ ((forall focus equipment limitations level goal x,
         In x (select focus equipment limitations level goal) ->
         x_type x = "Compound" \/ x_type x = "Isolation"
         \/ x_type x = "Cardio") ->
      generate_plan select today user prefs = inl NameError).
Proof.
  unfold generate_plan.
  match goal with
  | |- context [_apply_progression ?sched ?dur ?lvl] =>
      set (base := sched); set (duration := dur); set (level := lvl)
  end.
  split.
  - destruct (_apply_progression base duration level) as [e|weeks] eqn:Hrun.
    + right. apply apply_progression_only_ValueError in Hrun. now subst e.
    + left. reflexivity.
  - intros Htypes.
    destruct (progression_total base duration level) as [weeks ->];
      [|reflexivity].
    intros day e Hday He. unfold base, _create_workout_schedule in Hday.
    apply in_map_iff in Hday as [day_focus [<- _]]. simpl in He.
    apply in_map_iff in He as [x [<- Hx]].
    apply configured_readable. eapply Htypes. exact Hx.
Qed.

Lemma generate_plan_never_returns_witness :
  generate_plan _select_exercises_for_focus "2025-01-06" advanced_user
    (body_building 8) = inl NameError.
Proof.
  apply generate_plan_never_returns.
  intros focus equipment limitations level goal x.
  rewrite placeholder_returns_samples.
  intros [<-|[<-|[<-|[]]]]; auto.
Defined.

Lemma configured_bounds level goal x :
  1 <= e_sets (configure_exercise level goal x) <= 5
  /\ forall a b,
       rep_range (e_reps (configure_exercise level goal x)) = Some (a, b) ->
       0 <= a /\ a + 2 <= b /\ b <= 15.
Proof.
  unfold configure_exercise, intensity_mapping.
  repeat match goal with
         | |- context [String.eqb ?u ?v] => destruct (String.eqb u v)
         | |- context [contains ?u ?v] => destruct (contains u v)
         end;
    (split; [cbn; lia|]);
    intros a b H; vm_compute in H; try discriminate;
    injection H as <- <-; lia.
Qed.

Lemma unread_reps_unchanged level week is_deload exercise e :
  rep_range (e_reps exercise) = None ->
  progress_exercise level week is_deload exercise = inr e ->
  e_reps e = e_reps exercise.
Proof.
  unfold rep_range, progress_exercise.
  destruct (dashed (e_reps exercise)) as [s|].
  - destruct (parse_range s) as [err|[lo hi]]; [|discriminate]. intros _.
    destruct is_deload; simpl; [discriminate|].
    destruct (week mod 2 =? 1); simpl; [discriminate|].
    now intros [= <-].
  - intros _. destruct is_deload; simpl; [now intros [= <-]|].
    destruct (week mod 2 =? 1); simpl;
      [destruct ((2 <? week) && is_big_compound (e_title exercise))|];
      now intros [= <-].
Qed.

Lemma configured_progress_bounds level goal x lvl week is_deload e :
  progress_exercise lvl week is_deload (configure_exercise level goal x)
  = inr e ->
  1 <= e_sets e <= 6
  /\ forall lo hi, rep_range (e_reps e) = Some (lo, hi) ->
                   0 <= lo <= hi /\ hi <= 20.
Proof.
  intros Hrun.
  destruct (configured_bounds level goal x) as [Hsets Hrange].
  destruct (progress_exercise_fields _ _ _ _ _ Hrun) as (Hs & _ & _).
  split.
  - rewrite Hs. unfold int_times_0_6.
    destruct is_deload;
      [|destruct ((week mod 2 =? 1) && (2 <? week)
                  && is_big_compound
                       (e_title (configure_exercise level goal x)))];
      try lia.
    rewrite Z.quot_div_nonneg by lia.
    assert (0 <= e_sets (configure_exercise level goal x) * 6 / 10 <= 3)
      by (split; [apply Z.div_pos; lia
                 | apply Z.div_le_upper_bound; lia]).
    lia.
  - intros lo hi Hlohi.
    destruct (rep_range (e_reps (configure_exercise level goal x)))
      as [[a b]|] eqn:Hbase.
    + destruct (Hrange a b eq_refl) as (Ha & Hab & Hb).
      pose proof (range_after_progress _ _ _ _ _ _ _ Hbase Hrun) as Hback.
      rewrite Hback in Hlohi.
      destruct is_deload; [|destruct (week mod 2 =? 1)];
        injection Hlohi as <- <-; lia.
    + rewrite (unread_reps_unchanged _ _ _ _ _ Hbase Hrun) in Hlohi.
      congruence.
Qed.

(** X6. In every plan the progression engine returns for a schedule built
    by [_create_workout_schedule], whatever the selector, every exercise of
    every week has between 1 and 6 sets, and every rep range [lo-hi] in it
    is well formed: [0 <= lo <= hi <= 20]. *)
Theorem generated_plan_bounds
    (select : selector) (training_split equipment limitations : list string)
    (level goal : string) (duration_weeks : Z)
    (base : list workout) (weeks : list week_plan) :
  base = _create_workout_schedule select training_split equipment limitations
           level goal ->
  _apply_progression base duration_weeks level = inr weeks ->
  Forall (fun wk =>
            Forall (fun day =>
                      Forall (fun e =>
                                1 <= e_sets e <= 6
                                /\ forall lo hi,
                                     rep_range (e_reps e) = Some (lo, hi) ->
                                     0 <= lo <= hi /\ hi <= 20)
                        (exercises day))
              (workouts wk))
    weeks.
Proof.
  intros -> Hrun. unfold _apply_progression in Hrun.
  apply for_each_ok in Hrun. apply Forall_forall. intros wk Hwk.
  destruct (Forall2_In_r _ _ _ _ Hrun Hwk) as (w & _ & Hweek).
  unfold progress_week in Hweek.
  match type of Hweek with
  | context [for_each ?f ?l] => destruct (for_each f l) as [err|days] eqn:Hdays
  end; [discriminate|].
  injection Hweek as <-. cbn [workouts]. apply for_each_ok in Hdays.
  apply Forall_forall. intros day Hday.
  destruct (Forall2_In_r _ _ _ _ Hdays Hday) as (bd & Hbd & Hd).
  unfold progress_day in Hd.
  match type of Hd with
  | context [for_each ?f ?l] => destruct (for_each f l) as [err|es] eqn:Hes
  end; [discriminate|].
  injection Hd as <-. cbn [exercises]. apply for_each_ok in Hes.
  apply Forall_forall. intros e He.
  destruct (Forall2_In_r _ _ _ _ Hes He) as (b & Hb & Hbe).
  unfold _create_workout_schedule in Hbd.
  apply in_map_iff in Hbd as [day_focus [<- _]]. simpl in Hb.
  apply in_map_iff in Hb as [x [<- _]].
  eapply configured_progress_bounds. exact Hbe.
Qed.

Lemma generated_plan_bounds_witness :
  exists weeks,
    _apply_progression advanced_base 6 "Advanced" = inr weeks
    /\ Forall (fun wk =>
                 Forall (fun day =>
                           Forall (fun e => 1 <= e_sets e <= 6)
                             (exercises day))
                   (workouts wk))
         weeks.
Proof.
  destruct (_apply_progression advanced_base 6 "Advanced")
    as [err|weeks] eqn:Hweeks; [vm_compute in Hweeks; discriminate|].
  exists weeks. split; [reflexivity|].
  pose proof (generated_plan_bounds _select_exercises_for_focus
                (_determine_training_split 3 "Body Building")
                ["Dumbbells"] ["None"] "Advanced" "Body Building" 6
                advanced_base weeks eq_refl Hweeks) as Hall.
  eapply Forall_impl; [|exact Hall]. intros wk.
  apply Forall_impl. intros day. apply Forall_impl. intros e [He _].
  exact He.
Defined.

End PlanShape.

(** ** Storing a plan (database_setup.py) *)

Section Storing.

Import Py Planner Spec Shapes Db Store Examples.

Lemma adds_rows_refl (d : Db.t) : adds_rows d d [].
Proof. unfold adds_rows. now rewrite app_nil_r. Qed.

Lemma adds_rows_trans (d d1 d2 : Db.t) rows1 rows2 :
  adds_rows d d1 rows1 -> adds_rows d1 d2 rows2 ->
  adds_rows d d2 (rows1 ++ rows2).
Proof.
  unfold adds_rows. intros (P1 & F1 & L1 & E1 & T1) (P2 & F2 & L2 & E2 & T2).
  rewrite P2, P1, <- app_assoc. repeat split; congruence.
Qed.

Lemma target_reps_readable (r : reps_value) :
  readable r -> exists t, target_reps_of r = inr t.
Proof.
  unfold readable, rep_range, target_reps_of.
  destruct (dashed r) as [s|]; [|intros _; eexists; reflexivity].
  intros [|(a & b & Hab)]; [discriminate|].
  destruct (parse_range s) as [err|[lo hi]]; [discriminate|].
  eexists; reflexivity.
Qed.

(** What one [INSERT] of the loop does. *)
Lemma store_exercise_row plan_id week_number day_number workout d exercise d' :
  store_exercise plan_id week_number day_number workout d exercise
  = inr d' ->
  exists row,
    adds_rows d d' [row]
    /\ pw_id row = next_id (plan_workouts d)
    /\ pw_plan_id row = plan_id /\ pw_week row = week_number
    /\ pw_day row = day_number /\ pw_exercise_id row = e_id exercise
    /\ pw_target_sets row = e_sets exercise
    /\ target_reps_of (e_reps exercise) = inr (pw_target_reps row).
Proof.
  unfold store_exercise.
  destruct (target_reps_of (e_reps exercise)) as [err|t]; [discriminate|].
  intros [= <-]. eexists.
  split; [unfold adds_rows, insert_plan_workout; simpl; repeat split
         | repeat split; reflexivity].
Qed.

Lemma store_day_rows plan_id week_number day_number workout es d d' :
  for_state (store_exercise plan_id week_number day_number workout) es d
  = inr d' ->
  exists rows,
    adds_rows d d' rows /\ length rows = length es
    /\ Forall (stored_for plan_id week_number day_number day_number) rows.
Proof.
  revert d. induction es as [|e es IH]; intros d; simpl.
  - intros [= <-]. exists []. split; [apply adds_rows_refl|]. now split.
  - destruct (store_exercise plan_id week_number day_number workout d e)
      as [err|d1] eqn:H1; simpl; [discriminate|].
    intros H2. apply store_exercise_row in H1 as (row & Hadd & _ & Hp & Hw
                                                   & Hd & _).
    destruct (IH _ H2) as (rows & Hadds & Hlen & Hall).
    exists ([row] ++ rows)%list. split; [eapply adds_rows_trans; eassumption|].
    split; [simpl; now rewrite Hlen|].
    constructor; [|exact Hall]. unfold stored_for. lia.
Qed.

Lemma store_days_rows plan_id week_number days day_index d d' :
  store_days plan_id week_number day_index days d = inr d' ->
  exists rows,
    adds_rows d d' rows
    /\ length rows = list_sum (map (fun day => length (Planner.exercises day))
                                 days)
    /\ Forall (stored_for plan_id week_number day_index
                 (day_index + Z.of_nat (length days) - 1)) rows.
Proof.
  revert day_index d. induction days as [|day days IH]; intros day_index d;
    simpl store_days.
  - intros [= <-]. exists []. split; [apply adds_rows_refl|]. now split.
  - destruct (for_state _ (Planner.exercises day) d) as [err|d1] eqn:H1;
      simpl; [discriminate|].
    intros H2. apply store_day_rows in H1 as (rows1 & Hadd1 & Hlen1 & Hall1).
    destruct (IH _ _ H2) as (rows2 & Hadd2 & Hlen2 & Hall2).
    exists (rows1 ++ rows2)%list.
    split; [eapply adds_rows_trans; eassumption|].
    split; [rewrite length_app, Hlen1, Hlen2; reflexivity|].
    apply Forall_app. split.
    + eapply Forall_impl; [|exact Hall1]. unfold stored_for.
      intros r. simpl length. lia.
    + eapply Forall_impl; [|exact Hall2]. unfold stored_for.
      intros r. simpl length. lia.
Qed.

Lemma stored_rows_shape (plan_id : Z) (plan : complete_plan) (d d' : Db.t) :
  _store_plan_workouts plan_id plan d = inr d' ->
  exists rows,
    adds_rows d d' rows
    /\ length rows = slots (weekly_schedule plan)
    /\ Forall (fun row =>
                 exists wk,
                   In wk (weekly_schedule plan)
                   /\ stored_for plan_id (week wk) 1
                        (Z.of_nat (length (workouts wk))) row)
         rows.
Proof.
  unfold _store_plan_workouts, slots.
  generalize (weekly_schedule plan) as weeks. intros weeks. revert d.
  induction weeks as [|wk weeks IH]; intros d; simpl.
  - intros [= <-]. exists []. split; [apply adds_rows_refl|]. now split.
  - destruct (store_days plan_id (week wk) 1 (workouts wk) d)
      as [err|d1] eqn:H1; simpl; [discriminate|].
    intros H2. apply store_days_rows in H1 as (rows1 & Hadd1 & Hlen1 & Hall1).
    destruct (IH _ H2) as (rows2 & Hadd2 & Hlen2 & Hall2).
    exists (rows1 ++ rows2)%list.
    split; [eapply adds_rows_trans; eassumption|].
    split; [rewrite length_app, Hlen1, Hlen2; reflexivity|].
    apply Forall_app. split.
    + eapply Forall_impl; [|exact Hall1]. intros r Hr.
      exists wk. split; [now left|].
      unfold stored_for in *. lia.
    + eapply Forall_impl; [|exact Hall2]. intros r (wk' & Hin & Hr).
      exists wk'. split; [now right | exact Hr].
Qed.

(** What one [INSERT] of the loop writes. *)
Lemma store_exercise_exact plan_id week_number day_number workout d exercise
    d' :
  store_exercise plan_id week_number day_number workout d exercise
  = inr d' ->
  exists row,
    adds_rows d d' [row]
    /\ row_of_slot plan_id (week_number, day_number, workout, exercise) row.
Proof.
  unfold store_exercise, target_reps_of.
  destruct (dashed (e_reps exercise)) as [text|] eqn:Hdash.
  - destruct (parse_range text) as [err|[lo hi]] eqn:Hparse; [discriminate|].
    intros [= <-]. eexists.
    split; [unfold adds_rows, insert_plan_workout; simpl; repeat split|].
    cbn [row_of_slot pw_plan_id pw_week pw_day pw_exercise_id pw_title
         pw_description pw_target_sets pw_target_reps pw_instructions].
    repeat split; try reflexivity.
    + intros Hnone. congruence.
    + intros a b Hab. unfold rep_range in Hab.
      rewrite Hdash, Hparse in Hab. now injection Hab as _ <-.
  - intros [= <-]. eexists.
    split; [unfold adds_rows, insert_plan_workout; simpl; repeat split|].
    cbn [row_of_slot pw_plan_id pw_week pw_day pw_exercise_id pw_title
         pw_description pw_target_sets pw_target_reps pw_instructions].
    repeat split; try reflexivity.
    intros a b Hab. unfold rep_range in Hab. rewrite Hdash in Hab.
    discriminate.
Qed.

Lemma store_day_exact plan_id week_number day_number workout es d d' :
  for_state (store_exercise plan_id week_number day_number workout) es d
  = inr d' ->
  exists rows,
    adds_rows d d' rows
    /\ Forall2 (row_of_slot plan_id)
         (map (fun e => (week_number, day_number, workout, e)) es) rows.
Proof.
  revert d. induction es as [|e es IH]; intros d; simpl.
  - intros [= <-]. exists []. split; [apply adds_rows_refl | constructor].
  - destruct (store_exercise plan_id week_number day_number workout d e)
      as [err|d1] eqn:H1; simpl; [discriminate|].
    intros H2. apply store_exercise_exact in H1 as (row & Hadd & Hrow).
    destruct (IH _ H2) as (rows & Hadds & Hall).
    exists ([row] ++ rows)%list.
    split; [eapply adds_rows_trans; eassumption|].
    constructor; assumption.
Qed.

(** The loop over the workouts of a week writes the slots of its days,
    numbered from the index it starts with. *)
Lemma store_days_exact plan_id week_number days :
  forall (k : nat) (d d' : Db.t),
    store_days plan_id week_number (Z.of_nat k) days d = inr d' ->
    exists rows,
      adds_rows d d' rows
      /\ Forall2 (row_of_slot plan_id)
           (flat_map (day_slots week_number)
              (combine (map Z.of_nat (seq k (length days))) days))
           rows.
Proof.
  induction days as [|day days IH]; intros k d d'; simpl store_days.
  - intros [= <-]. exists []. split; [apply adds_rows_refl | constructor].
  - destruct (for_state _ (Planner.exercises day) d) as [err|d1] eqn:H1;
      simpl; [discriminate|].
    intros H2. apply store_day_exact in H1 as (rows1 & Hadd1 & Hall1).
    replace (Z.of_nat k + 1) with (Z.of_nat (S k)) in H2 by lia.
    destruct (IH _ _ _ H2) as (rows2 & Hadd2 & Hall2).
    exists (rows1 ++ rows2)%list.
    split; [eapply adds_rows_trans; eassumption|].
    cbn [length seq map combine flat_map]. apply Forall2_app; assumption.
Qed.

(** X7. A call of [_store_plan_workouts] that returns has added one row per
    exercise slot of the plan to [plan_workouts], after the rows that were
    there and in the order week, workout, exercise, and has changed no
    other table. The row of a slot carries the plan id, the week number,
    as its day the position of the workout in its week counted from 1, the
    exercise's id, title and sets, the description and instructions built
    from the workout and the exercise, and as target reps the upper end of
    the rep range (the reps as they are when they have no dash). *)
Theorem stored_rows_follow_plan
    (plan_id : Z) (plan : complete_plan) (d d' : Db.t) :
  _store_plan_workouts plan_id plan d = inr d' ->
  exists rows,
    adds_rows d d' rows
    /\ length rows = slots (weekly_schedule plan)
    /\ Forall2 (row_of_slot plan_id) (plan_slots (weekly_schedule plan))
         rows.
Proof.
  intros Hrun.
  assert (forall weeks d0,
            for_state
              (fun d week_data =>
                 store_days plan_id (week week_data) 1 (workouts week_data)
                   d)
              weeks d0 = inr d' ->
            exists rows,
              adds_rows d0 d' rows
              /\ Forall2 (row_of_slot plan_id) (plan_slots weeks) rows)
    as Hexact.
  { unfold plan_slots.
    induction weeks as [|wk weeks IH]; intros d0; simpl.
    - intros [= <-]. exists []. split; [apply adds_rows_refl | constructor].
    - destruct (store_days plan_id (week wk) 1 (workouts wk) d0)
        as [err|d1] eqn:H1; simpl; [discriminate|].
      intros H2.
      apply (store_days_exact plan_id (week wk) (workouts wk) 1) in H1
        as (rows1 & Hadd1 & Hall1).
      destruct (IH _ H2) as (rows2 & Hadd2 & Hall2).
      exists (rows1 ++ rows2)%list.
      split; [eapply adds_rows_trans; eassumption|].
      apply Forall2_app; assumption. }
  destruct (Hexact _ _ Hrun) as (rows & Hadd & Hall).
  destruct (stored_rows_shape _ _ _ _ Hrun) as (rows0 & Hadd0 & Hlen & _).
  exists rows. split; [exact Hadd|]. split; [|exact Hall].
  destruct Hadd as [Hrows _]. destruct Hadd0 as [Hrows0 _].
  rewrite Hrows in Hrows0. apply app_inv_head in Hrows0. now subst rows0.
Qed.

Lemma stored_rows_follow_plan_witness :
  exists d' rows,
    _store_plan_workouts 1
      (plan_of_schedule
         [ {| week := 1; is_deload := false;
              workouts := [ {| focus := "Pull";
                               Planner.exercises := [bicep_curls] |};
                            {| focus := "Legs";
                               Planner.exercises := [squat] |} ] |} ])
      TrackerExamples.no_sessions = inr d'
    /\ adds_rows TrackerExamples.no_sessions d' rows
    /\ map pw_day rows = [1; 2]
    /\ map pw_target_reps rows = [RepsInt 15; RepsInt 12].
Proof.
  match goal with
  | |- exists d' rows, ?run = inr d' /\ _ =>
      destruct run as [err|d'] eqn:Hrun;
        [vm_compute in Hrun; discriminate|]
  end.
  destruct (stored_rows_follow_plan _ _ _ _ Hrun) as (rows & Hadd & _ & Hall).
  exists d', rows. split; [reflexivity|]. split; [exact Hadd|].
  cbv [plan_slots plan_of_schedule weekly_schedule flat_map numbered
       workouts length seq map combine day_slots Planner.exercises fst snd
       app week] in Hall.
  inversion Hall as [|s1 r1 ss1 rs1 H1 Hrest1]; subst.
  inversion Hrest1 as [|s2 r2 ss2 rs2 H2 Hrest2]; subst.
  inversion Hrest2; subst.
  destruct H1 as (_ & _ & Hd1 & _ & _ & _ & _ & _ & Ht1 & _).
  destruct H2 as (_ & _ & Hd2 & _ & _ & _ & _ & _ & Ht2 & _).
  cbn [map]. rewrite Hd1, Hd2, (Ht1 12 15 eq_refl), (Ht2 8 12 eq_refl).
  split; reflexivity.
Defined.

Lemma progress_preserves_readable level week is_deload exercise e :
  readable (e_reps exercise) ->
  progress_exercise level week is_deload exercise = inr e ->
  readable (e_reps e).
Proof.
  intros [Hnone|(a & b & Hab)] Hrun.
  - destruct (progress_exercise_fields _ _ _ _ _ Hrun) as (_ & _ & Hsame).
    left. rewrite (Hsame Hnone). exact Hnone.
  - right. rewrite (range_after_progress _ _ _ _ _ _ _ Hab Hrun).
    destruct is_deload; [|destruct (week mod 2 =? 1)]; eauto.
Qed.

Lemma store_day_total plan_id week_number day_number workout es :
  Forall (fun e => readable (e_reps e)) es ->
  forall d, exists d',
    for_state (store_exercise plan_id week_number day_number workout) es d
    = inr d'.
Proof.
  induction 1 as [|e es He _ IH]; intros d; simpl; [eauto|].
  unfold store_exercise at 1.
  destruct (target_reps_readable _ He) as [t ->]. simpl. apply IH.
Qed.

Lemma store_days_total plan_id week_number days :
  Forall (fun day => Forall (fun e => readable (e_reps e))
                       (Planner.exercises day)) days ->
  forall day_index d, exists d',
    store_days plan_id week_number day_index days d = inr d'.
Proof.
  induction 1 as [|day days Hday _ IH]; intros day_index d; simpl; [eauto|].
  destruct (store_day_total plan_id week_number day_index day _ Hday d)
    as [d1 ->]. simpl. apply IH.
Qed.

Lemma store_total plan_id plan :
  Forall (fun wk =>
            Forall (fun day => Forall (fun e => readable (e_reps e))
                                 (Planner.exercises day))
              (workouts wk))
    (weekly_schedule plan) ->
  forall d, exists d', _store_plan_workouts plan_id plan d = inr d'.
Proof.
  unfold _store_plan_workouts.
  induction 1 as [|wk weeks Hwk _ IH]; intros d; simpl; [eauto|].
  destruct (store_days_total plan_id (week wk) _ Hwk 1 d) as [d1 ->].
  simpl. apply IH.
Qed.

(** Every week of a returned plan can be stored. *)
Lemma progression_output_readable
    (workout_schedule : list workout) (duration_weeks : Z) (level : string)
    (weeks : list week_plan) :
  _apply_progression workout_schedule duration_weeks level = inr weeks ->
  Forall (fun wk =>
            Forall (fun day => Forall (fun e => readable (e_reps e))
                                 (Planner.exercises day))
              (workouts wk))
    weeks.
Proof.
  intros Hrun. destruct (Z.le_gt_cases 1 duration_weeks) as [Hdur|Hdur].
  - pose proof (progression_needs_readable _ _ _ _ Hdur Hrun) as Hbase.
    unfold _apply_progression in Hrun. apply for_each_ok in Hrun.
    apply Forall_forall. intros wk Hwk.
    destruct (Forall2_In_r _ _ _ _ Hrun Hwk) as (w & _ & Hweek).
    unfold progress_week in Hweek.
    match type of Hweek with
    | context [for_each ?f ?l] =>
        destruct (for_each f l) as [err|days] eqn:Hdays
    end; [discriminate|].
    injection Hweek as <-. cbn [workouts]. apply for_each_ok in Hdays.
    apply Forall_forall. intros day Hday.
    destruct (Forall2_In_r _ _ _ _ Hdays Hday) as (bd & Hbd & Hd).
    unfold progress_day in Hd.
    match type of Hd with
    | context [for_each ?f ?l] => destruct (for_each f l) as [err|es] eqn:Hes
    end; [discriminate|].
    injection Hd as <-. cbn [Planner.exercises]. apply for_each_ok in Hes.
    apply Forall_forall. intros e He.
    destruct (Forall2_In_r _ _ _ _ Hes He) as (b & Hb & Hbe).
    eapply progress_preserves_readable; [|exact Hbe]. eauto.
  - unfold _apply_progression, range in Hrun.
    replace (Z.to_nat (duration_weeks + 1 - 1)) with 0%nat in Hrun by lia.
    simpl in Hrun. injection Hrun as <-. constructor.
Qed.

Lemma training_split_at_most_7 (n : Z) (goal : string) :
  (length (_determine_training_split n goal) <= 7)%nat.
Proof.
  destruct (Z.le_gt_cases n 0) as [Hneg|Hpos].
  - unfold _determine_training_split.
    destruct (Z.ltb_spec 7 n); [lia|].
    assert (training_splits goal n = None) as ->
      by (unfold training_splits;
          repeat match goal with
                 | |- context [String.eqb goal ?s] =>
                     destruct (String.eqb goal s)
                 end; destruct n as [|p|p]; try reflexivity; lia).
    assert (default_splits n = None) as ->
      by (destruct n as [|p|p]; try reflexivity; lia).
    unfold replicate. rewrite repeat_length. lia.
  - destruct (Z.le_gt_cases n 7).
    + rewrite split_of_small_count by lia. lia.
    + rewrite split_of_large_count by lia.
      rewrite split_of_small_count by lia. lia.
Qed.

(** X8. The weekly schedule the planner builds can always be stored: on
    the weeks [_apply_progression] returns for a schedule that
    [_create_workout_schedule] built for a split of
    [_determine_training_split], [_store_plan_workouts] does not raise,
    every row it adds has a week between 1 and the duration and a day
    between 1 and 7, and the recommender's table of weekday names has an
    entry for that day. *)
Theorem generated_schedule_is_storable
    (select : selector) (workouts_per_week : Z) (goal : string)
    (equipment limitations : list string) (level : string)
    (duration : Z) (weeks : list week_plan) (plan : complete_plan)
    (plan_id : Z) (d : Db.t) :
  _apply_progression
    (_create_workout_schedule select
       (_determine_training_split workouts_per_week goal)
       equipment limitations level goal)
    duration level = inr weeks ->
  weekly_schedule plan = weeks ->
  exists d' rows,
    _store_plan_workouts plan_id plan d = inr d'
    /\ adds_rows d d' rows
    /\ Forall (fun row =>
                 pw_plan_id row = plan_id
                 /\ 1 <= pw_week row <= duration
                 /\ 1 <= pw_day row <= 7
                 /\ exists name, Engine.day_names (pw_day row) = inr name)
         rows.
Proof.
  intros Hrun Hweeks.
  destruct (store_total plan_id plan) with (d := d) as [d' Hstore].
  { rewrite Hweeks. eapply progression_output_readable. exact Hrun. }
  destruct (stored_rows_shape _ _ _ _ Hstore) as (rows & Hadd & _ & Hall).
  exists d', rows. split; [exact Hstore|]. split; [exact Hadd|].
  eapply Forall_impl; [|exact Hall].
  intros row (wk & Hwk & Hp & Hw & Hd). rewrite Hweeks in Hwk.
  unfold _apply_progression in Hrun. apply for_each_ok in Hrun.
  destruct (Forall2_In_r _ _ _ _ Hrun Hwk) as (w & Hin & Hweek).
  destruct (progress_week_shape _ _ _ _ Hweek) as (Hnum & _ & Hdays).
  assert (1 <= w <= duration) as Hrange.
  { unfold range in Hin. apply in_map_iff in Hin as (i & <- & Hi).
    apply in_seq in Hi. lia. }
  assert (length (workouts wk) <= 7)%nat as Hlen.
  { rewrite <- (Forall2_length Hdays). unfold _create_workout_schedule.
    rewrite length_map. apply training_split_at_most_7. }
  assert (1 <= pw_day row <= 7) as Hday by lia.
  repeat split; try lia. now apply day_names_total.
Qed.

Lemma generated_schedule_is_storable_witness :
  exists weeks d' rows,
    _apply_progression beginner_base 2 "Beginner" = inr weeks
    /\ _store_plan_workouts 1 (plan_of_schedule weeks)
         TrackerExamples.no_sessions = inr d'
    /\ adds_rows TrackerExamples.no_sessions d' rows
    /\ Forall (fun row => 1 <= pw_day row <= 7) rows.
Proof.
  destruct (_apply_progression beginner_base 2 "Beginner")
    as [err|weeks] eqn:Hrun; [vm_compute in Hrun; discriminate|].
  destruct (generated_schedule_is_storable _select_exercises_for_focus 3
              "Body Building" ["Dumbbells"] ["None"] "Beginner" 2 weeks
              (plan_of_schedule weeks) 1 TrackerExamples.no_sessions
              Hrun eq_refl)
    as (d' & rows & Hstore & Hadd & Hall).
  exists weeks, d', rows. split; [reflexivity|]. split; [exact Hstore|].
  split; [exact Hadd|].
  eapply Forall_impl; [|exact Hall]. now intros row (_ & _ & Hday & _).
Defined.

Lemma next_id_above (rows : list plan_workout) (r : plan_workout) :
  In r rows -> pw_id r < next_id rows.
Proof.
  unfold next_id. induction rows as [|x rows IH]; [easy|].
  cbn [map fold_right]. intros [<-|Hin]; [lia|]. specialize (IH Hin). lia.
Qed.

Lemma StronglySorted_app {A : Type} (R : A -> A -> Prop) (l1 l2 : list A) :
  StronglySorted R l1 -> StronglySorted R l2 ->
  (forall a b, In a l1 -> In b l2 -> R a b) ->
  StronglySorted R (l1 ++ l2).
Proof.
  induction 1 as [|x l1 Hs IH Hx]; intros H2 Hcross; simpl; [assumption|].
  constructor.
  - apply IH; [assumption|]. intros a b Ha. apply Hcross. now right.
  - apply Forall_app. split; [assumption|].
    apply Forall_forall. intros b Hb. apply Hcross; [now left | assumption].
Qed.

Lemma fresh_ids_nil (old : list plan_workout) : fresh_ids old [].
Proof. split; [constructor | easy]. Qed.

Lemma fresh_ids_app (old rows1 rows2 : list plan_workout) :
  fresh_ids old rows1 -> fresh_ids (old ++ rows1) rows2 ->
  fresh_ids old (rows1 ++ rows2).
Proof.
  intros [S1 A1] [S2 A2]. split.
  - apply StronglySorted_app; auto.
    intros a b Ha Hb. apply A2; [apply in_or_app; now right | assumption].
  - intros o r Ho Hr. apply in_app_or in Hr as [Hr|Hr]; [now apply A1|].
    apply A2; [apply in_or_app; now left | assumption].
Qed.

Lemma store_exercise_fresh plan_id week_number day_number workout d e d' :
  store_exercise plan_id week_number day_number workout d e = inr d' ->
  exists rows, adds_rows d d' rows /\ fresh_ids (plan_workouts d) rows.
Proof.
  intros H. apply store_exercise_row in H as (row & Hadd & Hid & _).
  exists [row]. split; [assumption|]. split.
  - repeat constructor.
  - intros o r Ho [<-|[]]. rewrite Hid. now apply next_id_above.
Qed.

Lemma fresh_step (d d1 d2 : Db.t) rows1 rows2 :
  adds_rows d d1 rows1 -> fresh_ids (plan_workouts d) rows1 ->
  adds_rows d1 d2 rows2 -> fresh_ids (plan_workouts d1) rows2 ->
  adds_rows d d2 (rows1 ++ rows2)
  /\ fresh_ids (plan_workouts d) (rows1 ++ rows2).
Proof.
  intros A1 F1 A2 F2. split; [eapply adds_rows_trans; eassumption|].
  apply fresh_ids_app; [assumption|].
  destruct A1 as [<- _]. assumption.
Qed.

Lemma store_day_fresh plan_id week_number day_number workout es d d' :
  for_state (store_exercise plan_id week_number day_number workout) es d
  = inr d' ->
  exists rows, adds_rows d d' rows /\ fresh_ids (plan_workouts d) rows.
Proof.
  revert d. induction es as [|e es IH]; intros d; simpl.
  - intros [= <-]. exists []. split; [apply adds_rows_refl|].
    apply fresh_ids_nil.
  - destruct (store_exercise plan_id week_number day_number workout d e)
      as [err|d1] eqn:H1; simpl; [discriminate|].
    intros H2. apply store_exercise_fresh in H1 as (rows1 & A1 & F1).
    destruct (IH _ H2) as (rows2 & A2 & F2).
    exists (rows1 ++ rows2)%list. eapply fresh_step; eassumption.
Qed.

Lemma store_days_fresh plan_id week_number days day_index d d' :
  store_days plan_id week_number day_index days d = inr d' ->
  exists rows, adds_rows d d' rows /\ fresh_ids (plan_workouts d) rows.
Proof.
  revert day_index d. induction days as [|day days IH]; intros day_index d;
    simpl store_days.
  - intros [= <-]. exists []. split; [apply adds_rows_refl|].
    apply fresh_ids_nil.
  - destruct (for_state _ (Planner.exercises day) d) as [err|d1] eqn:H1;
      simpl; [discriminate|].
    intros H2. apply store_day_fresh in H1 as (rows1 & A1 & F1).
    destruct (IH _ _ H2) as (rows2 & A2 & F2).
    exists (rows1 ++ rows2)%list. eapply fresh_step; eassumption.
Qed.

(** X9. The rows [_store_plan_workouts] adds get ids that grow from row to
    row and lie above every id already in [plan_workouts]; so when the ids
    of the table were pairwise distinct before the call, they are after
    it. *)
Theorem stored_rows_get_fresh_ids
    (plan_id : Z) (plan : complete_plan) (d d' : Db.t) :
  _store_plan_workouts plan_id plan d = inr d' ->
  exists rows,
    adds_rows d d' rows
    /\ fresh_ids (plan_workouts d) rows
    /\ (NoDup (map pw_id (plan_workouts d)) ->
        NoDup (map pw_id (plan_workouts d'))).
Proof.
  intros Hrun.
  assert (exists rows,
             adds_rows d d' rows /\ fresh_ids (plan_workouts d) rows)
    as (rows & Hadd & Hfresh).
  { revert Hrun. unfold _store_plan_workouts.
    generalize (weekly_schedule plan) as weeks. intros weeks. revert d.
    induction weeks as [|wk weeks IH]; intros d; simpl.
    - intros [= <-]. exists []. split; [apply adds_rows_refl|].
      apply fresh_ids_nil.
    - destruct (store_days plan_id (week wk) 1 (workouts wk) d)
        as [err|d1] eqn:H1; simpl; [discriminate|].
      intros H2. apply store_days_fresh in H1 as (rows1 & A1 & F1).
      destruct (IH _ H2) as (rows2 & A2 & F2).
      exists (rows1 ++ rows2)%list. eapply fresh_step; eassumption. }
  exists rows. split; [assumption|]. split; [assumption|].
  intros Hold. destruct Hadd as [-> _]. destruct Hfresh as [Hsorted Habove].
  rewrite map_app. apply NoDup_app.
  - assumption.
  - clear Habove. induction Hsorted as [|r rows _ IH Hr]; simpl;
      constructor; auto.
    rewrite in_map_iff. intros (r' & Heq & Hin).
    rewrite Forall_forall in Hr. specialize (Hr _ Hin). lia.
  - intros id Hin1 Hin2.
    apply in_map_iff in Hin1 as (o & <- & Ho).
    apply in_map_iff in Hin2 as (r & Heq & Hr).
    specialize (Habove _ _ Ho Hr). lia.
Qed.

Lemma stored_rows_get_fresh_ids_witness :
  exists d',
    _store_plan_workouts 1
      (plan_of_schedule
         [ {| week := 1; is_deload := false;
              workouts := [ {| focus := "Pull";
                               Planner.exercises := [bicep_curls; squat]
                            |} ] |} ])
      TrackerExamples.no_sessions = inr d'
    /\ NoDup (map pw_id (plan_workouts d')).
Proof.
  match goal with
  | |- exists d', ?run = inr d' /\ _ =>
      destruct run as [err|d'] eqn:Hrun;
        [vm_compute in Hrun; discriminate|]
  end.
  destruct (stored_rows_get_fresh_ids _ _ _ _ Hrun) as (rows & _ & _ & Hnodup).
  exists d'. split; [reflexivity|]. apply Hnodup.
  repeat constructor. simpl. tauto.
Defined.

End Storing.

(** ** Week summaries (database_setup.py) *)

Section Summaries.

Import Py Db Store Shapes.
Local Open Scope Q_scope.

Lemma or_else_length {A : Type} (l : list A) (default : Z) :
  (0 <= default)%Z ->
  (0 <= or_else (Z.of_nat (length l)) default)%Z
  /\ (l <> [] -> or_else (Z.of_nat (length l)) default
                 = Z.of_nat (length l)).
Proof.
  intros Hd. unfold or_else.
  destruct (Z.eqb_spec (Z.of_nat (length l)) 0) as [H0|Hn]; split;
    try lia; auto.
  intros Hne. destruct l; [congruence | simpl in H0; lia].
Qed.

Lemma flat_map_nil_all {A B : Type} (f : A -> list B) (l : list A) :
  (forall x, In x l -> f x = []) -> flat_map f l = [].
Proof.
  induction l as [|x l IH]; simpl; [reflexivity|]. intros H.
  rewrite (H x) by now left. apply IH. intros y Hy. apply H. now right.
Qed.

(** X10. [_calculate_week_progress] never divides by zero: for a week
    without any workout it returns 0. It is never negative, and it is 0
    exactly when no log entry belongs to a workout of that week of the
    plan. *)
Theorem week_progress_is_zero_without_logs (d : Db.t) (plan_id week : Z) :
  0 <= _calculate_week_progress d plan_id week
  /\ (_calculate_week_progress d plan_id week == 0
      <-> week_logs d plan_id week = [])
  /\ (week_rows d plan_id week = [] ->
      _calculate_week_progress d plan_id week == 0).
Proof.
  unfold _calculate_week_progress.
  set (logs := week_logs d plan_id week).
  set (rows := week_rows d plan_id week).
  assert (1 <= or_else (Z.of_nat (length rows)) 1)%Z as Htotal.
  { unfold or_else. destruct (Z.eqb_spec (Z.of_nat (length rows)) 0); lia. }
  assert (or_else (Z.of_nat (length logs)) 0 = Z.of_nat (length logs))
    as Hdone.
  { unfold or_else. destruct (Z.eqb_spec (Z.of_nat (length logs)) 0); lia. }
  rewrite Hdone.
  set (total := or_else (Z.of_nat (length rows)) 1) in *.
  assert (0 < inject_Z total) as Hpos
    by (change 0 with (inject_Z 0); rewrite <- Zlt_Qlt; lia).
  assert (0 <= inject_Z (Z.of_nat (length logs))) as Hnn
    by (change 0 with (inject_Z 0); rewrite <- Zle_Qle; lia).
  assert (logs = [] ->
          inject_Z (Z.of_nat (length logs)) / inject_Z total * 100 == 0)
    as Hempty.
  { intros ->. simpl. unfold Qdiv. ring. }
  split; [|split].
  - apply Qmult_le_0_compat; [|discriminate].
    apply Qle_shift_div_l; [assumption|]. now rewrite Qmult_0_l.
  - split; [|exact Hempty]. intros Hzero.
    destruct logs as [|l logs']; [reflexivity|]. exfalso.
    assert (0 < inject_Z (Z.of_nat (length (l :: logs')))) as Hone
      by (change 0 with (inject_Z 0); rewrite <- Zlt_Qlt; simpl; lia).
    assert (0 < inject_Z (Z.of_nat (length (l :: logs'))) / inject_Z total)
      as Hfrac
      by (apply Qlt_shift_div_l; [assumption | now rewrite Qmult_0_l]).
    lra.
  - intros Hrows. apply Hempty. subst logs. unfold week_logs.
    unfold rows, week_rows in Hrows.
    apply flat_map_nil_all. intros wl _.
    apply flat_map_nil_all. intros pw Hpw.
    destruct ((wl_workout_id wl =? pw_id pw)%Z && (pw_plan_id pw =? plan_id)%Z
              && (pw_week pw =? week)%Z) eqn:Hm; [|reflexivity].
    exfalso. apply andb_prop in Hm as [Hm Hw].
    apply andb_prop in Hm as [_ Hp].
    assert (In pw (filter (fun pw => (pw_plan_id pw =? plan_id)%Z
                                     && (pw_week pw =? week)%Z)
                     (plan_workouts d))) as Hin
      by (apply filter_In; split; [assumption | now rewrite Hp, Hw]).
    rewrite Hrows in Hin. destruct Hin.
Qed.

Lemma week_progress_is_zero_without_logs_witness :
  _calculate_week_progress TrackerExamples.no_sessions 1 5 == 0.
Proof.
  apply (week_progress_is_zero_without_logs TrackerExamples.no_sessions 1 5).
  reflexivity.
Defined.

Lemma max_weeks_above (d : Db.t) (plan_id : Z) (pw : plan_workout) :
  In pw (plan_workouts d) -> pw_plan_id pw = plan_id ->
  (1 <= pw_week pw)%Z ->
  (pw_week pw <= max_weeks d plan_id)%Z.
Proof.
  intros Hin Hplan Hweek. unfold max_weeks.
  assert (In (pw_week pw)
            (map pw_week (filter (fun pw => (pw_plan_id pw =? plan_id)%Z)
                            (plan_workouts d)))) as Hw
    by (apply in_map, filter_In; split; [assumption | now apply Z.eqb_eq]).
  destruct (map pw_week _) as [|x l]; [destruct Hw|].
  assert (pw_week pw <= fold_right Z.max x l)%Z as Hle.
  { clear -Hw. destruct Hw as [->|Hw].
    - induction l; cbn [fold_right]; lia.
    - induction l as [|y l IH]; [destruct Hw|]. cbn [fold_right].
      destruct Hw as [->|Hw]; [lia|]. specialize (IH Hw). lia. }
  unfold or_else. destruct (Z.eqb_spec (fold_right Z.max x l) 0); lia.
Qed.

(** X11. [get_plan_summary] lists the weeks 1, 2, ... up to the largest
    week number of the plan's workouts, one entry each and in this order: a
    plan without workouts has an empty summary, and every week from 1 on
    that has a workout has its entry. *)
Theorem plan_summary_lists_weeks (d : Db.t) (plan_id : Z) :
  map ws_week (get_plan_summary d plan_id)
  = range 1 (max_weeks d plan_id + 1)
  /\ length (get_plan_summary d plan_id) = Z.to_nat (max_weeks d plan_id)
  /\ ((forall pw, In pw (plan_workouts d) -> pw_plan_id pw <> plan_id) ->
      get_plan_summary d plan_id = [])
  /\ (forall pw, In pw (plan_workouts d) -> pw_plan_id pw = plan_id ->
                 (1 <= pw_week pw)%Z ->
                 In (pw_week pw) (map ws_week (get_plan_summary d plan_id))).
Proof.
  assert (map ws_week (get_plan_summary d plan_id)
          = range 1 (max_weeks d plan_id + 1)) as Hweeks.
  { unfold get_plan_summary. rewrite map_map. simpl. apply map_id. }
  split; [exact Hweeks|]. split; [|split].
  - rewrite <- (length_map ws_week), Hweeks.
    unfold range. rewrite length_map, length_seq. f_equal. lia.
  - intros Hnone. unfold get_plan_summary, max_weeks.
    assert (filter (fun pw => (pw_plan_id pw =? plan_id)%Z) (plan_workouts d)
            = []) as ->; [|reflexivity].
    destruct (filter _ (plan_workouts d)) as [|pw l] eqn:Hf; [reflexivity|].
    assert (In pw (filter (fun pw => (pw_plan_id pw =? plan_id)%Z)
                     (plan_workouts d))) as Hin by (rewrite Hf; now left).
    apply filter_In in Hin as [Hin Heq]. apply Z.eqb_eq in Heq.
    now destruct (Hnone pw Hin).
  - intros pw Hin Hplan Hweek. rewrite Hweeks.
    pose proof (max_weeks_above d plan_id pw Hin Hplan Hweek) as Hmax.
    unfold range. apply in_map_iff.
    exists (Z.to_nat (pw_week pw - 1)). split; [lia|].
    apply in_seq. lia.
Qed.

Lemma plan_summary_lists_weeks_witness :
  get_plan_summary TrackerExamples.no_sessions 2 = [].
Proof.
  apply (plan_summary_lists_weeks TrackerExamples.no_sessions 2).
  intros pw [<-|[]]. discriminate.
Defined.

End Summaries.

(** ** One-rep-max estimates and the analysis (progresstracker.py) *)

Section Estimates.

Import Py Db ProgressTracker Shapes TrackerExamples.
Local Open Scope Q_scope.

Lemma ratio_mono (k1 k2 : Z) :
  (1 <= k2 <= k1)%Z -> 36 / inject_Z k1 <= 36 / inject_Z k2.
Proof.
  intros Hk.
  assert (0 < inject_Z k1) as H1
    by (change 0 with (inject_Z 0); rewrite <- Zlt_Qlt; lia).
  assert (0 < inject_Z k2) as H2
    by (change 0 with (inject_Z 0); rewrite <- Zlt_Qlt; lia).
  assert (inject_Z k2 <= inject_Z k1) as H12 by (rewrite <- Zle_Qle; lia).
  apply Qle_shift_div_l; [assumption|].
  assert (36 / inject_Z k1 * inject_Z k2 == 36 * inject_Z k2 / inject_Z k1)
    as -> by (field; lra).
  apply Qle_shift_div_r; [assumption|]. lra.
Qed.

Lemma one_rep_max_formula (weight : Q) (reps : Z) :
  (1 <= reps <= 36)%Z ->
  calculate_one_rep_max weight reps
  == weight * (36 / inject_Z (37 - reps)).
Proof.
  intros Hr. unfold calculate_one_rep_max.
  destruct (Z.eqb_spec reps 1) as [->|Hne].
  - change (inject_Z (37 - 1)) with 36. field.
  - destruct (Z.ltb_spec 36 reps); [lia | reflexivity].
Qed.

(** X12. For a weight that is not negative, the estimated one-rep max is
    never below the weight lifted, for every count of at least one
    repetition; and it does not decrease when the repetitions go up from 1
    to 36. *)
Theorem one_rep_max_grows_with_reps (weight : Q) (reps reps' : Z) :
  0 <= weight ->
  (1 <= reps)%Z ->
  weight <= calculate_one_rep_max weight reps
  /\ ((reps <= reps' <= 36)%Z ->
      calculate_one_rep_max weight reps
      <= calculate_one_rep_max weight reps').
Proof.
  intros Hw Hr. split.
  - destruct (Z.le_gt_cases reps 36) as [Hle|Hgt].
    + rewrite one_rep_max_formula by lia.
      pose proof (ratio_mono 36 (37 - reps) ltac:(lia)) as Hratio.
      assert (36 / inject_Z 36 == 1) as H1 by reflexivity.
      rewrite H1 in Hratio.
      assert (weight * 1 <= weight * (36 / inject_Z (37 - reps))) as Hmul
        by (rewrite !(Qmult_comm weight);
            now apply Qmult_le_compat_r).
      lra.
    + unfold calculate_one_rep_max.
      destruct (Z.eqb_spec reps 1); [lia|].
      destruct (Z.ltb_spec 36 reps); [lra | lia].
  - intros Hrr. rewrite !one_rep_max_formula by lia.
    rewrite !(Qmult_comm weight). apply Qmult_le_compat_r; [|assumption].
    apply ratio_mono. lia.
Qed.

Lemma one_rep_max_grows_with_reps_witness :
  100 <= calculate_one_rep_max 100 10
  /\ calculate_one_rep_max 100 10 <= calculate_one_rep_max 100 12.
Proof.
  destruct (one_rep_max_grows_with_reps 100 10 12) as [Hge Hmono].
  - discriminate.
  - lia.
  - split; [exact Hge | apply Hmono; lia].
Defined.

(** X13. Past 36 repetitions the estimate falls back to twice the weight:
    for a positive weight this is below the estimate for any count from 20
    to 36 repetitions, so the estimate drops when the repetitions go from
    36 to 37. *)
Theorem one_rep_max_drops_past_36 (weight : Q) (reps reps' : Z) :
  0 < weight ->
  (20 <= reps <= 36)%Z -> (36 < reps')%Z ->
  calculate_one_rep_max weight reps' == weight * 2
  /\ calculate_one_rep_max weight reps'
     < calculate_one_rep_max weight reps.
Proof.
  intros Hw Hr Hr'.
  assert (calculate_one_rep_max weight reps' == weight * 2) as Hhigh.
  { unfold calculate_one_rep_max.
    destruct (Z.eqb_spec reps' 1); [lia|].
    destruct (Z.ltb_spec 36 reps'); [reflexivity | lia]. }
  split; [exact Hhigh|]. rewrite Hhigh, one_rep_max_formula by lia.
  rewrite !(Qmult_comm weight). apply Qmult_lt_compat_r; [assumption|].
  pose proof (ratio_mono 17 (37 - reps) ltac:(lia)) as Hratio.
  assert (2 < 36 / inject_Z 17) as H2 by reflexivity. lra.
Qed.

Lemma one_rep_max_drops_past_36_witness :
  calculate_one_rep_max 100 37 < calculate_one_rep_max 100 36.
Proof.
  apply (one_rep_max_drops_past_36 100 36 37); [reflexivity | lia | lia].
Defined.

Lemma insert_key_shape (k : Z) (l : list Z) :
  insert_key k l <> []
  /\ (length (insert_key k l) <= S (length l))%nat.
Proof.
  induction l as [|x l [_ IH]]; simpl; [split; [discriminate | lia]|].
  destruct (k <? x)%Z; [split; [discriminate | simpl; lia]|].
  destruct (k =? x)%Z; split; try discriminate; simpl; lia.
Qed.

Lemma groupby_date_shape (logs_df : list log_row) :
  (logs_df <> [] -> groupby_date logs_df <> [])
  /\ (length (groupby_date logs_df) <= length logs_df)%nat.
Proof.
  unfold groupby_date, group_keys. rewrite length_map. split.
  - destruct logs_df as [|r l]; [congruence|]. intros _. simpl.
    destruct (insert_key (date r) (fold_right insert_key [] (map date l)))
      eqn:Hk; [|discriminate].
    now destruct (proj1 (insert_key_shape (date r)
                           (fold_right insert_key [] (map date l)))).
  - induction logs_df as [|r l IH]; simpl; [lia|].
    pose proof (proj2 (insert_key_shape (date r)
                         (fold_right insert_key [] (map date l)))). lia.
Qed.

Lemma Qltb_false (x y : Q) : Qltb x y = false <-> y <= x.
Proof.
  unfold Qltb. destruct (Qlt_le_dec x y) as [H|H]; split; auto;
    try discriminate.
  intros H'. exfalso. apply (Qlt_irrefl x). eapply Qlt_le_trans; eauto.
Qed.

(** X16. For finite metrics, [_generate_recommendations] gives at most
    four recommendations, one per criterion, and none at all exactly when
    the strength trend lies in [0, 5], the volume trend in [-5, 10], the
    consistency is at least 0.5 and the mean of the logged reps lies in
    [5, 15] or there is no logged row at all (the mean is then NaN, which
    passes neither test). *)
Theorem recommendations_at_most_four
    (p : progression_metrics) (logs_df : list log_row) :
  (length (_generate_recommendations p logs_df) <= 4)%nat
  /\ (_generate_recommendations p logs_df = []
      <-> 0 <= strength_trend p <= 5
          /\ -5 <= volume_trend p <= 10
          /\ 1 # 2 <= consistency p
          /\ (logs_df = []
              \/ 5 <= mean (map (fun r => inject_Z (reps r)) logs_df) <= 15)).
Proof.
  unfold _generate_recommendations.
  destruct logs_df as [|row rows]; cbn [reps_mean_of].
  - destruct (Qltb (strength_trend p) (-2)) eqn:H1;
      [|destruct (Qltb (strength_trend p) 0) eqn:H2;
        [|destruct (Qltb 5 (strength_trend p)) eqn:H3]];
      (destruct (Qltb (volume_trend p) (-5)) eqn:H4;
       [|destruct (Qltb 10 (volume_trend p)) eqn:H5]);
      destruct (Qltb (consistency p) (1 # 2)) eqn:H6;
      repeat match goal with
             | H : Qltb _ _ = true |- _ => apply Qltb_true in H
             | H : Qltb _ _ = false |- _ => apply Qltb_false in H
             end;
      (split; [simpl; lia|]);
      (split; [try discriminate; intros _; repeat split;
               first [lra | now left]
              | intros (Hs & Hv & Hc & _); try reflexivity; exfalso; lra]).
  - set (m := mean (map (fun r => inject_Z (reps r)) (row :: rows))).
    destruct (Qltb (strength_trend p) (-2)) eqn:H1;
      [|destruct (Qltb (strength_trend p) 0) eqn:H2;
        [|destruct (Qltb 5 (strength_trend p)) eqn:H3]];
      (destruct (Qltb (volume_trend p) (-5)) eqn:H4;
       [|destruct (Qltb 10 (volume_trend p)) eqn:H5]);
      destruct (Qltb (consistency p) (1 # 2)) eqn:H6;
      (destruct (Qltb 15 m) eqn:H7; [|destruct (Qltb m 5) eqn:H8]);
      repeat match goal with
             | H : Qltb _ _ = true |- _ => apply Qltb_true in H
             | H : Qltb _ _ = false |- _ => apply Qltb_false in H
             end;
      (split; [simpl; lia|]);
      (split; [try discriminate; intros _; repeat split;
               first [lra | right; split; lra]
              | intros (Hs & Hv & Hc & [Hm|Hm]);
                [discriminate Hm | try reflexivity; exfalso; lra]]).
Qed.

End Estimates.

(** ** The outcomes of the analysis; from the tracker to the recommender;
       the progress report *)

Section Ratings.

Import Py Db ProgressTracker Engine Report Shapes TrackerExamples
  EngineExamples.

(** What the analysis does once the window has its first day. *)
Lemma analysis_from_cutoff (polyfit : fit) (today : Z) (d : Db.t)
    (user_id exercise_id timeframe_days cutoff : Z) :
  days_before today timeframe_days = inr cutoff ->
  (select_logs d user_id exercise_id cutoff = []
   /\ analyze_workout_history polyfit today d user_id exercise_id
        timeframe_days
      = inr (NoData "No workout history found for this exercise", d))
  \/ (select_logs d user_id exercise_id cutoff <> []
      /\ analyze_workout_history polyfit today d user_id exercise_id
           timeframe_days
         = inl KeyError).
Proof.
  intros Hcutoff. unfold analyze_workout_history. rewrite Hcutoff.
  cbn [bind Monad_result Monad_either].
  destruct (select_logs d user_id exercise_id cutoff) as [|first_log logs].
  - left. split; reflexivity.
  - right. split; [discriminate | reflexivity].
Qed.

Lemma days_before_raises (today timeframe_days : Z) (e : exn) :
  days_before today timeframe_days = inl e -> e = OverflowError.
Proof.
  unfold days_before.
  destruct (999999999 <? Z.abs timeframe_days); [now intros [= <-]|].
  destruct ((1 <=? today - timeframe_days)
            && (today - timeframe_days <=? max_ordinal));
    [discriminate | now intros [= <-]].
Qed.

Lemma analysis_returns_no_data (polyfit : fit) (today : Z) (d : Db.t)
    (user_id exercise_id timeframe_days : Z) (a : analysis) (d' : Db.t) :
  analyze_workout_history polyfit today d user_id exercise_id timeframe_days
  = inr (a, d') ->
  a = NoData "No workout history found for this exercise" /\ d' = d.
Proof.
  intros Hrun.
  destruct (days_before today timeframe_days) as [e|cutoff] eqn:Hcutoff.
  - unfold analyze_workout_history in Hrun. rewrite Hcutoff in Hrun.
    discriminate.
  - destruct (analysis_from_cutoff polyfit today d user_id exercise_id
                timeframe_days cutoff Hcutoff) as [[_ Hno]|[_ Hkey]];
      rewrite Hrun in *; [now injection Hno as -> -> | discriminate].
Qed.

(** X14. As written, the analysis cannot get past a history that is not
    empty: whenever the window starts at a date of the years 1000 to 9999
    and holds a log entry, [analyze_workout_history] raises [KeyError], at
    the lookup of the column [one_rep_max] that line 79 has renamed,
    whatever the entries, the window and the fit. A window that leaves the
    calendar raises [OverflowError]. So the one result the analysis ever
    returns is "No data", with the tables as they were: it never writes a
    Progression Record. *)
Theorem analysis_raises_on_any_history
    (polyfit : fit) (today : Z) (d : Db.t)
    (user_id exercise_id timeframe_days : Z) :
  (Z.abs timeframe_days <= 999999999 ->
   first_iso_day <= today - timeframe_days <= max_ordinal ->
   select_logs d user_id exercise_id (today - timeframe_days) <> [] ->
   analyze_workout_history polyfit today d user_id exercise_id
     timeframe_days
   = inl KeyError)
  /\ (999999999 < Z.abs timeframe_days
      \/ today - timeframe_days < 1
      \/ max_ordinal < today - timeframe_days ->
      analyze_workout_history polyfit today d user_id exercise_id
        timeframe_days
      = inl OverflowError)
  /\ (forall a d',
        analyze_workout_history polyfit today d user_id exercise_id
          timeframe_days
        = inr (a, d') ->
        a = NoData "No workout history found for this exercise" /\ d' = d).
Proof.
  split; [|split].
  - intros Hdays Hday Hlogs.
    assert (1 <= today - timeframe_days <= max_ordinal) as Hin
      by (unfold first_iso_day in Hday; lia).
    destruct (analysis_from_cutoff polyfit today d user_id exercise_id
                timeframe_days _ (days_before_in_calendar _ _ Hdays Hin))
      as [[Hnone _]|[_ Hkey]]; [congruence | exact Hkey].
  - intros Hout. unfold analyze_workout_history, days_before.
    destruct (Z.ltb_spec 999999999 (Z.abs timeframe_days));
      [reflexivity|].
    destruct (Z.leb_spec 1 (today - timeframe_days));
      [|reflexivity].
    destruct (Z.leb_spec (today - timeframe_days) max_ordinal);
      [lia | reflexivity].
  - intros a d'. apply analysis_returns_no_data.
Qed.

Lemma analysis_raises_on_any_history_witness :
  analyze_workout_history Spec.least_squares_slope 739004 two_sessions 1 5
    90
  = inl KeyError.
Proof.
  apply (proj1 (analysis_raises_on_any_history Spec.least_squares_slope
                  739004 two_sessions 1 5 90)).
  - simpl. lia.
  - unfold first_iso_day, max_ordinal. lia.
  - discriminate.
Defined.

Lemma order_by_last_first {A : Type} (key : A -> Z) (l : list A) (x : A) :
  (forall y, In y l -> key x < key y) ->
  exists rest, order_by key (l ++ [x]) = x :: rest.
Proof.
  unfold order_by. rewrite fold_right_app. simpl.
  induction l as [|y l IH]; intros Hmin; simpl; [eauto|].
  destruct IH as [rest ->]; [intros z Hz; apply Hmin; now right|].
  simpl. destruct (Z.leb_spec (key y) (key x)) as [Hle|_]; [|eauto].
  specialize (Hmin y (or_introl eq_refl)). lia.
Qed.

(** X18. The record [_save_progression_data] writes is the one the
    recommender reads next: when every earlier record of the user and the
    exercise is dated before today, the latest rating of the pair after
    the call is the rating just stored, a number from -5 to 5. *)
Theorem saved_rating_is_latest
    (today user_id exercise_id : Z) (one_rep_max volume : Q)
    (p : progression_metrics) (d : Db.t) :
  (forall record, In record (progression_tracking d) ->
                  pt_user_id record = user_id ->
                  pt_exercise_id record = exercise_id ->
                  pt_date record < today) ->
  latest_rating
    (_save_progression_data today user_id exercise_id one_rep_max volume p
       d)
    user_id exercise_id
  = Some (progress_rating_of p)
  /\ -5 <= progress_rating_of p <= 5.
Proof.
  intros Hearlier. split; [|apply progress_rating_bounds].
  unfold latest_rating. rewrite save_appends, filter_app.
  cbn [filter pt_user_id pt_exercise_id]. rewrite !Z.eqb_refl.
  cbn [andb].
  destruct (order_by_last_first (fun r => - pt_date r)
              (filter (fun r => (pt_user_id r =? user_id)
                                && (pt_exercise_id r =? exercise_id))
                 (progression_tracking d))
              {| pt_user_id := user_id;
                 pt_exercise_id := exercise_id;
                 pt_date := today;
                 pt_one_rep_max := one_rep_max;
                 pt_volume_total := volume;
                 pt_progress_rating := progress_rating_of p |})
    as [rest ->]; [|reflexivity].
  intros y Hy. apply filter_In in Hy as [Hy Hkeys].
  apply andb_prop in Hkeys as [Hyu Hye].
  apply Z.eqb_eq in Hyu, Hye.
  specialize (Hearlier y Hy Hyu Hye). cbn [pt_date]. lia.
Qed.

Lemma saved_rating_is_latest_witness :
  latest_rating
    (_save_progression_data 739004 1 5 104 312
       {| strength_change_pct := 4; volume_change_pct := 4;
          strength_trend := 22; volume_trend := 4;
          consistency := 7 # 45 |}
       no_sessions)
    1 5
  = Some 4.
Proof.
  apply (proj1 (saved_rating_is_latest 739004 1 5 104 312
                  {| strength_change_pct := 4; volume_change_pct := 4;
                     strength_trend := 22; volume_trend := 4;
                     consistency := 7 # 45 |}
                  no_sessions ltac:(intros record []))).
Defined.

Lemma slice_to_length {A : Type} (k : Z) (l : list A) :
  0 <= k -> (length (slice_to k l) <= Z.to_nat k)%nat.
Proof.
  intros Hk. unfold slice_to.
  destruct (Z.leb_spec 0 k); [|lia]. rewrite length_firstn. lia.
Qed.

Lemma dict_set_length {V : Type} (k : string) (v : V) (l : list (string * V)) :
  (length (dict_set k v l) <= S (length l))%nat.
Proof.
  induction l as [|[k' v'] l IH]; simpl; [lia|].
  destruct (String.eqb k' k); simpl; lia.
Qed.

Lemma dict_set_Forall {V : Type} (P : string * V -> Prop) (k : string)
    (v : V) (l : list (string * V)) :
  P (k, v) -> Forall P l -> Forall P (dict_set k v l).
Proof.
  intros Hnew. induction 1 as [|[k' v'] l Hold Hrest IH]; simpl.
  - repeat constructor. exact Hnew.
  - destruct (String.eqb k' k); constructor; assumption.
Qed.

(** A loop of analyses that returns has found no history at all and has
    left the tables as they were. *)
Lemma analyze_all_returns polyfit today user_id ids :
  forall acc d acc' d',
    analyze_all polyfit today user_id ids acc d = inr (acc', d') ->
    d' = d
    /\ (Forall (fun entry => status (snd entry) = "No data") acc ->
        Forall (fun entry => status (snd entry) = "No data") acc')
    /\ (length acc' <= length acc + length ids)%nat.
Proof.
  induction ids as [|ex_id ids IH]; intros acc d acc' d'; simpl.
  - intros [= <- <-]. split; [reflexivity|]. split; [auto | lia].
  - destruct (find_exercise d ex_id) as [exercise|].
    + destruct (analyze_workout_history polyfit today d user_id ex_id 90)
        as [e|[a d1]] eqn:Hrun; [discriminate|].
      apply analysis_returns_no_data in Hrun as [-> ->].
      cbn [bind Monad_result Monad_either]. intros Hrest.
      apply IH in Hrest as (Hd & Hall & Hlen).
      split; [exact Hd|]. split.
      * intros Hacc. apply Hall. now apply dict_set_Forall.
      * pose proof (dict_set_length (ex_title exercise)
                      (NoData "No workout history found for this exercise")
                      acc).
        lia.
    + intros Hrest. apply IH in Hrest as (Hd & Hall & Hlen).
      split; [exact Hd|]. split; [exact Hall | lia].
Qed.

(** A loop of analyses raises at the first exercise that has a history. *)
Lemma analyze_all_raises polyfit today user_id ids :
  first_iso_day <= today - 90 <= max_ordinal ->
  forall acc d,
    (exists ex_id,
       In ex_id ids /\ find_exercise d ex_id <> None
       /\ select_logs d user_id ex_id (today - 90) <> []) ->
    analyze_all polyfit today user_id ids acc d = inl KeyError.
Proof.
  intros Hday. induction ids as [|ex_id ids IH]; intros acc d;
    [intros (x & [] & _)|].
  intros (x & Hin & Hex & Hlogs). simpl.
  destruct (find_exercise d ex_id) as [exercise|] eqn:Hfound.
  - destruct (analysis_from_cutoff polyfit today d user_id ex_id 90 _
                (days_before_in_calendar today 90 ltac:(simpl; lia)
                   ltac:(unfold first_iso_day in Hday; lia)))
      as [[Hnone ->]|[_ ->]]; [|reflexivity].
    cbn [bind Monad_result Monad_either]. apply IH. exists x.
    destruct Hin as [->|Hin]; [congruence|]. auto.
  - apply IH. exists x. destruct Hin as [->|Hin]; [congruence|]. auto.
Qed.

Lemma no_data_has_no_recommendations
    (progress : list (string * analysis)) :
  Forall (fun entry => status (snd entry) = "No data") progress ->
  all_recommendations progress = [] /\ strength_trends progress = [].
Proof.
  unfold all_recommendations, strength_trends.
  induction 1 as [|[title a] l Ha _ [IH1 IH2]]; [now split|].
  simpl in *. destruct a as [msg|r]; [|discriminate]. now split.
Qed.

(** X19. [generate_progress_report] answers "Plan not found" for a plan
    that does not exist, and writes nothing. For a plan that exists it
    raises [KeyError] as soon as one of the plan's exercises is in the
    catalog and has a log entry of the user in the last 90 days (today a
    date from the 90th day of the year 1000 on). A report it returns
    therefore shows "No data" for every exercise, no recommendation and an
    average trend of 0, and leaves the tables as they were. *)
Theorem progress_report_outcomes
    (polyfit : fit) (today : Z) (d : Db.t) (user_id plan_id : Z) :
  (find_plan d plan_id = None ->
   generate_progress_report polyfit today d user_id plan_id
   = inr (ReportError "Plan not found", d))
  /\ (first_iso_day <= today - 90 <= max_ordinal ->
      find_plan d plan_id <> None ->
      (exists ex_id,
         In ex_id (plan_exercise_ids d plan_id)
         /\ find_exercise d ex_id <> None
         /\ select_logs d user_id ex_id (today - 90) <> []) ->
      generate_progress_report polyfit today d user_id plan_id
      = inl KeyError)
  /\ (forall rep d',
        generate_progress_report polyfit today d user_id plan_id
        = inr (rep, d') ->
        d' = d
        /\ forall body,
             rep = ReportSuccess body ->
             Forall (fun entry => status (snd entry) = "No data")
               (exercise_progress body)
             /\ key_recommendations body = []
             /\ (avg_strength_trend (overall_progress body) == 0)%Q
             /\ exercise_count (overall_progress body)
                <= Z.of_nat (length (plan_exercise_ids d plan_id))).
Proof.
  unfold generate_progress_report. split; [|split].
  - now intros ->.
  - intros Hday Hplan Hhistory.
    destruct (find_plan d plan_id) as [plan|]; [|congruence].
    now rewrite (analyze_all_raises polyfit today user_id _ Hday [] d
                   Hhistory).
  - intros rep d'. destruct (find_plan d plan_id) as [plan|].
    + destruct (analyze_all polyfit today user_id
                  (plan_exercise_ids d plan_id) [] d)
        as [e|[progress d1]] eqn:Hloop; [discriminate|].
      apply analyze_all_returns in Hloop as (-> & Hall & Hlen).
      specialize (Hall (Forall_nil _)).
      destruct (no_data_has_no_recommendations _ Hall) as [Hrecs Htrends].
      cbn [bind Monad_result Monad_either]. intros [= <- <-].
      split; [reflexivity|]. intros body [= <-].
      cbn [exercise_progress key_recommendations overall_progress
           avg_strength_trend exercise_count].
      rewrite Hrecs, Htrends. split; [exact Hall|].
      split; [reflexivity|]. split; [reflexivity|]. simpl in Hlen. lia.
    + intros [= <- <-]. split; [reflexivity|]. discriminate.
Qed.

Lemma progress_report_outcomes_witness :
  generate_progress_report Spec.least_squares_slope sunday both_logged 1 1
  = inl KeyError
  /\ generate_progress_report Spec.least_squares_slope sunday both_logged 1
       9
     = inr (ReportError "Plan not found", both_logged).
Proof.
  split.
  - apply (proj1 (proj2 (progress_report_outcomes Spec.least_squares_slope
                           sunday both_logged 1 1))).
    + unfold sunday, first_iso_day, max_ordinal. lia.
    + discriminate.
    + exists 5. split; [now left|]. split; discriminate.
  - apply (proj1 (progress_report_outcomes Spec.least_squares_slope sunday
                    both_logged 1 9)).
    reflexivity.
Defined.

End Ratings.

(** ** More on the recommender and the workout engine (Engine.py) *)

Section RecommenderMore.

Import Py Db Engine WorkoutEngine Shapes TrackerExamples EngineExamples.

Lemma remove_incl (x w : plan_workout) (l : list plan_workout) :
  In w (remove x l) -> In w l.
Proof.
  induction l as [|y l IH]; simpl; [easy|].
  destruct (plan_workout_eqb y x); simpl; [auto|].
  intros [<-|H]; auto.
Qed.

Lemma remove_keeps (x w : plan_workout) (l : list plan_workout) :
  In w l -> plan_workout_eqb w x = false -> In w (remove x l).
Proof.
  induction l as [|y l IH]; simpl; [easy|].
  intros [->|Hin] Hneq.
  - rewrite Hneq. now left.
  - destruct (plan_workout_eqb y x); [assumption|]. right. now apply IH.
Qed.

Lemma plan_workout_eqb_id (a b : plan_workout) :
  plan_workout_eqb a b = true -> pw_id a = pw_id b.
Proof.
  unfold plan_workout_eqb. intros H.
  repeat (apply andb_prop in H as [H _]). now apply Z.eqb_eq.
Qed.

Lemma remove_completed_incl d today fuel i workouts w :
  In w (remove_completed d today fuel i workouts) -> In w workouts.
Proof.
  revert i workouts. induction fuel as [|fuel IH]; intros i workouts; simpl;
    [auto|].
  destruct (nth_error workouts i) as [x|]; [|auto].
  destruct (0 <? logged_today d today (pw_id x)); intros H;
    apply IH in H; [eapply remove_incl; eassumption | assumption].
Qed.

Lemma remove_completed_keeps d today fuel i workouts w :
  In w workouts -> logged_today d today (pw_id w) = 0 ->
  In w (remove_completed d today fuel i workouts).
Proof.
  revert i workouts. induction fuel as [|fuel IH]; intros i workouts Hin Hnot;
    simpl; [assumption|].
  destruct (nth_error workouts i) as [x|]; [|assumption].
  destruct (0 <? logged_today d today (pw_id x)) eqn:Hx; apply IH; auto.
  apply remove_keeps; [assumption|].
  destruct (plan_workout_eqb w x) eqn:Heq; [|reflexivity].
  apply plan_workout_eqb_id in Heq. rewrite <- Heq, Hnot in Hx. discriminate.
Qed.

Lemma exercise_details_workouts (d : Db.t) (workouts : list plan_workout) :
  map wd_workout (exercise_details d workouts)
  = filter (fun w => match find_exercise d (pw_exercise_id w) with
                     | Some _ => true
                     | None => false
                     end)
      workouts.
Proof.
  unfold exercise_details.
  induction workouts as [|w ws IH]; simpl; [reflexivity|].
  destruct (find_exercise d (pw_exercise_id w)); simpl; now rewrite IH.
Qed.

(** X20. A "scheduled" answer lists workouts scheduled for today only,
    and it never leaves out a scheduled workout that has no log entry
    dated today, as long as the exercise of the workout is in the
    catalog. *)
Theorem scheduled_answer_keeps_unlogged_workouts
    (rnd : list nat) (today : Z) (d : Db.t) (user_id : Z)
    (plan_arg : option Z) (message : string)
    (workouts : list workout_detail) (adjustments : list string)
    (muscle_recovery : list (string * string)) :
  get_daily_recommendation rnd today d user_id plan_arg
  = inr (Scheduled message workouts adjustments muscle_recovery) ->
  exists plan_id plan,
    resolve_plan_id d plan_arg = Some plan_id
    /\ find_plan d plan_id = Some plan
    /\ (forall w, In w (map wd_workout workouts) ->
                  In w (workouts_on d plan_id (current_week_of today plan)
                          (weekday_of today)))
    /\ (forall w, In w (workouts_on d plan_id (current_week_of today plan)
                          (weekday_of today)) ->
                  logged_today d today (pw_id w) = 0 ->
                  find_exercise d (pw_exercise_id w) <> None ->
                  In w (map wd_workout workouts)).
Proof.
  unfold get_daily_recommendation.
  destruct (resolve_plan_id d plan_arg) as [plan_id|]; [|discriminate].
  destruct (find_plan d plan_id) as [plan|] eqn:Hplan; [|discriminate].
  set (sched := workouts_on d plan_id (current_week_of today plan)
                  (weekday_of today)).
  assert (after_schedule_lookup rnd today d user_id plan_id sched
          = Scheduled message workouts adjustments muscle_recovery ->
          (forall w, In w (map wd_workout workouts) -> In w sched)
          /\ (forall w, In w sched -> logged_today d today (pw_id w) = 0 ->
                        find_exercise d (pw_exercise_id w) <> None ->
                        In w (map wd_workout workouts))) as Hcore.
  { unfold after_schedule_lookup.
    destruct (remove_completed d today (length sched) 0 sched)
      as [|w0 ws0] eqn:Hloop; [discriminate|].
    intros Hanswer.
    assert (workouts = exercise_details d (w0 :: ws0)) as ->
      by congruence.
    clear Hanswer. rewrite exercise_details_workouts. split.
    - intros w Hw. apply filter_In in Hw as [Hw _].
      eapply remove_completed_incl. rewrite Hloop. exact Hw.
    - intros w Hw Hnot Hex. apply filter_In. split.
      + rewrite <- Hloop. now apply remove_completed_keeps.
      + destruct (find_exercise d (pw_exercise_id w)); congruence. }
  intros Hrun. exists plan_id, plan. split; [reflexivity|].
  split; [exact Hplan|]. apply Hcore.
  destruct sched as [|w0 ws0] eqn:Hs.
  - destruct (_needs_recovery d today user_id); [discriminate|].
    destruct (order_by_random_limit 1 rnd _) as [|alt ?].
    + now injection Hrun.
    + destruct (day_names (pw_day alt)); discriminate.
  - now injection Hrun.
Qed.

Lemma scheduled_answer_keeps_unlogged_workouts_witness :
  exists message workouts adjustments muscle_recovery,
    get_daily_recommendation [] sunday both_logged 1 (Some 1)
    = inr (Scheduled message workouts adjustments muscle_recovery)
    /\ forall w, In w (map wd_workout workouts) -> pw_day w = 7.
Proof.
  destruct (get_daily_recommendation [] sunday both_logged 1 (Some 1))
    as [err|[| | | |message workouts adjustments muscle_recovery]] eqn:Hrun;
    try (vm_compute in Hrun; discriminate).
  exists message, workouts, adjustments, muscle_recovery.
  split; [reflexivity|].
  destruct (scheduled_answer_keeps_unlogged_workouts _ _ _ _ _ _ _ _ _ Hrun)
    as (plan_id & plan & Hres & Hfind & Hincl & _).
  injection Hres as <-. injection Hfind as <-.
  intros w Hw. specialize (Hincl w Hw).
  unfold workouts_on in Hincl. apply filter_In in Hincl as [_ Hkeys].
  apply andb_prop in Hkeys as [_ Hday]. now apply Z.eqb_eq in Hday.
Defined.

Lemma In_firstn {A : Type} (x : A) (n : nat) (l : list A) :
  In x (firstn n l) -> In x l.
Proof.
  intros H. rewrite <- (firstn_skipn n l). apply in_or_app. now left.
Qed.

Lemma In_skipn {A : Type} (x : A) (n : nat) (l : list A) :
  In x (skipn n l) -> In x l.
Proof.
  intros H. rewrite <- (firstn_skipn n l). apply in_or_app. now right.
Qed.

Lemma random_limit_incl {A : Type} (limit : nat) :
  forall (rnd : list nat) (rows : list A) (x : A),
    In x (order_by_random_limit limit rnd rows) -> In x rows.
Proof.
  induction limit as [|limit IH]; intros rnd rows x;
    cbn [order_by_random_limit]; [easy|].
  destruct (nth_error rows (hd 0 rnd mod length rows)%nat) as [y|] eqn:Hy;
    [|easy].
  intros [<-|Hin].
  - eapply nth_error_In. exact Hy.
  - apply IH in Hin. apply in_app_or in Hin as [Hin|Hin];
      [eapply In_firstn | eapply In_skipn]; exact Hin.
Qed.

Lemma random_limit_length {A : Type} (limit : nat) :
  forall (rnd : list nat) (rows : list A),
    (length (order_by_random_limit limit rnd rows) <= limit)%nat.
Proof.
  induction limit as [|limit IH]; intros rnd rows;
    cbn [order_by_random_limit length]; [lia|].
  destruct (nth_error rows (hd 0 rnd mod length rows)%nat);
    cbn [length]; [|lia].
  specialize (IH (tl rnd)
                (firstn (hd 0 rnd mod length rows)%nat rows
                 ++ skipn (S (hd 0 rnd mod length rows)%nat) rows)%list).
  lia.
Qed.

Lemma random_limit_draws {A : Type} (limit : nat) (rnd : list nat)
    (rows : list A) :
  rows <> [] ->
  exists x rest,
    order_by_random_limit (S limit) rnd rows = x :: rest /\ In x rows.
Proof.
  intros Hrows. cbn [order_by_random_limit].
  destruct (nth_error rows (hd 0 rnd mod length rows)%nat) as [y|] eqn:Hy.
  - exists y. eexists. split; [reflexivity|]. eapply nth_error_In. exact Hy.
  - exfalso. apply nth_error_None in Hy.
    assert (length rows <> 0)%nat by (destruct rows; simpl; congruence).
    pose proof (Nat.mod_upper_bound (hd 0%nat rnd) (length rows)). lia.
Qed.

Lemma day_names_raises (day : Z) :
  day < 1 \/ 7 < day -> day_names day = inl KeyError.
Proof.
  intros Hday. unfold day_names.
  destruct day as [|p|p]; [reflexivity | | reflexivity].
  do 3 (destruct p as [p|p|]; try reflexivity; try lia).
Qed.

(** X22. On a day without a scheduled workout and without the need to
    recover, a current week whose rows all have a day outside 1 to 7 makes
    the recommendation raise [KeyError], from the lookup of the day name. *)
Theorem recommendation_raises_on_stray_day
    (rnd : list nat) (today : Z) (d : Db.t) (user_id : Z)
    (plan_arg : option Z) (plan_id : Z) (plan : fitness_plan) :
  resolve_plan_id d plan_arg = Some plan_id ->
  find_plan d plan_id = Some plan ->
  workouts_on d plan_id (current_week_of today plan) (weekday_of today)
  = [] ->
  _needs_recovery d today user_id = false ->
  workouts_in_week d plan_id (current_week_of today plan) <> [] ->
  (forall w, In w (workouts_in_week d plan_id (current_week_of today plan))
             -> pw_day w < 1 \/ 7 < pw_day w) ->
  get_daily_recommendation rnd today d user_id plan_arg = inl KeyError.
Proof.
  intros Hres Hplan Htoday Hrec Hweek Hdays.
  unfold get_daily_recommendation. rewrite Hres, Hplan, Htoday, Hrec.
  destruct (random_limit_draws 0 rnd _ Hweek) as (x & rest & -> & Hin).
  now rewrite (day_names_raises _ (Hdays x Hin)).
Qed.

Lemma recommendation_raises_on_stray_day_witness :
  get_daily_recommendation [] sunday StrayExamples.stray_day 1 (Some 1)
  = inl KeyError.
Proof.
  apply (recommendation_raises_on_stray_day [] sunday
           StrayExamples.stray_day 1 (Some 1) 1 my_plan);
    try reflexivity.
  - discriminate.
  - intros w [<-|[]]. simpl. lia.
Defined.

(** X23. The recommender answers [None] exactly when it finds no plan:
    the two tests on [plan_id] leave no plan id, or the id names no row of
    [fitness_plans]. With a plan it always answers with a typed response
    or raises. *)
Theorem no_answer_iff_no_plan
    (rnd : list nat) (today : Z) (d : Db.t) (user_id : Z)
    (plan_arg : option Z) :
  get_daily_recommendation rnd today d user_id plan_arg = inr NoResponse
  <-> match resolve_plan_id d plan_arg with
      | None => True
      | Some plan_id => find_plan d plan_id = None
      end.
Proof.
  unfold get_daily_recommendation.
  destruct (resolve_plan_id d plan_arg) as [plan_id|]; [|now split].
  destruct (find_plan d plan_id) as [plan|]; [|now split].
  split; [|discriminate]. intros Hrun. exfalso.
  assert (forall workouts,
            after_schedule_lookup rnd today d user_id plan_id workouts
            <> NoResponse) as Hafter
    by (intros workouts; unfold after_schedule_lookup;
        now destruct (remove_completed d today (length workouts) 0
                        workouts)).
  destruct (workouts_on d plan_id (current_week_of today plan)
              (weekday_of today)) as [|w0 ws0].
  - destruct (_needs_recovery d today user_id); [discriminate|].
    destruct (order_by_random_limit 1 rnd _) as [|alt ?].
    + injection Hrun as Hrun. now apply Hafter in Hrun.
    + destruct (day_names (pw_day alt)); discriminate.
  - injection Hrun as Hrun. now apply Hafter in Hrun.
Qed.

Lemma existsb_eqb_In (g : string) (l : list string) :
  existsb (String.eqb g) l = true <-> In g l.
Proof.
  rewrite existsb_exists. split.
  - intros (x & Hin & Heq). apply String.eqb_eq in Heq. now subst.
  - intros Hin. exists g. split; [assumption | apply String.eqb_refl].
Qed.

(** X24. For a plan whose goal contains "Body Building" the bonus workout
    specialises in one of Arms, Shoulders, Calves and Abs: a group not
    among the recently trained ones of user 1 unless all four are, with
    at most 4 exercises, each an exercise of the catalog for that muscle
    group. *)
Theorem body_building_bonus_targets_one_group
    (rnd : list nat) (d : Db.t) (today plan_id : Z) (plan : fitness_plan) :
  find_plan d plan_id = Some plan ->
  contains "Body Building" (fp_goal plan) = true ->
  exists group,
    In group ["Arms"; "Shoulders"; "Calves"; "Abs"]%string
    /\ r_title (_generate_bonus_workout rnd d today plan_id)
       = (group ++ " Specialization")%string
    /\ (In group (_get_recent_muscle_groups d today 1 2) ->
        forall g, In g ["Arms"; "Shoulders"; "Calves"; "Abs"]%string ->
                  In g (_get_recent_muscle_groups d today 1 2))
    /\ (length (r_exercises (_generate_bonus_workout rnd d today plan_id))
        <= 4)%nat
    /\ forall shown,
         In shown (r_exercises (_generate_bonus_workout rnd d today plan_id))
         -> exists ex,
              In ex (Db.exercises d)
              /\ ex_muscle_group ex = group
              /\ t_title shown = ex_title ex.
Proof.
  intros Hplan Hgoal. unfold _generate_bonus_workout.
  rewrite Hplan, Hgoal.
  set (recent := _get_recent_muscle_groups d today 1 2).
  set (potential := ["Arms"; "Shoulders"; "Calves"; "Abs"]%string).
  assert (exists group,
            In group potential
            /\ match find (fun g => negb (existsb (String.eqb g) recent))
                       potential with
               | Some g => g
               | None => "Arms"%string
               end = group
            /\ (In group recent -> forall g, In g potential -> In g recent))
    as (group & Hin & -> & Hrecent).
  { destruct (find (fun g => negb (existsb (String.eqb g) recent)) potential)
      as [g|] eqn:Hfind.
    - apply find_some in Hfind as [Hin Hfresh]. exists g.
      split; [exact Hin|]. split; [reflexivity|]. intros Hg.
      apply existsb_eqb_In in Hg. rewrite Hg in Hfresh. discriminate.
    - exists "Arms"%string. split; [now left|]. split; [reflexivity|].
      intros _ g Hg. apply (find_none _ _ Hfind) in Hg.
      apply negb_false_iff in Hg. now apply existsb_eqb_In. }
  exists group. split; [exact Hin|]. split; [reflexivity|].
  split; [exact Hrecent|]. cbn [r_exercises].
  unfold _get_exercises_for_muscle_group. rewrite length_map. split.
  - apply random_limit_length.
  - intros shown Hshown. apply in_map_iff in Hshown as (ex & <- & Hex).
    apply random_limit_incl in Hex. apply filter_In in Hex as [Hex Hgroup].
    apply String.eqb_eq in Hgroup. exists ex. now repeat split.
Qed.

Lemma body_building_bonus_targets_one_group_witness :
  exists group,
    In group ["Arms"; "Shoulders"; "Calves"; "Abs"]%string
    /\ r_title (_generate_bonus_workout [] both_logged sunday 1)
       = (group ++ " Specialization")%string.
Proof.
  destruct (body_building_bonus_targets_one_group [] both_logged sunday 1
              my_plan) as (group & Hin & Htitle & _);
    [reflexivity | reflexivity |].
  exists group. now split.
Defined.

(** X25. [get_workout_details] keeps, in their order, exactly the workouts
    whose exercise is in the catalog, and gives each the type, equipment,
    muscle group and level of that exercise; a workout with an unknown
    exercise is dropped without an error. *)
Theorem workout_details_skip_unknown_exercises
    (d : Db.t) (workouts : list plan_workout) (user_id : Z) :
  map wd_workout (get_workout_details d workouts user_id)
  = filter (fun w => match find_exercise d (pw_exercise_id w) with
                     | Some _ => true
                     | None => false
                     end)
      workouts
  /\ forall detail,
       In detail (get_workout_details d workouts user_id) ->
       exists ex,
         find_exercise d (pw_exercise_id (wd_workout detail)) = Some ex
         /\ ex_id ex = pw_exercise_id (wd_workout detail)
         /\ wd_exercise_type detail = ex_type ex
         /\ wd_equipment detail = ex_equipment ex
         /\ wd_muscle_group detail = ex_muscle_group ex
         /\ wd_level detail = ex_level ex.
Proof.
  unfold get_workout_details. split; [apply exercise_details_workouts|].
  intros detail Hin. unfold exercise_details in Hin.
  apply in_flat_map in Hin as (w & _ & Hin).
  destruct (find_exercise d (pw_exercise_id w)) as [ex|] eqn:Hex; [|easy].
  destruct Hin as [<-|[]]. exists ex. cbn [wd_workout wd_exercise_type
    wd_equipment wd_muscle_group wd_level].
  split; [exact Hex|]. split; [|now repeat split].
  unfold find_exercise in Hex. apply find_some in Hex as [_ Hid].
  now apply Z.eqb_eq.
Qed.

Local Open Scope Q_scope.

(** X26. The suggestion depends on the last entry of the history only.
    For a weight that is not negative it never suggests less than the
    weight last used: 5% more, with the sets completed, when the target
    sets were completed, and the same weight with the target sets
    otherwise. *)
Theorem suggestion_follows_last_session
    (earlier : list history_entry) (last_workout : history_entry)
    (used : Q) :
  weight last_workout = Some used ->
  0 <= used ->
  calculate_suggested_progression (earlier ++ [last_workout])
  = calculate_suggested_progression [last_workout]
  /\ used <= s_weight (calculate_suggested_progression
                         (earlier ++ [last_workout]))
  /\ ((target_sets last_workout <= sets_completed last_workout)%Z ->
      s_weight (calculate_suggested_progression
                  (earlier ++ [last_workout])) == used * (105 # 100)
      /\ s_sets (calculate_suggested_progression
                   (earlier ++ [last_workout]))
         = sets_completed last_workout)
  /\ ((sets_completed last_workout < target_sets last_workout)%Z ->
      s_weight (calculate_suggested_progression
                  (earlier ++ [last_workout])) == used
      /\ s_sets (calculate_suggested_progression
                   (earlier ++ [last_workout]))
         = target_sets last_workout).
Proof.
  intros Hweight Hused.
  assert (calculate_suggested_progression (earlier ++ [last_workout])
          = calculate_suggested_progression [last_workout]) as ->.
  { unfold calculate_suggested_progression.
    destruct (earlier ++ [last_workout])%list as [|first rest] eqn:Hall.
    - now destruct earlier.
    - rewrite <- Hall, last_last. reflexivity. }
  split; [reflexivity|].
  unfold calculate_suggested_progression. cbn [last]. rewrite Hweight.
  destruct (Z.leb_spec (target_sets last_workout)
              (sets_completed last_workout)) as [Hdone|Hshort];
    cbn [s_weight s_sets].
  - split; [lra|]. split; [intros _; split; reflexivity | lia].
  - split; [lra|]. split; [lia | intros _; split; reflexivity].
Qed.

Lemma suggestion_follows_last_session_witness :
  s_weight (calculate_suggested_progression
              [ {| sets_completed := 3; target_sets := 3;
                   reps_completed := 10;
                   target_reps := Planner.RepsStr "8-12";
                   weight := Some 100 |} ])
  == 105.
Proof.
  destruct (suggestion_follows_last_session []
              {| sets_completed := 3; target_sets := 3;
                 reps_completed := 10;
                 target_reps := Planner.RepsStr "8-12";
                 weight := Some 100 |} 100 eq_refl)
    as (_ & _ & Hdone & _); [lra|].
  destruct Hdone as [Hw _]; [simpl; lia|].
  simpl app in Hw. rewrite Hw. reflexivity.
Defined.

End RecommenderMore.
